(** * smart_traffic_light: the project launcher and its telemetry store

    A shallow embedding of [launcher.py] (class [ProjectLauncher]) together
    with the collaborators it drives.  Python statements become actions of a
    small exception-and-state monad over a [World]; every call the launcher
    makes on a collaborator (console, clock, configuration provider,
    database, analyzer, traffic engine) is appended to a trace, so that
    statements about "what the launcher does, in which order" are statements
    about that trace. *)

From Stdlib Require Import ZArith Lia List Ascii Floats.PrimFloat.
From stdpp Require Import base strings gmap list.

(** ** Python values and exceptions *)

(** A naive [datetime.datetime]. *)
Record datetime := Datetime {
  year : Z; month : Z; day : Z;
  hour : Z; minute : Z; second : Z;
  microsecond : Z
}.

(** The scalar values that travel through the launcher: hyperparameters,
    statistics, and the fields of a result payload. *)
Inductive pyval :=
| PyInt (z : Z)
| PyFloat (f : float)
| PyStr (s : string)
| PyBool (b : bool)
| PyDatetime (d : datetime)
| PyNone.

(** A Python [dict] with string keys. *)
Abbreviation pydict := (gmap string pyval).

(** Python exceptions, by the classes the launcher's handlers tell apart.
    [ValueError], [IndexError], [AttributeError], [EOFError], [ImportError],
    [TypeError] and [OtherException] are subclasses of [Exception]; [KeyboardInterrupt] and
    [SystemExit] derive from [BaseException] only, so [except Exception]
    does not catch them. *)
Inductive exn :=
| ValueError (msg : string)
| IndexError (msg : string)
| AttributeError (msg : string)
| EOFError (msg : string)
| ImportError (msg : string)
| TypeError (msg : string)
| OtherException (msg : string)
| KeyboardInterrupt
| SystemExit (code : Z).

(** [isinstance(e, Exception)]. *)
Definition is_Exception (e : exn) : bool :=
  match e with
  | KeyboardInterrupt | SystemExit _ => false
  | _ => true
  end.

(** [str(e)], as interpolated by [f"...{e}"]. *)
Definition exn_str (e : exn) : string :=
  match e with
  | ValueError m | IndexError m | AttributeError m | EOFError m
  | ImportError m | TypeError m | OtherException m => m
  | KeyboardInterrupt => ""
  | SystemExit c => ""
  end.

(** ** Wall-clock time and [strftime] *)

(** The ranges [datetime] enforces, with the year restricted to four digits
    (below 1000 the padding of [%Y] is left to the C library). *)
Definition valid_datetime (d : datetime) : Prop :=
  (1000 <= year d <= 9999 /\ 1 <= month d <= 12 /\ 1 <= day d <= 31 /\
   0 <= hour d < 24 /\ 0 <= minute d < 60 /\ 0 <= second d < 60)%Z.

Definition digit (n : Z) : Ascii.ascii :=
  Ascii.ascii_of_N (Z.to_N (48 + n mod 10)).

(** Zero-padded decimal of width 2 and 4. *)
Definition pad2 (n : Z) : string :=
  String (digit (n / 10)) (String (digit n) "").

Definition pad4 (n : Z) : string :=
  String (digit (n / 1000)) (String (digit (n / 100))
    (String (digit (n / 10)) (String (digit n) ""))).

(** One [strftime] directive: the character after [%]. *)
Definition directive (c : Ascii.ascii) (d : datetime) : string :=
  if Ascii.eqb c "Y"%char then pad4 (year d)
  else if Ascii.eqb c "m"%char then pad2 (month d)
  else if Ascii.eqb c "d"%char then pad2 (day d)
  else if Ascii.eqb c "H"%char then pad2 (hour d)
  else if Ascii.eqb c "M"%char then pad2 (minute d)
  else if Ascii.eqb c "S"%char then pad2 (second d)
  else String "%"%char (String c "").

(** [d.strftime(fmt)] for the directives [%Y %m %d %H %M %S]; every other
    character is copied. *)
Fixpoint strftime (fmt : string) (d : datetime) : string :=
  match fmt with
  | "" => ""
  | String c rest =>
      if Ascii.eqb c "%"%char then
        match rest with
        | String k rest' => directive k d +:+ strftime rest' d
        | "" => "%"
        end
      else String c (strftime rest d)
  end.

(** The f-string on the session-id line of [start_training]:
    [f"train_{datetime.now().strftime('%Y%m%d_%H%M%S')}"]. *)
Definition training_session_id (now : datetime) : string :=
  "train_" +:+ strftime "%Y%m%d_%H%M%S" now.

(** ** The telemetry store

    [database.py] is not part of the sources at hand; the launcher only
    imports [get_database] from it.  The store is therefore modelled from
    its specified contract (SessionRegistry, EventLog, ExportEngine). *)

(** Modelled from the spec: the lifecycle state of a session ([database.py]
    is missing); the three states other than [running] are terminal. *)
Inductive status := running | completed | stopped | failed.

Definition is_terminal (s : status) : bool :=
  match s with running => false | _ => true end.

(** Modelled from the spec: the terminal state a status string names. *)
Definition status_of_string (s : string) : option status :=
  if decide (s = "completed") then Some completed
  else if decide (s = "stopped") then Some stopped
  else if decide (s = "failed") then Some failed
  else None.

(** Modelled from the spec: [result.status] of a result payload such as
    [{"status": "completed"}], from which [end_session] derives the state. *)
Definition status_of_result (r : pydict) : option status :=
  match r !! "status" with
  | Some (PyStr s) => status_of_string s
  | _ => None
  end.

(** Modelled from the spec: the Session record of the missing store. *)
Record Session := {
  start_time : datetime;
  end_time : option datetime;
  session_status : status;
  config_snapshot : pydict;
  total_episodes : Z;
  best_score : float;
  result_payload : option pydict
}.

(** Modelled from the spec: the Event record of the missing store. *)
Record Event := {
  ev_time : datetime;
  ev_level : string;
  ev_source : string;
  ev_message : string;
  ev_session : option string
}.

(** Modelled from the spec: the missing store itself.  Sessions are kept
    most recent first, events in write order. *)
Record Store := {
  sessions : list (string * Session);
  events : list Event;
  closed : bool
}.

Definition empty_store : Store :=
  {| sessions := []; events := []; closed := false |}.

(** Modelled from the spec: the error taxonomy of the missing store. *)
Inductive db_error :=
| DuplicateSessionError
| NotFoundError
| InvalidStateError
| StorageUnavailableError
| ExportIOError.

Fixpoint assoc {A} (k : string) (l : list (string * A)) : option A :=
  match l with
  | [] => None
  | (k', v) :: l' => if decide (k = k') then Some v else assoc k l'
  end.

Fixpoint assoc_set {A} (k : string) (v : A) (l : list (string * A))
  : list (string * A) :=
  match l with
  | [] => []
  | (k', v') :: l' =>
      if decide (k = k') then (k', v) :: l' else (k', v') :: assoc_set k v l'
  end.

(** Modelled from the spec: [get_session(id) -> Session | absent]. *)
Definition get_session (id : string) (st : Store) : option Session :=
  assoc id (sessions st).

(** Modelled from the spec: [start_session(id, config)] creates a session in
    [running] state with the given snapshot and zeroed totals, and fails with
    [DuplicateSessionError] when [id] exists.  A closed store is unavailable:
    the call reports [StorageUnavailableError] and changes nothing. *)
Definition start_session (now : datetime) (id : string) (config : pydict)
    (st : Store) : option db_error * Store :=
  if closed st then (Some StorageUnavailableError, st)
  else match get_session id st with
       | Some _ => (Some DuplicateSessionError, st)
       | None =>
           let s := {| start_time := now; end_time := None;
                       session_status := running; config_snapshot := config;
                       total_episodes := 0; best_score := 0%float;
                       result_payload := None |} in
           (None, {| sessions := (id, s) :: sessions st;
                     events := events st; closed := closed st |})
       end.

(** Modelled from the spec: the warning the missing [end_session] logs on a
    repeated close (the spec fixes neither its source nor its text). *)
Definition already_closed_warning (now : datetime) (id : string) : Event :=
  {| ev_time := now; ev_level := "WARNING"; ev_source := "database";
     ev_message := "session already closed: " +:+ id;
     ev_session := Some id |}.

(** Modelled from the spec: [end_session(id, result)] moves a [running]
    session to the terminal state named by [result.status], stamps the end
    time and stores the payload.  On an already-terminal session it logs a
    warning and leaves the session unchanged; an unknown id is a no-op as
    well ([NotFoundError] is reported), and so is a payload whose status is
    none of completed/stopped/failed. *)
Definition end_session (now : datetime) (id : string) (result : pydict)
    (st : Store) : option db_error * Store :=
  if closed st then (Some StorageUnavailableError, st)
  else match get_session id st with
       | None => (Some NotFoundError, st)
       | Some s =>
           if is_terminal (session_status s) then
             (Some InvalidStateError,
              {| sessions := sessions st;
                 events := events st ++ [already_closed_warning now id];
                 closed := closed st |})
           else match status_of_result result with
                | None => (Some InvalidStateError, st)
                | Some t =>
                    let s' := {| start_time := start_time s;
                                 end_time := Some now;
                                 session_status := t;
                                 config_snapshot := config_snapshot s;
                                 total_episodes := total_episodes s;
                                 best_score := best_score s;
                                 result_payload := Some result |} in
                    (None, {| sessions := assoc_set id s' (sessions st);
                              events := events st; closed := closed st |})
                end
       end.

(** Modelled from the spec: [log(level, source, message, session_id)] appends
    one record; when the store is unavailable the failure is swallowed. *)
Definition log (now : datetime) (level source message : string)
    (session_id : option string) (st : Store) : Store :=
  if closed st then st
  else {| sessions := sessions st;
          events := events st ++
            [{| ev_time := now; ev_level := level; ev_source := source;
                ev_message := message; ev_session := session_id |}];
          closed := closed st |}.

(** Modelled from the spec: [get_sessions(limit)], most recent first. *)
Definition get_sessions (limit : nat) (st : Store)
  : list (string * Session) :=
  take limit (sessions st).

(** Modelled from the spec: the portable document the missing [export]
    writes. *)
Record ExportDoc := {
  doc_session_id : string;
  doc_session : Session;
  doc_events : list Event
}.

Definition events_of (id : string) (st : Store) : list Event :=
  filter (fun e => ev_session e = Some id) (events st).

(** Modelled from the spec: [export(session_id, destination)] writes the
    session record to [destination]; it fails, without raising and without
    writing, when the session is unknown or the destination is not
    writable. *)
Definition export (writable : string -> bool) (id dest : string)
    (st : Store) (files : gmap string ExportDoc)
  : option db_error * gmap string ExportDoc :=
  if closed st then (Some StorageUnavailableError, files)
  else match get_session id st with
       | None => (Some NotFoundError, files)
       | Some s =>
           if writable dest then
             (None, <[dest := {| doc_session_id := id; doc_session := s;
                                 doc_events := events_of id st |}]> files)
           else (Some ExportIOError, files)
       end.

(** Modelled from the spec: [close()] of the missing store handle; the
    persisted records stay. *)
Definition close_store (st : Store) : Store :=
  {| sessions := sessions st; events := events st; closed := true |}.

(** ** Collaborators *)

(** The configuration provider's nested, mutable object
    ([config.training.target_efficiency] and so on). *)
Record TrainingConfig := {
  target_efficiency : float;
  target_mobility : float;
  max_episodes : Z
}.
Record AgentConfig := { learning_rate : float }.
Record EnvironmentConfig := { num_vehicles : Z }.
Record WebConfig := { enabled : bool; host : string; port : Z }.
Record Config := {
  training : TrainingConfig;
  agent : AgentConfig;
  environment : EnvironmentConfig;
  web : WebConfig
}.

(** How a call into an external collaborator ends.  [Interrupted] is a
    SIGINT delivered while the call blocks: Python then runs the installed
    handler in the main thread, at that point. *)
Inductive call_result (A : Type) :=
| Returns (a : A)
| Raises (e : exn)
| Interrupted.
Arguments Returns {A} a.
Arguments Raises {A} e.
Arguments Interrupted {A}.

(** One traffic-system object: what its constructor, [initialize()] and its
    blocking run entry point do. *)
Record EngineBehaviour := {
  on_construct : call_result unit;
  on_initialize : call_result bool;
  on_run : call_result unit
}.

(** The summary the analyzer hands back. *)
Record Summary := {
  sum_total_sessions : pyval;
  sum_total_episodes : pyval;
  sum_avg_reward : pyval;
  sum_completion_rate : pyval
}.

(** Everything the launcher finds around itself and does not change: the
    module-level availability flags, what [traffic_system_module] exposes,
    the clock, the behaviour of each traffic-system object, the string
    builtins, and the parts of the absent modules that no session-lifecycle
    rule describes. *)
Record Env := {
  CONFIG_AVAILABLE : bool;
  DATABASE_AVAILABLE : bool;
  ANALYZER_AVAILABLE : bool;
  TRAFFIC_SYSTEM_AVAILABLE : bool;
  has_IntegratedTrafficSystem : bool;
  has_AutoSmartTrafficSystem : bool;
  clock : nat -> datetime;
  engine : nat -> EngineBehaviour;
  (* str.strip, int(str), float(str), str.isdigit, str.lower *)
  py_strip : string -> string;
  py_int : string -> option Z;
  py_float : string -> option float;
  py_isdigit : string -> bool;
  py_lower : string -> string;
  (* str(e) of the ValueError that int(s) and float(s) raise *)
  py_int_error : string -> string;
  py_float_error : string -> string;
  (* configuration manager *)
  config_file : string;
  save_config_ok : Config -> bool;
  create_sample_config_ok : bool;
  (* database: statistics, retention, export destination *)
  statistics : Store -> pydict;
  purge : Z -> Store -> bool * Store;
  writable : string -> bool;
  (* analyzer *)
  analyze_ok : string -> Store -> bool;
  output_dir : string;
  summary_report : Store -> Summary;
  (* os.path.exists, os.makedirs, __import__: what was there from the
     start, the exception of a [makedirs] the file system refuses, which
     modules import, and what the import of the others raises *)
  path_exists : string -> bool;
  makedirs_error : string -> option exn;
  importable : string -> bool;
  import_error : string -> exn
}.

(** A line typed by the operator, or a SIGINT while [input()] waits. *)
Inductive stdin_item := Line (s : string) | Sigint.

Inductive db_call :=
| StartTrainingSession (id : string) (config : pydict)
| LogEvent (level source message : string)
| EndTrainingSession (id : string) (result : pydict)
| GetTrainingSessions (limit : nat)
| GetStatistics
| CleanupOldData (days : Z)
| ExportData (id path : string)
| Close.

Inductive engine_call :=
| NewIntegratedTrafficSystem
| NewAutoSmartTrafficSystem
| Initialize
| RunTraining
| RunAutoTraining
| RunDeployment.

Inductive config_call :=
| EnsureDirectories
| GetConfig
| PrintConfig
| SaveConfig
| CreateSampleConfig (path : option string).

Inductive analyzer_call :=
| AnalyzeSession (id : string) | GenerateSummaryReport.

(** The calls the launcher makes on the outside, in program order.  [Print]
    carries the text (for an f-string, the template) and the values
    interpolated through a format specification. *)
Inductive Call :=
| Print (text : string) (args : list pyval)
| Input (prompt : string) (args : list pyval)
| Now
| Db (c : db_call)
| Engine (c : engine_call)
| ConfigManager (c : config_call)
| Analyzer (c : analyzer_call)
| PathExists (path : string)
| Makedirs (path : string)
| ImportModule (name : string).

(** ** The world and the monad *)

Record World := {
  env : Env;
  (* attributes of the launcher: [true] when the attribute is not [None] *)
  config_manager : bool;
  database : bool;
  analyzer : bool;
  current_session_id : option string;
  (* state of the collaborators *)
  config : Config;
  store : Store;
  files : gmap string ExportDoc;
  stdin : list stdin_item;
  ticks : nat;
  systems : nat;
  trace : list Call
}.

Definition with_current_session_id (v : option string) (w : World) : World :=
  {| env := env w; config_manager := config_manager w;
     database := database w; analyzer := analyzer w;
     current_session_id := v; config := config w; store := store w;
     files := files w; stdin := stdin w; ticks := ticks w;
     systems := systems w; trace := trace w |}.

Definition with_config (v : Config) (w : World) : World :=
  {| env := env w; config_manager := config_manager w;
     database := database w; analyzer := analyzer w;
     current_session_id := current_session_id w; config := v;
     store := store w; files := files w; stdin := stdin w; ticks := ticks w;
     systems := systems w; trace := trace w |}.

Definition with_store (v : Store) (w : World) : World :=
  {| env := env w; config_manager := config_manager w;
     database := database w; analyzer := analyzer w;
     current_session_id := current_session_id w; config := config w;
     store := v; files := files w; stdin := stdin w; ticks := ticks w;
     systems := systems w; trace := trace w |}.

Definition with_files (v : gmap string ExportDoc) (w : World) : World :=
  {| env := env w; config_manager := config_manager w;
     database := database w; analyzer := analyzer w;
     current_session_id := current_session_id w; config := config w;
     store := store w; files := v; stdin := stdin w; ticks := ticks w;
     systems := systems w; trace := trace w |}.

Definition with_stdin (v : list stdin_item) (w : World) : World :=
  {| env := env w; config_manager := config_manager w;
     database := database w; analyzer := analyzer w;
     current_session_id := current_session_id w; config := config w;
     store := store w; files := files w; stdin := v; ticks := ticks w;
     systems := systems w; trace := trace w |}.

Definition with_ticks (v : nat) (w : World) : World :=
  {| env := env w; config_manager := config_manager w;
     database := database w; analyzer := analyzer w;
     current_session_id := current_session_id w; config := config w;
     store := store w; files := files w; stdin := stdin w; ticks := v;
     systems := systems w; trace := trace w |}.

Definition with_systems (v : nat) (w : World) : World :=
  {| env := env w; config_manager := config_manager w;
     database := database w; analyzer := analyzer w;
     current_session_id := current_session_id w; config := config w;
     store := store w; files := files w; stdin := stdin w; ticks := ticks w;
     systems := v; trace := trace w |}.

Definition with_trace (v : list Call) (w : World) : World :=
  {| env := env w; config_manager := config_manager w;
     database := database w; analyzer := analyzer w;
     current_session_id := current_session_id w; config := config w;
     store := store w; files := files w; stdin := stdin w; ticks := ticks w;
     systems := systems w; trace := v |}.

(** How a statement ends: normally, by an exception, or still running when
    the fuel of an enclosing [while True] is spent. *)
Inductive outcome (A : Type) :=
| Return (a : A)
| Raise (e : exn)
| OutOfFuel.
Arguments Return {A} a.
Arguments Raise {A} e.
Arguments OutOfFuel {A}.

Definition M (A : Type) : Type := World -> outcome A * World.

Definition ret {A} (a : A) : M A := fun w => (Return a, w).

Definition bind {A B} (m : M A) (k : A -> M B) : M B :=
  fun w =>
    match m w with
    | (Return a, w') => k a w'
    | (Raise e, w') => (Raise e, w')
    | (OutOfFuel, w') => (OutOfFuel, w')
    end.

Definition raise {A} (e : exn) : M A := fun w => (Raise e, w).

Declare Scope launcher_scope.
Delimit Scope launcher_scope with M.
Notation "x ← y ; z" := (bind y (fun x => z))
  (at level 20, y at level 100, z at level 200, only parsing) : launcher_scope.
Notation "' x ← y ; z" := (bind y (fun x => z))
  (at level 20, x pattern, y at level 100, z at level 200, only parsing)
  : launcher_scope.
Notation "y ;; z" := (bind y (fun _ => z))
  (at level 100, z at level 200, only parsing, right associativity)
  : launcher_scope.
Local Open Scope launcher_scope.

(** [try: body except <classes>: handler]; [handler e] is [None] when no
    clause matches [e], which then propagates. *)
Definition try_except {A} (body : M A) (handler : exn -> option (M A)) : M A :=
  fun w =>
    match body w with
    | (Raise e, w') =>
        match handler e with
        | Some h => h w'
        | None => (Raise e, w')
        end
    | r => r
    end.

(** [try: body finally: fin].  [fin] runs however [body] ends (also on a
    [return] inside it); an exception of [fin] replaces the pending one. *)
Definition try_finally {A} (body : M A) (fin : M unit) : M A :=
  fun w =>
    match body w with
    | (OutOfFuel, w') => (OutOfFuel, w')
    | (r, w') =>
        match fin w' with
        | (Return _, w'') => (r, w'')
        | (Raise e, w'') => (Raise e, w'')
        | (OutOfFuel, w'') => (OutOfFuel, w'')
        end
    end.

Definition ask {A} (f : Env -> A) : M A := fun w => (Return (f (env w)), w).
Definition get {A} (f : World -> A) : M A := fun w => (Return (f w), w).
Definition modify (f : World -> World) : M unit := fun w => (Return tt, f w).

Definition emit (c : Call) : M unit :=
  modify (fun w => with_trace (trace w ++ [c]) w).

(** Truthiness of an optional string ([None] and [""] are false). *)
Definition truthy (s : option string) : option string :=
  match s with
  | Some "" => None
  | s => s
  end.

(** [str(x)] of an attribute that holds a string or [None]. *)
Definition str_of (s : option string) : string := default "None" s.

Definition nl : string := String (ascii_of_nat 10) "".

(** [print(text)] and [print(f"...{v:spec}...")]. *)
Definition py_print (text : string) : M unit := emit (Print text []).
Definition py_printf (text : string) (args : list pyval) : M unit :=
  emit (Print text args).

(** Reading the clock: the [n]-th reading is [clock n]. *)
Definition tick : M datetime :=
  fun w => (Return (clock (env w) (ticks w)), with_ticks (S (ticks w)) w).

(** [datetime.now()] *)
Definition datetime_now : M datetime := emit Now;; tick.

(** ** The database handle, as the launcher calls it *)

Definition attribute_of_None (name : string) : exn :=
  AttributeError ("'NoneType' object has no attribute '" +:+ name +:+ "'").

(** [self.database.<name>(...)]: an [AttributeError] when the attribute is
    [None], otherwise the call is recorded and performed. *)
Definition database_method {A} (name : string) (c : db_call) (m : M A) : M A :=
  d ← get database;
  if d : bool then emit (Db c);; m else raise (attribute_of_None name).

Definition start_training_session (id : string) (config : pydict) : M unit :=
  database_method "start_training_session" (StartTrainingSession id config)
    (now ← tick;
     modify (fun w => with_store (start_session now id config (store w)).2 w)).

Definition log_event (level source message : string) : M unit :=
  database_method "log_event" (LogEvent level source message)
    (now ← tick;
     modify (fun w => with_store (log now level source message None (store w)) w)).

Definition end_training_session (id : string) (result : pydict) : M unit :=
  database_method "end_training_session" (EndTrainingSession id result)
    (now ← tick;
     modify (fun w => with_store (end_session now id result (store w)).2 w)).

Definition get_training_sessions (limit : nat) : M (list (string * Session)) :=
  database_method "get_training_sessions" (GetTrainingSessions limit)
    (get (fun w => get_sessions limit (store w))).

Definition get_statistics : M pydict :=
  database_method "get_statistics" GetStatistics
    (get (fun w => statistics (env w) (store w))).

Definition cleanup_old_data (days : Z) : M bool :=
  database_method "cleanup_old_data" (CleanupOldData days)
    (fun w => let r := purge (env w) days (store w) in
              (Return r.1, with_store r.2 w)).

(** [export_data] answers [True] exactly when the export succeeded. *)
Definition export_data (id path : string) : M bool :=
  database_method "export_data" (ExportData id path)
    (fun w => let r := export (writable (env w)) id path (store w) (files w) in
              (Return (bool_decide (r.1 = None)), with_files r.2 w)).

Definition close : M unit :=
  database_method "close" Close
    (modify (fun w => with_store (close_store (store w)) w)).

(** ** ProjectLauncher *)

(** [__init__] and [_init_components]: each handle is created when its
    module could be imported (the analyzer needs the database as well). *)
Definition init_launcher (e : Env) (cfg : Config) (st : Store)
    (fs : gmap string ExportDoc) (keys : list stdin_item) : World :=
  {| env := e;
     config_manager := CONFIG_AVAILABLE e;
     database := DATABASE_AVAILABLE e;
     analyzer := ANALYZER_AVAILABLE e && DATABASE_AVAILABLE e;
     current_session_id := None;
     config := cfg; store := st; files := fs; stdin := keys;
     ticks := 0; systems := 0;
     trace := [Print "🔧 初始化项目组件..." []] ++
              (if CONFIG_AVAILABLE e
               then [ConfigManager EnsureDirectories;
                     Print "✅ 配置管理器已初始化" []] else []) ++
              (if DATABASE_AVAILABLE e then [Print "✅ 数据库已初始化" []] else []) ++
              (if ANALYZER_AVAILABLE e && DATABASE_AVAILABLE e
               then [Print "✅ 性能分析器已初始化" []] else []) |}.

Definition stopped_result : pydict := {[ "status" := PyStr "stopped" ]}.
Definition completed_result : pydict := {[ "status" := PyStr "completed" ]}.

Definition shutdown : M unit :=
  py_print (nl +:+ "🛑 正在关闭系统...");;
  d ← get database;
  (if d : bool then
     sid ← get current_session_id;
     match truthy sid with
     | Some id => end_training_session id stopped_result
     | None => ret tt
     end;;
     close
   else ret tt);;
  py_print "✅ 系统已安全关闭".

(** [sys.exit(code)] *)
Definition sys_exit {A} (code : Z) : M A := raise (SystemExit code).

(** The SIGINT handler installed by [__init__].  It never returns: it ends
    in [sys.exit(0)]. *)
Definition _signal_handler {A} : M A :=
  py_print (nl +:+ "🛑 接收到中断信号，正在安全关闭...");;
  shutdown;;
  sys_exit 0.

(** A call that blocks in a collaborator. *)
Definition external {A} (r : call_result A) : M A :=
  match r with
  | Returns a => ret a
  | Raises e => raise e
  | Interrupted => _signal_handler
  end.

(** [input(prompt)]; at end of input Python raises [EOFError]. *)
Definition py_inputf (prompt : string) (args : list pyval) : M string :=
  emit (Input prompt args);;
  l ← get stdin;
  match l with
  | [] => raise (EOFError "EOF when reading a line")
  | Line s :: rest => modify (with_stdin rest);; ret s
  | Sigint :: rest => modify (with_stdin rest);; _signal_handler
  end.

Definition py_input (prompt : string) : M string := py_inputf prompt [].

(** Constructing a traffic system yields a handle: the index of its
    behaviour in [engine]. *)
Definition new_system (c : engine_call) : M nat :=
  emit (Engine c);;
  n ← get systems;
  modify (with_systems (S n));;
  b ← ask (fun e => engine e n);
  external (on_construct b);;
  ret n.

Definition initialize (system : nat) : M bool :=
  emit (Engine Initialize);;
  b ← ask (fun e => engine e system);
  external (on_initialize b).

Definition run (c : engine_call) (system : nat) : M unit :=
  emit (Engine c);;
  b ← ask (fun e => engine e system);
  external (on_run b).

(** [self.config_manager.get_config()] *)
Definition get_config : M Config :=
  c ← get config_manager;
  if c : bool then emit (ConfigManager GetConfig);; get config
  else raise (attribute_of_None "get_config").

(** The dictionary literal built in [start_training]. *)
Definition config_dict_of (c : Config) : pydict :=
  {[ "target_efficiency" := PyFloat (target_efficiency (training c));
     "target_mobility" := PyFloat (target_mobility (training c));
     "max_episodes" := PyInt (max_episodes (training c));
     "learning_rate" := PyFloat (learning_rate (agent c));
     "num_vehicles" := PyInt (num_vehicles (environment c)) ]}.

(** [except Exception as e: handler e] *)
Definition except_Exception {A} (handler : exn -> M A) (e : exn) : option (M A) :=
  if is_Exception e then Some (handler e) else None.

(** The blocks of [start_training], under the comments that head them in
    the source. *)

(** [# 获取配置]: [config = {}], replaced by the provider's object when the
    provider is available ([None] stands for the empty dictionary). *)
Definition load_config : M (option Config) :=
  config_available ← ask CONFIG_AVAILABLE;
  if config_available : bool then
    c ← get_config;
    f ← ask config_file;
    py_print ("📋 使用配置文件: " +:+ f);;
    ret (Some c)
  else ret None.

(** [# 记录到数据库] *)
Definition record_session (config : option Config) : M unit :=
  database_available ← ask DATABASE_AVAILABLE;
  if database_available : bool then
    config_available ← ask CONFIG_AVAILABLE;
    config_dict ← (if config_available : bool then
                     match config with
                     | Some c => ret (config_dict_of c)
                     | None => raise (AttributeError
                                 "'dict' object has no attribute 'training'")
                     end
                   else ret ∅);
    sid ← get current_session_id;
    start_training_session (str_of sid) config_dict;;
    log_event "INFO" "launcher" ("开始训练会话: " +:+ str_of sid)
  else ret tt.

(** [# 启动交通系统]: the body of the [try].  Its [return] in the last branch
    leaves the function through the [finally] block, which is all that
    follows the [try] statement anyway. *)
Definition launch_traffic_system : M unit :=
  integrated ← ask has_IntegratedTrafficSystem;
  if integrated : bool then
    system ← new_system NewIntegratedTrafficSystem;
    ok ← initialize system;
    if ok : bool then
      sid ← get current_session_id;
      py_print ("🎯 训练会话ID: " +:+ str_of sid);;
      run RunTraining system
    else ret tt
  else
    auto ← ask has_AutoSmartTrafficSystem;
    if auto : bool then
      system ← new_system NewAutoSmartTrafficSystem;
      ok ← initialize system;
      if ok : bool then
        sid ← get current_session_id;
        py_print ("🎯 训练会话ID: " +:+ str_of sid);;
        run RunAutoTraining system
      else ret tt
    else
      py_print "❌ 无法找到交通系统类".

(** The body of [except Exception as e]. *)
Definition training_failed (e : exn) : M unit :=
  py_print ("❌ 训练启动失败: " +:+ exn_str e);;
  database_available ← ask DATABASE_AVAILABLE;
  if database_available : bool then
    log_event "ERROR" "launcher" ("训练启动失败: " +:+ exn_str e)
  else ret tt.

(** [# 结束会话记录]: the [finally] block. *)
Definition end_session_record : M unit :=
  database_available ← ask DATABASE_AVAILABLE;
  if database_available : bool then
    sid ← get current_session_id;
    match truthy sid with
    | Some id => end_training_session id completed_result
    | None => ret tt
    end
  else ret tt.

Definition start_training : M unit :=
  py_print (nl +:+ "🎓 启动训练模式");;
  traffic ← ask TRAFFIC_SYSTEM_AVAILABLE;
  if negb traffic then
    py_print "❌ 交通系统不可用，请检查模块安装"
  else
    now ← datetime_now;
    modify (with_current_session_id (Some (training_session_id now)));;
    config ← load_config;
    record_session config;;
    try_finally
      (try_except launch_traffic_system (except_Exception training_failed))
      end_session_record.

Definition start_deployment : M unit :=
  py_print (nl +:+ "🚀 启动部署模式");;
  traffic ← ask TRAFFIC_SYSTEM_AVAILABLE;
  if negb traffic then
    py_print "❌ 交通系统不可用"
  else
    py_print "部署模式将使用已训练的模型进行交通控制";;
    py_input "按回车键继续...";;
    try_except
      (integrated ← ask has_IntegratedTrafficSystem;
       if integrated : bool then
         system ← new_system NewIntegratedTrafficSystem;
         ok ← initialize system;
         if ok : bool then
           py_print "🚀 部署模式运行中...";;
           py_print "打开浏览器访问 http://localhost:5000 查看监控界面";;
           run RunDeployment system
         else ret tt
       else
         py_print "❌ 部署功能不可用")
      (except_Exception (fun e =>
         py_print ("❌ 部署启动失败: " +:+ exn_str e))).

(** *** Loops and small builtins *)

Inductive ctl := Continue | Break.

(** [while True: body]; the body answers [Break] for [break], [Continue]
    for [continue] and for reaching its end. *)
Fixpoint while_true (fuel : nat) (body : M ctl) : M unit :=
  match fuel with
  | O => fun w => (OutOfFuel, w)
  | S n =>
      c ← body;
      match c with
      | Break => ret tt
      | Continue => while_true n body
      end
  end.

Fixpoint for_each {A} (l : list A) (f : A -> M unit) : M unit :=
  match l with
  | [] => ret tt
  | x :: l' => f x;; for_each l' f
  end.

(** [s * n] on strings. *)
Fixpoint py_repeat (s : string) (n : nat) : string :=
  match n with
  | O => ""
  | S n' => s +:+ py_repeat s n'
  end.

Definition strip (s : string) : M string := ask (fun e => py_strip e s).
Definition lower (s : string) : M string := ask (fun e => py_lower e s).
Definition isdigit (s : string) : M bool := ask (fun e => py_isdigit e s).

(** [int(s)] and [float(s)] raise [ValueError] on a malformed literal; the
    text of the error is Python's. *)
Definition int_of (s : string) : M Z :=
  r ← ask (fun e => py_int e s);
  match r with
  | Some z => ret z
  | None => msg ← ask (fun e => py_int_error e s); raise (ValueError msg)
  end.

Definition float_of (s : string) : M float :=
  r ← ask (fun e => py_float e s);
  match r with
  | Some f => ret f
  | None => msg ← ask (fun e => py_float_error e s); raise (ValueError msg)
  end.

(** [v > 0] *)
Definition gt_zero (v : pyval) : M bool :=
  match v with
  | PyInt z => ret (bool_decide (0 < z)%Z)
  | PyFloat f => ret (PrimFloat.ltb 0%float f)
  | PyBool b => ret b
  | _ => raise (TypeError "'>' not supported between these operands")
  end.

Definition string_of_status (s : status) : string :=
  match s with
  | running => "running"
  | completed => "completed"
  | stopped => "stopped"
  | failed => "failed"
  end.

(** [except (ValueError, IndexError): handler] *)
Definition except_ValueError_IndexError {A} (handler : M A) (e : exn)
  : option (M A) :=
  match e with
  | ValueError _ | IndexError _ => Some handler
  | _ => None
  end.

(** [sessions[idx]] for [0 <= idx < len(sessions)]. *)
Definition index {A} (l : list A) (idx : Z) : M A :=
  match l !! Z.to_nat idx with
  | Some x => ret x
  | None => raise (IndexError "list index out of range")
  end.

(** *** The analyzer handle *)

Definition analyzer_method {A} (name : string) (c : analyzer_call) (m : M A)
  : M A :=
  a ← get analyzer;
  if a : bool then emit (Analyzer c);; m else raise (attribute_of_None name).

(** [analyze_session] answers a report, or nothing: only its truth value is
    looked at. *)
Definition analyze_session (id : string) : M bool :=
  analyzer_method "analyze_session" (AnalyzeSession id)
    (get (fun w => analyze_ok (env w) id (store w))).

Definition generate_summary_report : M Summary :=
  analyzer_method "generate_summary_report" GenerateSummaryReport
    (get (fun w => summary_report (env w) (store w))).

(** *** Performance analysis menu *)

Definition performance_analysis (fuel : nat) : M unit :=
  py_print (nl +:+ "📊 性能分析");;
  available ← ask ANALYZER_AVAILABLE;
  if negb available then
    py_print "❌ 分析器不可用"
  else
    while_true fuel
      (py_print (nl +:+ "分析选项:");;
       py_print "1. 📈 分析训练会话";;
       py_print "2. 📋 列出所有会话";;
       py_print "3. 📊 系统摘要报告";;
       py_print "4. 🔄 比较会话";;
       py_print "0. 🔙 返回主菜单";;
       line ← py_input "请选择 (0-4): ";
       choice ← strip line;
       if decide (choice = "1") then
         sessions ← get_training_sessions 10;
         match sessions with
         | [] => py_print "❌ 没有找到训练会话";; ret Continue
         | _ =>
             py_print (nl +:+ "可用的训练会话:");;
             for_each (imap (fun i s => (i, s)) sessions) (fun '(i, (id, s)) =>
               py_printf "{i+1}. {session['session_id']} - {session['start_time']} ({session['status']})"
                 [PyInt (Z.of_nat i + 1); PyStr id; PyDatetime (start_time s);
                  PyStr (string_of_status (session_status s))]);;
             try_except
               (answer ← py_input "选择会话编号: ";
                n ← int_of answer;
                let idx := (n - 1)%Z in
                if bool_decide (0 ≤ idx < Z.of_nat (length sessions))%Z then
                  '(session_id, _) ← index sessions idx;
                  py_print (nl +:+ "🔍 正在分析会话: " +:+ session_id);;
                  report ← analyze_session session_id;
                  if report : bool then
                    dir ← ask output_dir;
                    py_print ("✅ 分析完成！报告保存在: " +:+ dir)
                  else ret tt
                else
                  py_print "❌ 无效的会话编号")
               (except_ValueError_IndexError (py_print "❌ 输入无效"));;
             ret Continue
         end
       else if decide (choice = "2") then
         sessions ← get_training_sessions 20;
         py_print (nl +:+ "📋 训练会话列表 (最近20个):");;
         py_print (py_repeat "-" 100);;
         for_each sessions (fun '(id, s) =>
           let status_icon :=
             match session_status s with
             | completed => "✅"
             | running => "🔄"
             | _ => "❌"
             end in
           py_printf "{status_icon} {session['session_id']} | {session['start_time']} | 回合: {session['total_episodes']} | 得分: {session['best_score']:.3f}"
             [PyStr status_icon; PyStr id; PyDatetime (start_time s);
              PyInt (total_episodes s); PyFloat (best_score s)]);;
         py_print (py_repeat "-" 100);;
         ret Continue
       else if decide (choice = "3") then
         py_print (nl +:+ "📊 生成系统摘要报告...");;
         summary ← generate_summary_report;
         py_printf "总会话数: {summary['total_sessions']}" [sum_total_sessions summary];;
         py_printf "总训练回合: {summary['total_episodes']:,}" [sum_total_episodes summary];;
         py_printf "平均性能: 奖励={summary['avg_performance']['reward']:.3f}" [sum_avg_reward summary];;
         py_printf "完成率: {summary['completion_rate']:.1%}" [sum_completion_rate summary];;
         ret Continue
       else if decide (choice = "4") then
         py_print "🔄 会话比较功能开发中...";; ret Continue
       else if decide (choice = "0") then
         ret Break
       else
         py_print "❌ 无效选择";; ret Continue).

(** *** The configuration manager handle and the configuration menu *)

Definition config_manager_method {A} (name : string) (c : config_call) (m : M A)
  : M A :=
  h ← get config_manager;
  if h : bool then emit (ConfigManager c);; m else raise (attribute_of_None name).

Definition print_config : M unit :=
  config_manager_method "print_config" PrintConfig (ret tt).

Definition save_config : M bool :=
  config_manager_method "save_config" SaveConfig
    (get (fun w => save_config_ok (env w) (config w))).

Definition create_sample_config (path : option string) : M bool :=
  config_manager_method "create_sample_config" (CreateSampleConfig path)
    (ask create_sample_config_ok).

Definition set_target_efficiency (v : float) (c : Config) : Config :=
  {| training := {| target_efficiency := v;
                    target_mobility := target_mobility (training c);
                    max_episodes := max_episodes (training c) |};
     agent := agent c; environment := environment c; web := web c |}.

Definition set_target_mobility (v : float) (c : Config) : Config :=
  {| training := {| target_efficiency := target_efficiency (training c);
                    target_mobility := v;
                    max_episodes := max_episodes (training c) |};
     agent := agent c; environment := environment c; web := web c |}.

Definition set_max_episodes (v : Z) (c : Config) : Config :=
  {| training := {| target_efficiency := target_efficiency (training c);
                    target_mobility := target_mobility (training c);
                    max_episodes := v |};
     agent := agent c; environment := environment c; web := web c |}.

Definition set_learning_rate (v : float) (c : Config) : Config :=
  {| training := training c; agent := {| learning_rate := v |};
     environment := environment c; web := web c |}.

Definition set_num_vehicles (v : Z) (c : Config) : Config :=
  {| training := training c; agent := agent c;
     environment := {| num_vehicles := v |}; web := web c |}.

(** [except (ValueError, AttributeError) as e: handler e] *)
Definition except_ValueError_AttributeError {A} (handler : exn -> M A) (e : exn)
  : option (M A) :=
  match e with
  | ValueError _ | AttributeError _ => Some (handler e)
  | _ => None
  end.

(** The object [get_config()] returns is the provider's own: assigning to
    one of its fields changes the configuration seen by every later read. *)
Definition config_management (fuel : nat) : M unit :=
  py_print (nl +:+ "🔧 配置管理");;
  available ← ask CONFIG_AVAILABLE;
  if negb available then
    py_print "❌ 配置管理器不可用"
  else
    while_true fuel
      (py_print (nl +:+ "配置选项:");;
       py_print "1. 📋 查看当前配置";;
       py_print "2. ✏️  修改配置";;
       py_print "3. 💾 保存配置";;
       py_print "4. 📄 创建示例配置";;
       py_print "0. 🔙 返回主菜单";;
       line ← py_input "请选择 (0-4): ";
       choice ← strip line;
       if decide (choice = "1") then
         print_config;; ret Continue
       else if decide (choice = "2") then
         py_print (nl +:+ "可修改的配置项:");;
         py_print "1. 训练目标效率";;
         py_print "2. 训练目标流动性";;
         py_print "3. 最大训练轮数";;
         py_print "4. 学习率";;
         py_print "5. 车辆数量";;
         try_except
           (answer ← py_input "选择要修改的配置 (1-5): ";
            config_choice ← int_of answer;
            cfg ← get_config;
            updated ←
              (if decide (config_choice = 1%Z) then
                 a ← py_inputf "输入新的目标效率 (当前: {config.training.target_efficiency}): "
                       [PyFloat (target_efficiency (training cfg))];
                 new_value ← float_of a;
                 modify (fun w => with_config (set_target_efficiency new_value (config w)) w);;
                 ret true
               else if decide (config_choice = 2%Z) then
                 a ← py_inputf "输入新的目标流动性 (当前: {config.training.target_mobility}): "
                       [PyFloat (target_mobility (training cfg))];
                 new_value ← float_of a;
                 modify (fun w => with_config (set_target_mobility new_value (config w)) w);;
                 ret true
               else if decide (config_choice = 3%Z) then
                 a ← py_inputf "输入新的最大训练轮数 (当前: {config.training.max_episodes}): "
                       [PyInt (max_episodes (training cfg))];
                 new_value ← int_of a;
                 modify (fun w => with_config (set_max_episodes new_value (config w)) w);;
                 ret true
               else if decide (config_choice = 4%Z) then
                 a ← py_inputf "输入新的学习率 (当前: {config.agent.learning_rate}): "
                       [PyFloat (learning_rate (agent cfg))];
                 new_value ← float_of a;
                 modify (fun w => with_config (set_learning_rate new_value (config w)) w);;
                 ret true
               else if decide (config_choice = 5%Z) then
                 a ← py_inputf "输入新的车辆数量 (当前: {config.environment.num_vehicles}): "
                       [PyInt (num_vehicles (environment cfg))];
                 new_value ← int_of a;
                 modify (fun w => with_config (set_num_vehicles new_value (config w)) w);;
                 ret true
               else
                 (* continue *)
                 py_print "❌ 无效选择";; ret false);
            if updated : bool then py_print "✅ 配置已更新" else ret tt)
           (except_ValueError_AttributeError (fun e =>
              py_print ("❌ 配置更新失败: " +:+ exn_str e)));;
         ret Continue
       else if decide (choice = "3") then
         ok ← save_config;
         (if ok : bool then py_print "✅ 配置已保存"
          else py_print "❌ 配置保存失败");;
         ret Continue
       else if decide (choice = "4") then
         ok ← create_sample_config None;
         (if ok : bool then py_print "✅ 示例配置文件已创建"
          else py_print "❌ 创建失败");;
         ret Continue
       else if decide (choice = "0") then
         ret Break
       else
         py_print "❌ 无效选择";; ret Continue).

(** *** Database menu *)

(** [stats.get(key, 0)] *)
Definition dict_get (d : pydict) (key : string) : pyval :=
  default (PyInt 0) (d !! key).

(** The branches of the loop of [database_management]. *)

(** [choice == '1'] *)
Definition show_statistics : M unit :=
  stats ← get_statistics;
  py_print (nl +:+ "📊 数据库统计:");;
  py_printf "总训练回合: {stats.get('total_episodes', 0):,}" [dict_get stats "total_episodes"];;
  py_printf "平均奖励: {stats.get('avg_reward', 0):.3f}" [dict_get stats "avg_reward"];;
  py_printf "平均效率: {stats.get('avg_efficiency', 0):.3f}" [dict_get stats "avg_efficiency"];;
  py_printf "平均流动性: {stats.get('avg_mobility', 0):.3f}" [dict_get stats "avg_mobility"];;
  py_printf "总会话数: {stats.get('total_sessions', 0)}" [dict_get stats "total_sessions"];;
  py_printf "完成会话数: {stats.get('completed_sessions', 0)}" [dict_get stats "completed_sessions"].

(** [choice == '2'] *)
Definition cleanup_menu : M unit :=
  a ← py_input "保留多少天的数据 (默认30天): ";
  days ← strip a;
  digits ← isdigit days;
  days ← (if digits : bool then int_of days else ret 30%Z);
  a ← py_inputf "确认删除 {days} 天前的数据? (y/N): " [PyInt days];
  a ← strip a;
  confirm ← lower a;
  if decide (confirm = "y") then
    ok ← cleanup_old_data days;
    if ok : bool then py_print "✅ 数据清理完成"
    else py_print "❌ 数据清理失败"
  else ret tt.

(** [choice == '3'].  The [continue] of the empty case ends the turn, as
    the end of the branch does. *)
Definition export_menu : M unit :=
  sessions ← get_training_sessions 10;
  match sessions with
  | [] => py_print "❌ 没有可导出的会话"
  | _ =>
      py_print (nl +:+ "可导出的会话:");;
      for_each (imap (fun i s => (i, s)) sessions) (fun '(i, (id, _)) =>
        py_printf "{i+1}. {session['session_id']}"
          [PyInt (Z.of_nat i + 1); PyStr id]);;
      try_except
        (answer ← py_input "选择会话编号: ";
         n ← int_of answer;
         let idx := (n - 1)%Z in
         if bool_decide (0 ≤ idx < Z.of_nat (length sessions))%Z then
           '(session_id, _) ← index sessions idx;
           let export_path := "export_" +:+ session_id +:+ ".json" in
           ok ← export_data session_id export_path;
           if ok : bool then
             py_print ("✅ 数据已导出到: " +:+ export_path)
           else ret tt
         else
           py_print "❌ 无效的会话编号")
        (except_ValueError_IndexError (py_print "❌ 输入无效"))
  end.

(** One turn of the loop of [database_management]. *)
Definition database_menu_iteration : M ctl :=
  py_print (nl +:+ "数据库选项:");;
  py_print "1. 📊 查看统计信息";;
  py_print "2. 🗑️  清理旧数据";;
  py_print "3. 📤 导出数据";;
  py_print "4. 📋 查看日志";;
  py_print "0. 🔙 返回主菜单";;
  line ← py_input "请选择 (0-4): ";
  choice ← strip line;
  if decide (choice = "1") then show_statistics;; ret Continue
  else if decide (choice = "2") then cleanup_menu;; ret Continue
  else if decide (choice = "3") then export_menu;; ret Continue
  else if decide (choice = "4") then
    py_print "📋 查看系统日志功能开发中...";; ret Continue
  else if decide (choice = "0") then ret Break
  else py_print "❌ 无效选择";; ret Continue.

Definition database_management (fuel : nat) : M unit :=
  py_print (nl +:+ "📋 数据库管理");;
  available ← ask DATABASE_AVAILABLE;
  if negb available then
    py_print "❌ 数据库不可用"
  else
    while_true fuel database_menu_iteration.

(** *** Web monitoring and system information *)

Definition web_monitoring : M unit :=
  py_print (nl +:+ "🌐 Web监控");;
  available ← ask CONFIG_AVAILABLE;
  (if available : bool then
     cfg ← get_config;
     let web_config := web cfg in
     if enabled web_config then
       py_printf "Web监控地址: http://{web_config.host}:{web_config.port}"
         [PyStr (host web_config); PyInt (port web_config)];;
       py_print "请在浏览器中打开上述地址查看实时监控"
     else
       py_print "Web监控已禁用，请在配置中启用"
   else
     py_print "默认Web监控地址: http://localhost:5000");;
  py_input "按回车键返回主菜单...";;
  ret tt.

Definition mark (b : bool) : string := if b then "✅" else "❌".

Definition show_system_info : M unit :=
  py_print (nl +:+ "📖 系统信息");;
  py_print (py_repeat "=" 60);;
  py_print "🚦 智能交通信号灯控制系统";;
  py_print "基于CARLA仿真平台的深度强化学习交通优化";;
  py_print (py_repeat "=" 60);;
  py_print (nl +:+ "📦 可用模块:");;
  traffic ← ask TRAFFIC_SYSTEM_AVAILABLE;
  py_print ("  交通系统: " +:+ mark traffic);;
  config_available ← ask CONFIG_AVAILABLE;
  py_print ("  配置管理: " +:+ mark config_available);;
  database_available ← ask DATABASE_AVAILABLE;
  py_print ("  数据库: " +:+ mark database_available);;
  analyzer_available ← ask ANALYZER_AVAILABLE;
  py_print ("  性能分析: " +:+ mark analyzer_available);;
  py_print (nl +:+ "🎯 主要功能:");;
  py_print "  • DQN深度强化学习算法";;
  py_print "  • CARLA仿真环境集成";;
  py_print "  • 实时Web监控界面";;
  py_print "  • 自动训练和模型保存";;
  py_print "  • 性能分析和可视化";;
  py_print "  • 配置管理系统";;
  py_print "  • 训练历史数据库";;
  py_print (nl +:+ "📊 性能指标:");;
  py_print "  • 交通效率 (目标: ≥75%)";;
  py_print "  • 流动性 (目标: ≥80%)";;
  py_print "  • 平均奖励 (目标: ≥0.5)";;
  py_print "  • 车辆平均速度";;
  py_print "  • 拥堵比例";;
  (if database_available : bool then
     stats ← get_statistics;
     some ← gt_zero (dict_get stats "total_episodes");
     if some : bool then
       py_print (nl +:+ "📈 历史统计:");;
       py_printf "  总训练回合: {stats.get('total_episodes', 0):,}" [dict_get stats "total_episodes"];;
       py_printf "  平均性能: {stats.get('avg_efficiency', 0):.1%}" [dict_get stats "avg_efficiency"];;
       py_printf "  最佳效率: {stats.get('max_efficiency', 0):.1%}" [dict_get stats "max_efficiency"]
     else ret tt
   else ret tt);;
  py_input (nl +:+ "按回车键返回主菜单...");;
  ret tt.

(** *** Project setup *)

(** [os.path.exists(path)]: what was there from the start, and what
    [os.makedirs] has created since. *)
Definition os_path_exists (path : string) : M bool :=
  emit (PathExists path);;
  get (fun w => path_exists (env w) path ||
                match makedirs_error (env w) path with
                | Some _ => false
                | None =>
                    existsb (fun c => match c with
                                      | Makedirs p => bool_decide (p = path)
                                      | _ => false
                                      end) (trace w)
                end).

(** [os.makedirs(path, exist_ok=True)]: the directory is created, unless
    the file system refuses ([PermissionError], [FileExistsError] on a file
    of that name, ...): the exception is then raised to the caller. *)
Definition os_makedirs (path : string) : M unit :=
  emit (Makedirs path);;
  r ← ask (fun e => makedirs_error e path);
  match r with
  | Some e => raise e
  | None => ret tt
  end.

(** [__import__(name)]: a module that does not import raises [ImportError]
    when it is missing, and whatever its own code raises otherwise. *)
Definition import_module (name : string) : M unit :=
  emit (ImportModule name);;
  ok ← ask (fun e => importable e name);
  if ok : bool then ret tt
  else e ← ask (fun e => import_error e name); raise e.

Definition required_files : list string :=
  ["fixed_rl_traffic.py"; "integrated_traffic_system.py"; "config.py";
   "database.py"; "analyzer.py"; "launcher.py"].

Definition required_dirs : list string :=
  ["models"; "logs"; "data"; "analysis_output"].

Definition _check_project_files : M unit :=
  py_print (nl +:+ "📁 检查项目文件...");;
  for_each required_files (fun file =>
    present ← os_path_exists file;
    if present : bool then py_print ("✅ " +:+ file)
    else py_print ("❌ " +:+ file +:+ " (缺失)"));;
  for_each required_dirs (fun dir_name =>
    present ← os_path_exists dir_name;
    if present : bool then py_print ("✅ " +:+ dir_name +:+ "/")
    else
      py_print ("⚠️  " +:+ dir_name +:+ "/ (将自动创建)");;
      os_makedirs dir_name).

Definition _init_config : M unit :=
  available ← ask CONFIG_AVAILABLE;
  if available : bool then
    create_sample_config (Some "config.yaml");;
    py_print "✅ 配置文件已初始化"
  else
    py_print "❌ 配置模块不可用".

Definition _init_database : M unit :=
  available ← ask DATABASE_AVAILABLE;
  if available : bool then py_print "✅ 数据库已初始化"
  else py_print "❌ 数据库模块不可用".

Definition dependencies : list (string * string) :=
  [("carla", "CARLA客户端"); ("torch", "PyTorch深度学习");
   ("numpy", "NumPy数值计算"); ("matplotlib", "图表绘制");
   ("pandas", "数据处理"); ("seaborn", "可视化");
   ("flask", "Web服务器"); ("yaml", "YAML配置")].

Definition _check_dependencies : M unit :=
  py_print (nl +:+ "📦 检查Python依赖...");;
  for_each dependencies (fun '(module, description) =>
    try_except
      (import_module module;;
       py_print ("✅ " +:+ module +:+ " - " +:+ description))
      (fun e => match e with
                | ImportError _ =>
                    Some (py_print ("❌ " +:+ module +:+ " - " +:+ description
                                    +:+ " (未安装)"))
                | _ => None
                end)).

Definition _cleanup_temp_files : M unit :=
  py_print (nl +:+ "🧹 清理临时文件...");;
  let patterns := ["*.pyc"; "__pycache__"; "*.tmp"; "*.log"] in
  let cleaned := 0%Z in
  for_each patterns (fun pattern => ret tt);;
  py_printf "✅ 清理完成，删除了 {cleaned} 个文件" [PyInt cleaned].

Definition project_setup (fuel : nat) : M unit :=
  py_print (nl +:+ "🏗️ 项目设置");;
  while_true fuel
    (py_print (nl +:+ "设置选项:");;
     py_print "1. 📁 检查项目文件";;
     py_print "2. 🔧 初始化配置";;
     py_print "3. 💾 创建数据库";;
     py_print "4. 📦 检查依赖";;
     py_print "5. 🧹 清理临时文件";;
     py_print "0. 🔙 返回主菜单";;
     line ← py_input "请选择 (0-5): ";
     choice ← strip line;
     if decide (choice = "1") then _check_project_files;; ret Continue
     else if decide (choice = "2") then _init_config;; ret Continue
     else if decide (choice = "3") then _init_database;; ret Continue
     else if decide (choice = "4") then _check_dependencies;; ret Continue
     else if decide (choice = "5") then _cleanup_temp_files;; ret Continue
     else if decide (choice = "0") then ret Break
     else py_print "❌ 无效选择";; ret Continue).

(** *** The main menu *)

(** The two handlers of the menu loop: [except KeyboardInterrupt] and
    [except Exception as e]. *)
Definition menu_handlers (e : exn) : option (M ctl) :=
  match e with
  | KeyboardInterrupt => Some (py_print nl;; shutdown;; ret Break)
  | _ =>
      except_Exception (fun e =>
        py_print ("❌ 操作错误: " +:+ exn_str e);; ret Continue) e
  end.

(** What the menu does with a choice, inside its [try]. *)
Definition dispatch (fuel : nat) (choice : string) : M ctl :=
  if decide (choice = "1") then start_training;; ret Continue
  else if decide (choice = "2") then start_deployment;; ret Continue
  else if decide (choice = "3") then performance_analysis fuel;; ret Continue
  else if decide (choice = "4") then config_management fuel;; ret Continue
  else if decide (choice = "5") then database_management fuel;; ret Continue
  else if decide (choice = "6") then web_monitoring;; ret Continue
  else if decide (choice = "7") then show_system_info;; ret Continue
  else if decide (choice = "8") then project_setup fuel;; ret Continue
  else if decide (choice = "0") then shutdown;; ret Break
  else py_print "❌ 无效选择，请输入 0-8";; ret Continue.

Definition menu_banner : M unit :=
  py_print (nl +:+ py_repeat "=" 60);;
  py_print "🚦 智能交通信号灯控制系统 - 项目启动器";;
  py_print (py_repeat "=" 60);;
  py_print "1. 🎓 开始训练 (推荐)";;
  py_print "2. 🚀 部署模式";;
  py_print "3. 📊 性能分析";;
  py_print "4. 🔧 配置管理";;
  py_print "5. 📋 数据库管理";;
  py_print "6. 🌐 Web监控";;
  py_print "7. 📖 系统信息";;
  py_print "8. 🏗️ 项目设置";;
  py_print "0. 🚪 退出";;
  py_print (py_repeat "=" 60).

(** The body of the [try] in the menu loop. *)
Definition menu_try (fuel : nat) : M ctl :=
  line ← py_input "请选择操作 (0-8): ";
  choice ← strip line;
  dispatch fuel choice.

(** One turn of the menu loop. *)
Definition menu_iteration (fuel : nat) : M ctl :=
  menu_banner;;
  try_except (menu_try fuel) menu_handlers.

Definition show_main_menu (fuel : nat) : M unit :=
  while_true fuel (menu_iteration fuel).

(** [main()]: build the launcher, then run its menu. *)
Definition main (fuel : nat) (e : Env) (cfg : Config) (st : Store)
    (fs : gmap string ExportDoc) (keys : list stdin_item)
  : outcome unit * World :=
  show_main_menu fuel (init_launcher e cfg st fs keys).

(** ** A concrete installation, for running the launcher *)

Definition engine_ok : EngineBehaviour :=
  {| on_construct := Returns tt; on_initialize := Returns true;
     on_run := Returns tt |}.

(** An engine whose training run fails. *)
Definition engine_failing : EngineBehaviour :=
  {| on_construct := Returns tt; on_initialize := Returns true;
     on_run := Raises (OtherException "CARLA connection lost") |}.

(** An engine interrupted by SIGINT in the middle of its run. *)
Definition engine_interrupted : EngineBehaviour :=
  {| on_construct := Returns tt; on_initialize := Returns true;
     on_run := Interrupted |}.

(** An engine whose training run ends in a [KeyboardInterrupt]. *)
Definition engine_keyboard_interrupt : EngineBehaviour :=
  {| on_construct := Returns tt; on_initialize := Returns true;
     on_run := Raises KeyboardInterrupt |}.

(** An engine whose training run calls [sys.exit(1)]. *)
Definition engine_system_exit : EngineBehaviour :=
  {| on_construct := Returns tt; on_initialize := Returns true;
     on_run := Raises (SystemExit 1) |}.

Definition is_digit (c : Ascii.ascii) : bool :=
  (48 <=? N_of_ascii c)%N && (N_of_ascii c <=? 57)%N.

(** [int(s)] on plain ASCII decimals. *)
Fixpoint parse_digits (s : string) (acc : Z) : option Z :=
  match s with
  | "" => Some acc
  | String c rest =>
      if is_digit c
      then parse_digits rest (10 * acc + (Z.of_N (N_of_ascii c) - 48))
      else None
  end.

Definition ascii_int (s : string) : option Z :=
  match s with
  | "" => None
  | _ => parse_digits s 0
  end.

Definition demo_summary : Summary :=
  {| sum_total_sessions := PyInt 0; sum_total_episodes := PyInt 0;
     sum_avg_reward := PyFloat 0; sum_completion_rate := PyFloat 0 |}.

(** Every module importable, the integrated traffic system in place. *)
Definition demo_env (b : EngineBehaviour) : Env :=
  {| CONFIG_AVAILABLE := true; DATABASE_AVAILABLE := true;
     ANALYZER_AVAILABLE := true; TRAFFIC_SYSTEM_AVAILABLE := true;
     has_IntegratedTrafficSystem := true;
     has_AutoSmartTrafficSystem := false;
     clock := fun n => Datetime 2024 1 1 0 0 (Z.of_nat n) 0;
     engine := fun _ => b;
     py_strip := fun s => s;
     py_int := ascii_int;
     py_float := fun _ => None;
     py_isdigit := fun s => bool_decide (is_Some (ascii_int s));
     py_lower := fun s => s;
     py_int_error := fun s =>
       "invalid literal for int() with base 10: '" +:+ s +:+ "'";
     py_float_error := fun s =>
       "could not convert string to float: '" +:+ s +:+ "'";
     config_file := "config.yaml";
     save_config_ok := fun _ => true;
     create_sample_config_ok := true;
     statistics := fun _ => ∅;
     purge := fun _ st => (true, st);
     writable := fun _ => true;
     analyze_ok := fun _ _ => true;
     output_dir := "analysis_output";
     summary_report := fun _ => demo_summary;
     path_exists := fun _ => true;
     makedirs_error := fun _ => None;
     importable := fun _ => true;
     import_error := fun name =>
       ImportError ("No module named '" +:+ name +:+ "'") |}.

(** The same installation without [database.py]. *)
Definition no_database_env (b : EngineBehaviour) : Env :=
  {| CONFIG_AVAILABLE := true; DATABASE_AVAILABLE := false;
     ANALYZER_AVAILABLE := true; TRAFFIC_SYSTEM_AVAILABLE := true;
     has_IntegratedTrafficSystem := true;
     has_AutoSmartTrafficSystem := false;
     clock := clock (demo_env b); engine := engine (demo_env b);
     py_strip := py_strip (demo_env b); py_int := py_int (demo_env b);
     py_float := py_float (demo_env b);
     py_isdigit := py_isdigit (demo_env b);
     py_lower := py_lower (demo_env b);
     py_int_error := py_int_error (demo_env b);
     py_float_error := py_float_error (demo_env b);
     config_file := config_file (demo_env b);
     save_config_ok := save_config_ok (demo_env b);
     create_sample_config_ok := true;
     statistics := statistics (demo_env b); purge := purge (demo_env b);
     writable := writable (demo_env b);
     analyze_ok := analyze_ok (demo_env b);
     output_dir := output_dir (demo_env b);
     summary_report := summary_report (demo_env b);
     path_exists := path_exists (demo_env b);
     makedirs_error := makedirs_error (demo_env b);
     importable := importable (demo_env b);
     import_error := import_error (demo_env b) |}.

(** The same installation with a read-only working directory. *)
Definition read_only_env (b : EngineBehaviour) : Env :=
  {| CONFIG_AVAILABLE := true; DATABASE_AVAILABLE := true;
     ANALYZER_AVAILABLE := true; TRAFFIC_SYSTEM_AVAILABLE := true;
     has_IntegratedTrafficSystem := true;
     has_AutoSmartTrafficSystem := false;
     clock := clock (demo_env b); engine := engine (demo_env b);
     py_strip := py_strip (demo_env b); py_int := py_int (demo_env b);
     py_float := py_float (demo_env b);
     py_isdigit := py_isdigit (demo_env b);
     py_lower := py_lower (demo_env b);
     py_int_error := py_int_error (demo_env b);
     py_float_error := py_float_error (demo_env b);
     config_file := config_file (demo_env b);
     save_config_ok := save_config_ok (demo_env b);
     create_sample_config_ok := true;
     statistics := statistics (demo_env b); purge := purge (demo_env b);
     writable := fun _ => false;
     analyze_ok := analyze_ok (demo_env b);
     output_dir := output_dir (demo_env b);
     summary_report := summary_report (demo_env b);
     path_exists := path_exists (demo_env b);
     makedirs_error := makedirs_error (demo_env b);
     importable := importable (demo_env b);
     import_error := import_error (demo_env b) |}.

Definition demo_config : Config :=
  {| training := {| target_efficiency := 0.75; target_mobility := 0.5;
                    max_episodes := 100 |};
     agent := {| learning_rate := 0.125 |};
     environment := {| num_vehicles := 50 |};
     web := {| enabled := true; host := "localhost"; port := 5000 |} |}.

(** A freshly constructed launcher over an empty store. *)
Definition demo_world (e : Env) (keys : list stdin_item) : World :=
  init_launcher e demo_config empty_store ∅ keys.

(** ** Vocabulary of the statements *)

(** Two clock readings within the same wall-clock second. *)
Definition same_second (a b : datetime) : Prop :=
  year a = year b ∧ month a = month b ∧ day a = day b ∧
  hour a = hour b ∧ minute a = minute b ∧ second a = second b.

(** A launcher as [__init__] leaves it: a handle exists exactly when its
    module was importable.  No method assigns these attributes again. *)
Definition constructed (w : World) : Prop :=
  config_manager w = CONFIG_AVAILABLE (env w) ∧
  database w = DATABASE_AVAILABLE (env w) ∧
  analyzer w = ANALYZER_AVAILABLE (env w) && DATABASE_AVAILABLE (env w).

(** The calls made between two worlds of one run. *)
Definition new_calls (w w' : World) : list Call :=
  drop (length (trace w)) (trace w').

(** The reading [datetime.now()] gives in [w]. *)
Definition now_in (w : World) : datetime := clock (env w) (ticks w).

(** The traffic system the next constructor call yields. *)
Definition next_system (w : World) : EngineBehaviour :=
  engine (env w) (systems w).

(** The module exposes one of the two classes [start_training] looks for. *)
Definition has_system_class (e : Env) : Prop :=
  has_IntegratedTrafficSystem e = true ∨ has_AutoSmartTrafficSystem e = true.

(** The entry point [start_training] calls on such a module. *)
Definition training_entry (e : Env) : engine_call :=
  if has_IntegratedTrafficSystem e then RunTraining else RunAutoTraining.

(** The traffic system raises [e]: in its constructor, in [initialize()],
    or in its run entry point. *)
Definition engine_raises (b : EngineBehaviour) (e : exn) : Prop :=
  on_construct b = Raises e ∨
  (on_construct b = Returns tt ∧ on_initialize b = Raises e) ∨
  (on_construct b = Returns tt ∧ on_initialize b = Returns true ∧
   on_run b = Raises e).

(** The traffic system comes up: it is constructed and [initialize()]
    answers [True], so that its run entry point is entered. *)
Definition engine_starts (b : EngineBehaviour) : Prop :=
  on_construct b = Returns tt ∧ on_initialize b = Returns true.

(** No SIGINT reaches the process while [start_deployment] runs in [w]. *)
Definition uninterrupted (w : World) : Prop :=
  head (stdin w) ≠ Some Sigint ∧
  on_construct (next_system w) ≠ Interrupted ∧
  on_initialize (next_system w) ≠ Interrupted ∧
  on_run (next_system w) ≠ Interrupted.

(** A monadic action keeps a relation between the world before and the
    world after. *)
Definition respects (R : World → World → Prop) {A} (m : M A) : Prop :=
  ∀ w, R w (m w).2.

(** A monadic action that ends whatever the fuel: it contains no loop that
    can outlast it. *)
Definition total {A} (m : M A) : Prop :=
  ∀ w, (m w).1 ≠ OutOfFuel.

(** The launcher, its handles and its current session id are the same in
    both worlds. *)
Definition same_launcher (w w' : World) : Prop :=
  env w' = env w ∧ config_manager w' = config_manager w ∧
  database w' = database w ∧ analyzer w' = analyzer w ∧
  current_session_id w' = current_session_id w.

(** The later world has the earlier trace, extended by calls that all
    satisfy [P]. *)
Definition extends_by (P : Call → Prop) (w w' : World) : Prop :=
  ∃ t, trace w' = trace w ++ t ∧ Forall P t.

(** A call that, if it closes a session, closes it as completed or as
    stopped. *)
Definition closes_with (c : Call) : Prop :=
  match c with
  | Db (EndTrainingSession _ r) => r = completed_result ∨ r = stopped_result
  | _ => True
  end.

(** A call that neither reads the clock nor touches the database. *)
Definition no_telemetry (c : Call) : Prop :=
  match c with
  | Now | Db _ => False
  | _ => True
  end.

(** A call that creates no session and writes no event. *)
Definition no_registration (c : Call) : Prop :=
  match c with
  | Now | Db (StartTrainingSession _ _) | Db (LogEvent _ _ _) => False
  | _ => True
  end.

(** What [start_training] does on a launcher attribute it leaves alone. *)
Definition keeps_session_id (w w' : World) : Prop :=
  current_session_id w' = current_session_id w.

(** The snapshot [start_training] hands to the store. *)
Definition snapshot_of (w : World) : pydict :=
  if CONFIG_AVAILABLE (env w) then config_dict_of (config w) else ∅.

(** The calls of [start_training] up to and including the registration of
    the session, when the database is available. *)
Definition registration_calls (w : World) : list Call :=
  [Print (nl +:+ "🎓 启动训练模式") []; Now] ++
  (if CONFIG_AVAILABLE (env w)
   then [ConfigManager GetConfig;
         Print ("📋 使用配置文件: " +:+ config_file (env w)) []]
   else []) ++
  [Db (StartTrainingSession (training_session_id (now_in w)) (snapshot_of w));
   Db (LogEvent "INFO" "launcher"
         ("开始训练会话: " +:+ training_session_id (now_in w)))].

(** The world in which the [try] statement of [start_training] starts,
    when the database is available: the session id is assigned, the
    configuration read, the session registered and the INFO event written. *)
Definition registered (w : World) : World :=
  let id := training_session_id (now_in w) in
  {| env := env w; config_manager := config_manager w;
     database := database w; analyzer := analyzer w;
     current_session_id := Some id;
     config := config w;
     store := log (clock (env w) (S (S (ticks w)))) "INFO" "launcher"
                ("开始训练会话: " +:+ id) None
                (start_session (clock (env w) (S (ticks w))) id
                   (snapshot_of w) (store w)).2;
     files := files w; stdin := stdin w;
     ticks := S (S (S (ticks w))); systems := systems w;
     trace := trace w ++ registration_calls w |}.

(** The [try ... except] part of the [try] statement of [start_training],
    and the whole statement with its [finally] block. *)
Definition training_try : M unit :=
  try_except launch_traffic_system (except_Exception training_failed).

Definition training_run : M unit :=
  try_finally training_try end_session_record.

(** A call that registers no session. *)
Definition no_session_start (c : Call) : Prop :=
  match c with
  | Db (StartTrainingSession _ _) => False
  | _ => True
  end.

(** The steps of a training run, in order: a session id is generated (the
    clock is read), the session is registered with a snapshot, an INFO event
    is written, and then the run entry point of the traffic system is
    called. *)
Definition performs_training_steps (w : World) : Prop :=
  ∃ id snapshot message entry,
    (entry = RunTraining ∨ entry = RunAutoTraining) ∧
    [Now; Db (StartTrainingSession id snapshot);
     Db (LogEvent "INFO" "launcher" message); Engine entry]
      `sublist_of` new_calls w (start_training w).2.


(** ** Vocabulary of the statements about the menus *)

(** The environment and the three handles are the same in both worlds. *)
Definition same_handles (w w' : World) : Prop :=
  env w' = env w ∧ config_manager w' = config_manager w ∧
  database w' = database w ∧ analyzer w' = analyzer w.

(** The configuration object holds the same values in both worlds. *)
Definition keeps_config (w w' : World) : Prop := config w' = config w.

(** A call on something other than the database. *)
Definition not_db (c : Call) : Prop :=
  match c with
  | Db _ => False
  | _ => True
  end.

(** From a launcher without database handle: still none, the store and the
    exported files untouched, and no database call made. *)
Definition without_database (w w' : World) : Prop :=
  database w' = database w ∧
  (database w = false →
   store w' = store w ∧ files w' = files w ∧ extends_by not_db w w').

(** A call that reads no clock and starts no engine, and that asks the
    database nothing but a query. *)
Definition query_only (c : Call) : Prop :=
  match c with
  | Db (GetTrainingSessions _) | Db GetStatistics => True
  | Db _ | Now | Engine _ => False
  | _ => True
  end.

(** As long as no SIGINT is waiting on the input: none is waiting afterwards,
    and the session id, the configuration, the store and the exported files
    are as before, the calls made in between being [query_only]. *)
Definition leaves_telemetry (w w' : World) : Prop :=
  (Sigint ∉ stdin w) →
  (Sigint ∉ stdin w') ∧
  current_session_id w' = current_session_id w ∧
  config w' = config w ∧ store w' = store w ∧ files w' = files w ∧
  extends_by query_only w w'.

(** [os.path.exists(path)] in [w], as [os_path_exists] answers it. *)
Definition exists_now (w : World) (path : string) : bool :=
  path_exists (env w) path ||
  match makedirs_error (env w) path with
  | Some _ => false
  | None =>
      existsb (fun c => match c with
                        | Makedirs p => bool_decide (p = path)
                        | _ => false
                        end) (trace w)
  end.

(** What the dependency check's handler takes: the module imports, or its
    import raises an [ImportError]. *)
Definition import_caught (e : Env) (module : string) : Prop :=
  importable e module = true ∨ ∃ msg, import_error e module = ImportError msg.

(** The two lines of the dependency check for a module that imports or is
    missing. *)
Definition dependency_report (e : Env) (dep : string * string) : list Call :=
  [ImportModule dep.1;
   Print (if importable e dep.1
          then "✅ " +:+ dep.1 +:+ " - " +:+ dep.2
          else "❌ " +:+ dep.1 +:+ " - " +:+ dep.2 +:+ " (未安装)") []].

(** The traffic system never gets to its run entry point: the module has
    neither class, or the object is constructed and [initialize()] answers
    [False]. *)
Definition never_starts (w : World) : Prop :=
  (has_IntegratedTrafficSystem (env w) = false ∧
   has_AutoSmartTrafficSystem (env w) = false) ∨
  (has_system_class (env w) ∧
   on_construct (next_system w) = Returns tt ∧
   on_initialize (next_system w) = Returns false).

(** A call that is neither a run entry point of the traffic system nor a
    database call. *)
Definition not_run (c : Call) : Prop :=
  match c with
  | Engine RunTraining | Engine RunAutoTraining | Engine RunDeployment => False
  | Db _ => False
  | _ => True
  end.

(** The retention period the clean-up dialogue works with, for an answer to
    its first question: [int(days) if days.isdigit() else 30] on the
    stripped answer; [None] when [int] rejects what [isdigit] accepted. *)
Definition retention_days (e : Env) (answer : string) : option Z :=
  if py_isdigit e (py_strip e answer) then py_int e (py_strip e answer)
  else Some 30%Z.

(** A call other than [export_data]. *)
Definition not_export (c : Call) : Prop :=
  match c with
  | Db (ExportData _ _) => False
  | _ => True
  end.

(** A call other than [save_config]. *)
Definition not_save (c : Call) : Prop :=
  match c with
  | ConfigManager SaveConfig => False
  | _ => True
  end.

(** A call other than the confirmation of a configuration edit. *)
Definition not_confirmation (c : Call) : Prop :=
  c ≠ Print "✅ 配置已更新" [].

(** ** Further installations, for running the menus *)

(** An engine whose [initialize()] answers [False]. *)
Definition engine_not_initialising : EngineBehaviour :=
  {| on_construct := Returns tt; on_initialize := Returns false;
     on_run := Returns tt |}.

(** The demo installation without the traffic-system module. *)
Definition no_traffic_env (b : EngineBehaviour) : Env :=
  {| CONFIG_AVAILABLE := true; DATABASE_AVAILABLE := true;
     ANALYZER_AVAILABLE := true; TRAFFIC_SYSTEM_AVAILABLE := false;
     has_IntegratedTrafficSystem := false;
     has_AutoSmartTrafficSystem := false;
     clock := clock (demo_env b); engine := engine (demo_env b);
     py_strip := py_strip (demo_env b); py_int := py_int (demo_env b);
     py_float := py_float (demo_env b);
     py_isdigit := py_isdigit (demo_env b);
     py_lower := py_lower (demo_env b);
     py_int_error := py_int_error (demo_env b);
     py_float_error := py_float_error (demo_env b);
     config_file := config_file (demo_env b);
     save_config_ok := save_config_ok (demo_env b);
     create_sample_config_ok := true;
     statistics := statistics (demo_env b); purge := purge (demo_env b);
     writable := writable (demo_env b);
     analyze_ok := analyze_ok (demo_env b);
     output_dir := output_dir (demo_env b);
     summary_report := summary_report (demo_env b);
     path_exists := path_exists (demo_env b);
     makedirs_error := makedirs_error (demo_env b);
     importable := importable (demo_env b);
     import_error := import_error (demo_env b) |}.

(** The demo installation where the sample configuration cannot be
    written. *)
Definition failing_sample_env (b : EngineBehaviour) : Env :=
  {| CONFIG_AVAILABLE := true; DATABASE_AVAILABLE := true;
     ANALYZER_AVAILABLE := true; TRAFFIC_SYSTEM_AVAILABLE := true;
     has_IntegratedTrafficSystem := true;
     has_AutoSmartTrafficSystem := false;
     clock := clock (demo_env b); engine := engine (demo_env b);
     py_strip := py_strip (demo_env b); py_int := py_int (demo_env b);
     py_float := py_float (demo_env b);
     py_isdigit := py_isdigit (demo_env b);
     py_lower := py_lower (demo_env b);
     py_int_error := py_int_error (demo_env b);
     py_float_error := py_float_error (demo_env b);
     config_file := config_file (demo_env b);
     save_config_ok := save_config_ok (demo_env b);
     create_sample_config_ok := false;
     statistics := statistics (demo_env b); purge := purge (demo_env b);
     writable := writable (demo_env b);
     analyze_ok := analyze_ok (demo_env b);
     output_dir := output_dir (demo_env b);
     summary_report := summary_report (demo_env b);
     path_exists := path_exists (demo_env b);
     makedirs_error := makedirs_error (demo_env b);
     importable := importable (demo_env b);
     import_error := import_error (demo_env b) |}.

(** A fresh checkout: the source files are there, the directories are not
    and can be created; CARLA is not installed. *)
Definition fresh_checkout_env (b : EngineBehaviour) : Env :=
  {| CONFIG_AVAILABLE := true; DATABASE_AVAILABLE := true;
     ANALYZER_AVAILABLE := true; TRAFFIC_SYSTEM_AVAILABLE := true;
     has_IntegratedTrafficSystem := true;
     has_AutoSmartTrafficSystem := false;
     clock := clock (demo_env b); engine := engine (demo_env b);
     py_strip := py_strip (demo_env b); py_int := py_int (demo_env b);
     py_float := py_float (demo_env b);
     py_isdigit := py_isdigit (demo_env b);
     py_lower := py_lower (demo_env b);
     py_int_error := py_int_error (demo_env b);
     py_float_error := py_float_error (demo_env b);
     config_file := config_file (demo_env b);
     save_config_ok := save_config_ok (demo_env b);
     create_sample_config_ok := true;
     statistics := statistics (demo_env b); purge := purge (demo_env b);
     writable := writable (demo_env b);
     analyze_ok := analyze_ok (demo_env b);
     output_dir := output_dir (demo_env b);
     summary_report := summary_report (demo_env b);
     path_exists := fun p => bool_decide (p ∈ required_files);
     makedirs_error := fun _ => None;
     importable := fun m => bool_decide (m ≠ "carla");
     import_error := import_error (demo_env b) |}.

(** The same checkout in a directory where [logs] cannot be created, and
    with a PyTorch whose import fails on a missing shared library. *)
Definition broken_checkout_env (b : EngineBehaviour) : Env :=
  {| CONFIG_AVAILABLE := true; DATABASE_AVAILABLE := true;
     ANALYZER_AVAILABLE := true; TRAFFIC_SYSTEM_AVAILABLE := true;
     has_IntegratedTrafficSystem := true;
     has_AutoSmartTrafficSystem := false;
     clock := clock (demo_env b); engine := engine (demo_env b);
     py_strip := py_strip (demo_env b); py_int := py_int (demo_env b);
     py_float := py_float (demo_env b);
     py_isdigit := py_isdigit (demo_env b);
     py_lower := py_lower (demo_env b);
     py_int_error := py_int_error (demo_env b);
     py_float_error := py_float_error (demo_env b);
     config_file := config_file (demo_env b);
     save_config_ok := save_config_ok (demo_env b);
     create_sample_config_ok := true;
     statistics := statistics (demo_env b); purge := purge (demo_env b);
     writable := writable (demo_env b);
     analyze_ok := analyze_ok (demo_env b);
     output_dir := output_dir (demo_env b);
     summary_report := summary_report (demo_env b);
     path_exists := fun p => bool_decide (p ∈ required_files);
     makedirs_error := fun p =>
       if decide (p = "logs")
       then Some (OtherException "[Errno 13] Permission denied: 'logs'")
       else None;
     importable := fun m => bool_decide (m ≠ "carla" ∧ m ≠ "torch");
     import_error := fun m =>
       if decide (m = "torch")
       then OtherException "libcudart.so: cannot open shared object file"
       else import_error (demo_env b) m |}.


(** * Properties *)

(** ** Running the launcher symbolically *)

Arguments training_session_id : simpl never.
Arguments completed_result : simpl never.
Arguments stopped_result : simpl never.
Arguments config_dict_of : simpl never.
Arguments String.append : simpl never.
Arguments start_session : simpl never.
Arguments end_session : simpl never.
Arguments log : simpl never.
Arguments close_store : simpl never.
Arguments export : simpl never.
Arguments get_sessions : simpl never.
Arguments truthy : simpl never.
Arguments is_Exception : simpl never.
Arguments exn_str : simpl never.

(** Unfold the monad and the launcher's primitives, but none of the data. *)
Ltac unfold_m :=
  cbv beta iota delta
    [bind ret raise ask get modify emit py_print py_printf py_input py_inputf
     datetime_now tick try_except try_finally except_Exception
     database_method start_training_session log_event end_training_session
     get_training_sessions export_data close get_config new_system initialize
     run external _signal_handler sys_exit shutdown strip int_of index
     with_trace with_store with_ticks with_systems with_stdin with_files
     with_config with_current_session_id].

(** Run as far as the hypotheses in the context decide the branches. *)
Ltac run :=
  repeat (unfold_m; cbn;
          try match goal with
              | H : ?x = _ |- context [?x] => rewrite H
              end).

Lemma truthy_training_session_id (d : datetime) :
  truthy (Some (training_session_id d)) = Some (training_session_id d).
Proof. reflexivity. Qed.

Lemma truthy_Some (s : option string) (id : string) :
  truthy s = Some id → s = Some id ∧ id ≠ "".
Proof.
  destruct s as [[|c r]|]; cbv [truthy]; intros H; simplify_eq.
  split; [reflexivity | discriminate].
Qed.

Lemma truthy_nonempty (id : string) : id ≠ "" → truthy (Some id) = Some id.
Proof. destruct id; [congruence | reflexivity]. Qed.

(** ** The telemetry store *)

Lemma assoc_set_other {A} (k k' : string) (v : A) (l : list (string * A)) :
  k' ≠ k → assoc k' (assoc_set k v l) = assoc k' l.
Proof.
  intros Hne. induction l as [|[k0 v0] l IH]; [reflexivity|].
  cbn. destruct (decide (k = k0)) as [->|]; cbn.
  - destruct (decide (k' = k0)); [congruence | reflexivity].
  - destruct (decide (k' = k0)); [reflexivity | exact IH].
Qed.

Lemma assoc_set_same {A} (k : string) (v : A) (l : list (string * A)) :
  is_Some (assoc k l) → assoc k (assoc_set k v l) = Some v.
Proof.
  induction l as [|[k0 v0] l IH]; cbn.
  - intros [? ?]; discriminate.
  - intros H. destruct (decide (k = k0)) as [->|Hne]; cbn.
    + destruct (decide (k0 = k0)); [reflexivity | congruence].
    + destruct (decide (k = k0)); [congruence | auto].
Qed.

Lemma status_of_string_terminal (s : string) (t : status) :
  status_of_string s = Some t → is_terminal t = true.
Proof. unfold status_of_string. repeat case_decide; naive_solver. Qed.

Lemma status_of_result_terminal (r : pydict) (t : status) :
  status_of_result r = Some t → is_terminal t = true.
Proof.
  unfold status_of_result. destruct (r !! "status") as [[]|]; try discriminate.
  apply status_of_string_terminal.
Qed.

(** A session that a close call cannot change any more: the store handle is
    closed, or the session is absent or already terminal. *)
Lemma end_session_settled (t : datetime) (id : string) (r : pydict) (st : Store) :
  closed st = true ∨
  match get_session id st with
  | Some s => is_terminal (session_status s) = true
  | None => True
  end →
  sessions (end_session t id r st).2 = sessions st.
Proof.
  unfold end_session. intros [Hc | Hs].
  - by rewrite Hc.
  - destruct (closed st); [reflexivity|].
    destruct (get_session id st) as [s|]; [|reflexivity].
    by rewrite Hs.
Qed.

(** After a close call that names a terminal status, the session is
    settled. *)
Lemma end_session_settles (t : datetime) (id : string) (r : pydict) (st : Store) :
  status_of_result r ≠ None →
  closed (end_session t id r st).2 = true ∨
  match get_session id (end_session t id r st).2 with
  | Some s => is_terminal (session_status s) = true
  | None => True
  end.
Proof.
  intros Hr. unfold end_session.
  destruct (closed st) eqn:Hc; [by left|]. right.
  destruct (get_session id st) as [s|] eqn:Hs; cbn; [|by rewrite Hs].
  destruct (is_terminal (session_status s)) eqn:Ht; cbn.
  - unfold get_session in *. cbn. by rewrite Hs.
  - destruct (status_of_result r) as [t'|] eqn:E; [|congruence]. cbn.
    unfold get_session in *. cbn.
    rewrite assoc_set_same by (rewrite Hs; eauto). cbn.
    eapply status_of_result_terminal, E.
Qed.

Lemma end_session_twice (t1 t2 : datetime) (id : string) (r1 r2 : pydict)
    (st : Store) :
  status_of_result r1 ≠ None →
  sessions (end_session t2 id r2 (end_session t1 id r1 st).2).2 =
  sessions (end_session t1 id r1 st).2.
Proof. intros Hr. by apply end_session_settled, end_session_settles. Qed.

Lemma status_of_completed : status_of_result completed_result = Some completed.
Proof. reflexivity. Qed.

Lemma status_of_stopped : status_of_result stopped_result = Some stopped.
Proof. reflexivity. Qed.

(** Closing a running session records the status, the end time and the
    payload. *)
Lemma end_session_running (t : datetime) (id : string) (r : pydict)
    (st : Store) (s : Session) (final : status) :
  closed st = false → get_session id st = Some s →
  session_status s = running → status_of_result r = Some final →
  get_session id (end_session t id r st).2 =
    Some {| start_time := start_time s; end_time := Some t;
            session_status := final; config_snapshot := config_snapshot s;
            total_episodes := total_episodes s; best_score := best_score s;
            result_payload := Some r |}.
Proof.
  intros Hc Hs Hrun Hr. unfold end_session.
  rewrite Hc, Hs, Hrun, Hr. cbn. unfold get_session in *. cbn.
  apply assoc_set_same. rewrite Hs. eauto.
Qed.


(** ** The format of a session id *)

Lemma digit_inj (a b : Z) : digit a = digit b → (a mod 10 = b mod 10)%Z.
Proof.
  unfold digit. intros H.
  apply (f_equal N_of_ascii) in H.
  pose proof (Z.mod_pos_bound a 10 eq_refl).
  pose proof (Z.mod_pos_bound b 10 eq_refl).
  rewrite !N_ascii_embedding in H by lia. lia.
Qed.

Lemma pad2_inj (a b : Z) :
  (0 ≤ a < 100)%Z → (0 ≤ b < 100)%Z → pad2 a = pad2 b → a = b.
Proof.
  unfold pad2. intros Ha Hb H. injection H as H1 H2.
  apply digit_inj in H1, H2.
  Z.to_euclidean_division_equations. lia.
Qed.

Lemma pad4_inj (a b : Z) :
  (0 ≤ a < 10000)%Z → (0 ≤ b < 10000)%Z → pad4 a = pad4 b → a = b.
Proof.
  unfold pad4. intros Ha Hb H. injection H as H1 H2 H3 H4.
  apply digit_inj in H1, H2, H3, H4.
  Z.to_euclidean_division_equations. lia.
Qed.

(** The identifier, spelled out. *)
Lemma training_session_id_format (d : datetime) :
  training_session_id d =
  "train_" +:+ pad4 (year d) +:+ pad2 (month d) +:+ pad2 (day d) +:+ "_" +:+
  pad2 (hour d) +:+ pad2 (minute d) +:+ pad2 (second d).
Proof. reflexivity. Qed.

Lemma training_session_id_inj (a b : datetime) :
  valid_datetime a → valid_datetime b →
  training_session_id a = training_session_id b → same_second a b.
Proof.
  intros (Ya & Ma & Da & ha & ma & sa) (Yb & Mb & Db & hb & mb & sb) H.
  rewrite !training_session_id_format in H.
  cbv [String.append pad4 pad2] in H.
  injection H as Y1 Y2 Y3 Y4 M1 M2 D1 D2 h1 h2 m1 m2 s1 s2.
  repeat split.
  - apply pad4_inj; [lia | lia | unfold pad4; congruence].
  - apply pad2_inj; [lia | lia | unfold pad2; congruence].
  - apply pad2_inj; [lia | lia | unfold pad2; congruence].
  - apply pad2_inj; [lia | lia | unfold pad2; congruence].
  - apply pad2_inj; [lia | lia | unfold pad2; congruence].
  - apply pad2_inj; [lia | lia | unfold pad2; congruence].
Qed.


(** ** Relations kept by every step *)

Section Respects.
Context (R : World → World → Prop).
Hypothesis R_refl : ∀ w, R w w.
Hypothesis R_trans : ∀ a b c, R a b → R b c → R a c.

Lemma respects_ret {A} (a : A) : respects R (ret a).
Proof. intros w. apply R_refl. Qed.

Lemma respects_raise {A} (e : exn) : respects R (@raise A e).
Proof. intros w. apply R_refl. Qed.

Lemma respects_ask {A} (f : Env → A) : respects R (ask f).
Proof. intros w. apply R_refl. Qed.

Lemma respects_get {A} (f : World → A) : respects R (get f).
Proof. intros w. apply R_refl. Qed.

Lemma respects_bind {A B} (m : M A) (k : A → M B) :
  respects R m → (∀ a, respects R (k a)) → respects R (bind m k).
Proof.
  intros Hm Hk w. unfold bind. specialize (Hm w).
  destruct (m w) as [[a| |] w1]; cbn in *; auto.
  eapply R_trans; [exact Hm | apply Hk].
Qed.

Lemma respects_try_except {A} (body : M A) (handler : exn → option (M A)) :
  respects R body →
  (∀ e h, handler e = Some h → respects R h) →
  respects R (try_except body handler).
Proof.
  intros Hb Hh w. unfold try_except. specialize (Hb w).
  destruct (body w) as [[a|e|] w1]; cbn in *; auto.
  destruct (handler e) as [h|] eqn:E; cbn; auto.
  eapply R_trans; [exact Hb | eapply Hh, E].
Qed.

Lemma respects_try_finally {A} (body : M A) (fin : M unit) :
  respects R body → respects R fin → respects R (try_finally body fin).
Proof.
  intros Hb Hf w. unfold try_finally. specialize (Hb w).
  destruct (body w) as [[a|e|] w1]; cbn in *; auto;
    specialize (Hf w1); destruct (fin w1) as [[[]|e'|] w2]; cbn in *;
    eapply R_trans; eauto.
Qed.

Lemma respects_while_true (fuel : nat) (body : M ctl) :
  respects R body → respects R (while_true fuel body).
Proof.
  intros Hb. induction fuel as [|n IH]; cbn.
  - intros w. apply R_refl.
  - apply respects_bind; [exact Hb|].
    intros []; [exact IH | apply respects_ret].
Qed.

Lemma respects_for_each {A} (l : list A) (f : A → M unit) :
  (∀ x, respects R (f x)) → respects R (for_each l f).
Proof.
  intros Hf. induction l as [|x l IH]; cbn.
  - apply respects_ret.
  - apply respects_bind; [apply Hf | intros _; exact IH].
Qed.
End Respects.

Lemma extends_by_refl (P : Call → Prop) (w : World) : extends_by P w w.
Proof. exists []. split; [by rewrite app_nil_r | constructor]. Qed.

Lemma extends_by_trans (P : Call → Prop) (a b c : World) :
  extends_by P a b → extends_by P b c → extends_by P a c.
Proof.
  intros (t1 & E1 & F1) (t2 & E2 & F2). exists (t1 ++ t2). split.
  - by rewrite E2, E1, app_assoc.
  - by apply Forall_app.
Qed.

Lemma same_launcher_refl (w : World) : same_launcher w w.
Proof. by repeat split. Qed.

Lemma same_launcher_trans (a b c : World) :
  same_launcher a b → same_launcher b c → same_launcher a c.
Proof.
  intros (?&?&?&?&?) (?&?&?&?&?). repeat split; congruence.
Qed.

Create HintDb launcher.
#[local] Hint Unfold
  py_print py_printf py_input py_inputf datetime_now
  database_method start_training_session log_event end_training_session
  get_training_sessions get_statistics cleanup_old_data export_data close
  shutdown sys_exit _signal_handler external new_system initialize run
  get_config load_config record_session launch_traffic_system training_failed
  end_session_record start_training start_deployment
  strip lower isdigit int_of float_of gt_zero index
  analyzer_method analyze_session generate_summary_report performance_analysis
  config_manager_method print_config save_config create_sample_config
  config_management show_statistics cleanup_menu export_menu
  database_menu_iteration database_management
  web_monitoring show_system_info os_path_exists os_makedirs import_module
  _check_project_files _init_config _init_database _check_dependencies
  _cleanup_temp_files project_setup dispatch menu_banner menu_try
  menu_iteration
  show_main_menu : launcher.

(** From [handler e = Some h] to the handler that was chosen. *)
Ltac from_handler H :=
  cbv [menu_handlers except_Exception except_ValueError_IndexError
       except_ValueError_AttributeError] in H;
  repeat case_match; simplify_eq.

(** One structural step of a proof of [respects R m]; [leaf] closes the
    state changes. *)
Ltac respects_step R_refl R_trans leaf :=
  lazymatch goal with
  | |- respects _ (bind _ _) => apply (respects_bind _ R_trans); [|intros ?]
  | |- respects _ (ret _) => apply (respects_ret _ R_refl)
  | |- respects _ (raise _) => apply (respects_raise _ R_refl)
  | |- respects _ (ask _) => apply (respects_ask _ R_refl)
  | |- respects _ (get _) => apply (respects_get _ R_refl)
  | |- respects _ (try_except _ _) =>
      apply (respects_try_except _ R_trans);
      [|let e := fresh "e" in let h := fresh "h" in let H := fresh "H" in
        intros e h H; from_handler H]
  | |- respects _ (try_finally _ _) => apply (respects_try_finally _ R_trans)
  | |- respects _ (while_true _ _) =>
      apply (respects_while_true _ R_refl R_trans)
  | |- respects _ (for_each _ _) =>
      apply (respects_for_each _ R_refl R_trans); intros ?
  | |- respects _ (if ?b then _ else _) => destruct b
  | |- respects _ (match ?x with _ => _ end) => destruct x
  | |- respects _ (emit _) => leaf
  | |- respects _ (modify _) => leaf
  | |- respects _ tick => leaf
  | |- respects _ (fun _ => _) => leaf
  | |- respects _ _ => first [solve [auto] | progress autounfold with launcher]
  end.

(** *** Every close is a completed or a stopped one *)

Ltac extends_leaf :=
  let w := fresh "w" in
  unfold respects, extends_by; intros w; cbn;
  first [ exists []; split; [by rewrite app_nil_r | constructor]
        | eexists [_]; split;
          [reflexivity | constructor; [cbn; auto | constructor]] ].

Ltac closes_tac :=
  repeat respects_step (extends_by_refl closes_with)
    (extends_by_trans closes_with) extends_leaf.

Lemma shutdown_closes : respects (extends_by closes_with) shutdown.
Proof. closes_tac. Qed.

Lemma signal_handler_closes (A : Type) :
  respects (extends_by closes_with) (@_signal_handler A).
Proof. pose proof shutdown_closes. closes_tac. Qed.

Lemma start_training_closes : respects (extends_by closes_with) start_training.
Proof. pose proof signal_handler_closes. closes_tac. Qed.

Lemma show_main_menu_closes (fuel : nat) :
  respects (extends_by closes_with) (show_main_menu fuel).
Proof.
  pose proof shutdown_closes. pose proof signal_handler_closes.
  pose proof start_training_closes.
  closes_tac.
Qed.

(** *** The launcher's attributes stay *)

Ltac same_leaf :=
  let w := fresh "w" in
  unfold respects, same_launcher; intros w; cbn; by repeat split.

Ltac same_tac :=
  repeat respects_step same_launcher_refl same_launcher_trans same_leaf.

Lemma signal_handler_same (A : Type) : respects same_launcher (@_signal_handler A).
Proof. same_tac. Qed.

Lemma launch_traffic_system_same : respects same_launcher launch_traffic_system.
Proof. pose proof signal_handler_same. same_tac. Qed.

Lemma training_failed_same (e : exn) : respects same_launcher (training_failed e).
Proof. same_tac. Qed.

Lemma start_deployment_same : respects same_launcher start_deployment.
Proof. pose proof signal_handler_same. same_tac. Qed.


(** *** Actions that end *)

Lemma total_ret {A} (a : A) : total (ret a).
Proof. by intros w. Qed.

Lemma total_raise {A} (e : exn) : total (@raise A e).
Proof. by intros w. Qed.

Lemma total_ask {A} (f : Env → A) : total (ask f).
Proof. by intros w. Qed.

Lemma total_get {A} (f : World → A) : total (get f).
Proof. by intros w. Qed.

Lemma total_modify (f : World → World) : total (modify f).
Proof. by intros w. Qed.

Lemma total_emit (c : Call) : total (emit c).
Proof. by intros w. Qed.

Lemma total_tick : total tick.
Proof. by intros w. Qed.

Lemma total_bind {A B} (m : M A) (k : A → M B) :
  total m → (∀ a, total (k a)) → total (bind m k).
Proof.
  intros Hm Hk w. unfold bind. specialize (Hm w).
  destruct (m w) as [[a|e|] w1]; cbn in *; [apply Hk | done | done].
Qed.

Lemma total_try_except {A} (body : M A) (handler : exn → option (M A)) :
  total body → (∀ e h, handler e = Some h → total h) →
  total (try_except body handler).
Proof.
  intros Hb Hh w. unfold try_except. specialize (Hb w).
  destruct (body w) as [[a|e|] w1]; cbn in *; [done | | done].
  destruct (handler e) as [h|] eqn:E; [eapply Hh, E | done].
Qed.

Lemma total_try_finally {A} (body : M A) (fin : M unit) :
  total body → total fin → total (try_finally body fin).
Proof.
  intros Hb Hf w. unfold try_finally. specialize (Hb w).
  destruct (body w) as [[a|e|] w1]; cbn in *; [| | done];
    specialize (Hf w1); destruct (fin w1) as [[[]|e'|] w2]; cbn in *; done.
Qed.

Ltac total_step :=
  lazymatch goal with
  | |- total (bind _ _) => apply total_bind; [|intros ?]
  | |- total (ret _) => apply total_ret
  | |- total (raise _) => apply total_raise
  | |- total (ask _) => apply total_ask
  | |- total (get _) => apply total_get
  | |- total (modify _) => apply total_modify
  | |- total (emit _) => apply total_emit
  | |- total tick => apply total_tick
  | |- total (try_except _ _) =>
      apply total_try_except;
      [|let e := fresh "e" in let h := fresh "h" in let H := fresh "H" in
        intros e h H; from_handler H]
  | |- total (try_finally _ _) => apply total_try_finally
  | |- total (if ?b then _ else _) => destruct b
  | |- total (match ?x with _ => _ end) => destruct x
  | |- total _ => first [solve [auto] | progress autounfold with launcher]
  end.

Lemma signal_handler_total (A : Type) : total (@_signal_handler A).
Proof. repeat total_step. Qed.

Lemma launch_traffic_system_total : total launch_traffic_system.
Proof. pose proof signal_handler_total. repeat total_step. Qed.

Lemma training_failed_total (e : exn) : total (training_failed e).
Proof. repeat total_step. Qed.

(** When the body ends, the [finally] block runs in the world the body
    left. *)
Lemma try_finally_world {A} (body : M A) (fin : M unit) (w : World) :
  (body w).1 ≠ OutOfFuel →
  (try_finally body fin w).2 = (fin (body w).2).2.
Proof.
  unfold try_finally. destruct (body w) as [[a|e|] w1]; cbn; [| |done];
    intros _; by destruct (fin w1) as [[[]|e'|] w2].
Qed.

Lemma try_finally_outcome {A} (body : M A) (fin : M unit) (w : World) :
  (body w).1 ≠ OutOfFuel → (fin (body w).2).1 = Return tt →
  (try_finally body fin w).1 = (body w).1.
Proof.
  unfold try_finally. destruct (body w) as [[a|e|] w1]; cbn; [| |done];
    intros _; destruct (fin w1) as [[[]|e'|] w2]; cbn; congruence.
Qed.

(** ** The blocks of [start_training] *)

Arguments try_finally : simpl never.
Arguments try_except : simpl never.
Arguments launch_traffic_system : simpl never.
Arguments training_failed : simpl never.
Arguments end_session_record : simpl never.
Arguments training_run : simpl never.
Arguments training_try : simpl never.

(** The primitives, without the exception combinators. *)
Ltac unfold_blocks :=
  cbv beta iota delta
    [bind ret raise ask get modify emit py_print py_printf
     datetime_now tick load_config record_session
     database_method start_training_session log_event end_training_session
     close get_config shutdown sys_exit _signal_handler
     with_trace with_store with_ticks with_systems with_stdin with_files
     with_config with_current_session_id].

Ltac run_blocks :=
  repeat (unfold_blocks; cbn;
          try match goal with
              | H : ?x = _ |- context [?x] => rewrite H
              end).

(** With the traffic system and the database in place, [start_training]
    registers the session and enters its [try] statement. *)
Lemma start_training_registers (w : World) :
  TRAFFIC_SYSTEM_AVAILABLE (env w) = true →
  DATABASE_AVAILABLE (env w) = true →
  constructed w →
  start_training w = training_run (registered w).
Proof.
  intros Ht Hd (Hcm & Hdb & _).
  destruct w as [en cm db an sid cfg st fs inp tk sys tr].
  cbn in *. subst cm db.
  unfold start_training, registered, registration_calls, snapshot_of, now_in.
  fold training_run.
  destruct (CONFIG_AVAILABLE en) eqn:Hc; run_blocks;
    rewrite <- ?app_assoc; reflexivity.
Qed.

(** *** The session id stays once assigned *)

Lemma keeps_session_id_refl (w : World) : keeps_session_id w w.
Proof. reflexivity. Qed.

Lemma keeps_session_id_trans (a b c : World) :
  keeps_session_id a b → keeps_session_id b c → keeps_session_id a c.
Proof. unfold keeps_session_id. congruence. Qed.

Ltac keeps_leaf :=
  let w := fresh "w" in
  unfold respects, keeps_session_id; intros w; reflexivity.

Ltac keeps_tac :=
  repeat respects_step keeps_session_id_refl keeps_session_id_trans keeps_leaf.

Lemma signal_handler_keeps (A : Type) :
  respects keeps_session_id (@_signal_handler A).
Proof. keeps_tac. Qed.

Lemma training_keeps :
  respects keeps_session_id
    (bind load_config (λ config, bind (record_session config) (λ _, training_run))).
Proof.
  pose proof signal_handler_keeps. unfold training_run, training_try.
  keeps_tac.
Qed.

(** The attribute holds the identifier from the assignment on. *)
Lemma start_training_session_id (w : World) :
  TRAFFIC_SYSTEM_AVAILABLE (env w) = true →
  current_session_id (start_training w).2 =
    Some (training_session_id (now_in w)).
Proof.
  intros Ht. unfold start_training. fold training_run.
  unfold bind at 1. cbn [py_print py_printf emit modify].
  unfold bind at 1. cbn [ask env with_trace]. rewrite Ht. cbn [negb].
  unfold bind at 1. unfold datetime_now at 1. unfold bind at 1.
  cbn [emit modify tick env with_trace with_ticks ticks].
  unfold bind at 1. cbn [modify].
  match goal with
  | |- current_session_id (_ ?w0).2 = _ => exact (training_keeps w0)
  end.
Qed.


Lemma training_try_total : total training_try.
Proof.
  pose proof launch_traffic_system_total. pose proof training_failed_total.
  unfold training_try. repeat total_step.
Qed.

Lemma training_try_same : respects same_launcher training_try.
Proof.
  pose proof launch_traffic_system_same. pose proof training_failed_same.
  unfold training_try. same_tac.
Qed.

Lemma end_training_session_run (id : string) (r : pydict) (w : World) :
  database w = true →
  end_training_session id r w =
    (Return tt,
     with_store (end_session (now_in w) id r (store w)).2
       (with_ticks (S (ticks w))
          (with_trace (trace w ++ [Db (EndTrainingSession id r)]) w))).
Proof.
  intros Hdb. unfold end_training_session, database_method, bind, get.
  cbn. rewrite Hdb. reflexivity.
Qed.

Lemma end_session_record_run (id : string) (w : World) :
  DATABASE_AVAILABLE (env w) = true →
  truthy (current_session_id w) = Some id →
  end_session_record w = end_training_session id completed_result w.
Proof.
  intros Hd Hid. unfold end_session_record, bind, ask, get. cbn.
  rewrite Hd, Hid. reflexivity.
Qed.

(** The [finally] block closes the session in the world the [try] block
    left, whatever happened there. *)
Lemma training_run_world (id : string) (w0 : World) :
  DATABASE_AVAILABLE (env w0) = true →
  truthy (current_session_id w0) = Some id →
  (training_run w0).2 =
    (end_training_session id completed_result (training_try w0).2).2.
Proof.
  intros Hd Hid. unfold training_run.
  rewrite try_finally_world by apply training_try_total.
  destruct (training_try_same w0) as (He & _ & _ & _ & Hs).
  rewrite (end_session_record_run id); [reflexivity | |]; congruence.
Qed.

Lemma shutdown_run (id : string) (w : World) :
  database w = true → truthy (current_session_id w) = Some id →
  shutdown w =
    (Return tt,
     with_trace
       (trace w ++ [Print (nl +:+ "🛑 正在关闭系统...") [];
                    Db (EndTrainingSession id stopped_result);
                    Db Close; Print "✅ 系统已安全关闭" []])
       (with_store (close_store (end_session (now_in w) id stopped_result
                                  (store w)).2)
          (with_ticks (S (ticks w)) w))).
Proof.
  intros Hdb Hid. destruct w as [en cm db an sid cfg st fs inp tk sys tr].
  cbn in *. subst db. unfold shutdown, now_in. run_blocks.
  rewrite <- !app_assoc. reflexivity.
Qed.

Lemma sessions_close_store (st : Store) :
  sessions (close_store st) = sessions st.
Proof. reflexivity. Qed.

(** ** Closing a session twice *)

(** C1. Closing a session twice leaves it as the first close set it: the
    second [end_session] changes no session record (end time, status,
    payload and totals included).  The launcher does close twice: the
    [finally] block of [start_training] closes the current session as
    completed, a later [shutdown] closes the same id as stopped, and the
    session records are the same before and after that [shutdown]. *)
Theorem end_session_twice_keeps_first_close
    (st : Store) (id : string) (r1 r2 : pydict) (t1 t2 : datetime)
    (w : World) :
  status_of_result r1 ≠ None →
  TRAFFIC_SYSTEM_AVAILABLE (env w) = true →
  DATABASE_AVAILABLE (env w) = true →
  constructed w →
  sessions (end_session t2 id r2 (end_session t1 id r1 st).2).2 =
    sessions (end_session t1 id r1 st).2 ∧
  (∀ s final,
     closed st = false → get_session id st = Some s →
     session_status s = running → status_of_result r1 = Some final →
     get_session id (end_session t2 id r2 (end_session t1 id r1 st).2).2 =
       Some {| start_time := start_time s; end_time := Some t1;
               session_status := final;
               config_snapshot := config_snapshot s;
               total_episodes := total_episodes s;
               best_score := best_score s;
               result_payload := Some r1 |}) ∧
  last (trace (start_training w).2) =
    Some (Db (EndTrainingSession (training_session_id (now_in w))
                completed_result)) ∧
  new_calls (start_training w).2 (shutdown (start_training w).2).2 =
    [Print (nl +:+ "🛑 正在关闭系统...") [];
     Db (EndTrainingSession (training_session_id (now_in w)) stopped_result);
     Db Close; Print "✅ 系统已安全关闭" []] ∧
  sessions (store (shutdown (start_training w).2).2) =
    sessions (store (start_training w).2).
Proof.
  intros Hr1 Ht Hd Hc.
  split; [by apply end_session_twice|].
  split.
  { intros s final Hcl Hs Hrun Hfin.
    unfold get_session. rewrite end_session_twice by done.
    by apply end_session_running. }
  rewrite start_training_registers by done.
  set (id0 := training_session_id (now_in w)).
  assert (Hid : truthy (current_session_id (registered w)) = Some id0)
    by reflexivity.
  assert (Hd0 : DATABASE_AVAILABLE (env (registered w)) = true) by exact Hd.
  rewrite (training_run_world id0) by done.
  destruct (training_try_same (registered w)) as (He & _ & Hdb & _ & Hs).
  set (w1 := (training_try (registered w)).2) in *.
  assert (Hdb1 : database w1 = true).
  { rewrite Hdb. cbn. destruct Hc as (_ & -> & _). exact Hd. }
  rewrite end_training_session_run by exact Hdb1.
  cbn [snd].
  rewrite (shutdown_run id0);
    [| exact Hdb1 | cbn; rewrite Hs; exact Hid].
  cbn [snd]. repeat split.
  - cbn. apply last_snoc.
  - unfold new_calls. cbn. by rewrite drop_app_length.
  - cbn. rewrite sessions_close_store. apply end_session_twice. discriminate.
Qed.


(** ** Interruption *)

Lemma start_session_fresh (t : datetime) (id : string) (cfg : pydict)
    (st : Store) :
  closed st = false → get_session id st = None →
  closed (start_session t id cfg st).2 = false ∧
  get_session id (start_session t id cfg st).2 =
    Some {| start_time := t; end_time := None; session_status := running;
            config_snapshot := cfg; total_episodes := 0;
            best_score := 0%float; result_payload := None |}.
Proof.
  intros Hc Hs. unfold start_session. rewrite Hc, Hs. cbn. split; [done|].
  unfold get_session. cbn. by rewrite decide_True.
Qed.

Lemma log_sessions (t : datetime) (level source message : string)
    (sid : option string) (st : Store) :
  sessions (log t level source message sid st) = sessions st ∧
  closed (log t level source message sid st) = closed st.
Proof. unfold log. by destruct (closed st) eqn:E. Qed.

Lemma end_session_closed (t : datetime) (id : string) (r : pydict) (st : Store) :
  closed st = true → (end_session t id r st).2 = st.
Proof. intros Hc. unfold end_session. by rewrite Hc. Qed.

Lemma signal_handler_run {A} (id : string) (w : World) :
  database w = true → truthy (current_session_id w) = Some id →
  @_signal_handler A w =
    (Raise (SystemExit 0),
     with_trace
       (trace w ++ [Print (nl +:+ "🛑 接收到中断信号，正在安全关闭...") [];
                    Print (nl +:+ "🛑 正在关闭系统...") [];
                    Db (EndTrainingSession id stopped_result);
                    Db Close; Print "✅ 系统已安全关闭" []])
       (with_store (close_store (end_session (now_in w) id stopped_result
                                  (store w)).2)
          (with_ticks (S (ticks w)) w))).
Proof.
  intros Hdb Hid. destruct w as [en cm db an sid cfg st fs inp tk sys tr].
  cbn in *. subst db. unfold now_in. run_blocks.
  rewrite <- !app_assoc. reflexivity.
Qed.

(** A SIGINT in the middle of the training run: the handler closes the
    session and the store, and [SystemExit] leaves the [try] block. *)
Lemma launch_interrupted (id : string) (w : World) :
  has_system_class (env w) → engine_starts (next_system w) →
  on_run (next_system w) = Interrupted →
  database w = true → truthy (current_session_id w) = Some id →
  ∃ w', launch_traffic_system w = (Raise (SystemExit 0), w') ∧
        store w' = close_store (end_session (now_in w) id stopped_result
                                  (store w)).2.
Proof.
  intros Hcls [Hcon Hini] Hrun Hdb Hid.
  destruct w as [en cm db an sid cfg st fs inp tk sys tr].
  unfold next_system, now_in in *. cbn in *. subst db.
  unfold launch_traffic_system.
  destruct (has_IntegratedTrafficSystem en) eqn:Hi;
    [|destruct Hcls as [Hcls|Hcls]; [congruence|]];
    run; eexists; split; reflexivity.
Qed.

(** C2. A SIGINT arriving while a session is current and the database is
    there: the handler calls [end_training_session] with
    [{"status": "stopped"}] on that session, then closes the store, and ends
    in [SystemExit(0)]; a running session is thereby stopped.  This holds
    mid-run as well: interrupted inside the training run, [start_training]
    ends in [SystemExit(0)] with the session stopped. *)
Theorem sigint_stops_current_session (w : World) (id : string) :
  database w = true → current_session_id w = Some id → id ≠ "" →
  (@_signal_handler unit w).1 = Raise (SystemExit 0) ∧
  new_calls w (@_signal_handler unit w).2 =
    [Print (nl +:+ "🛑 接收到中断信号，正在安全关闭...") [];
     Print (nl +:+ "🛑 正在关闭系统...") [];
     Db (EndTrainingSession id stopped_result);
     Db Close; Print "✅ 系统已安全关闭" []] ∧
  closed (store (@_signal_handler unit w).2) = true ∧
  (∀ s, closed (store w) = false → get_session id (store w) = Some s →
        session_status s = running →
        get_session id (store (@_signal_handler unit w).2) =
          Some {| start_time := start_time s; end_time := Some (now_in w);
                  session_status := stopped;
                  config_snapshot := config_snapshot s;
                  total_episodes := total_episodes s;
                  best_score := best_score s;
                  result_payload := Some stopped_result |}) ∧
  (∀ v : World,
     TRAFFIC_SYSTEM_AVAILABLE (env v) = true →
     DATABASE_AVAILABLE (env v) = true → constructed v →
     has_system_class (env v) → engine_starts (next_system v) →
     on_run (next_system v) = Interrupted →
     closed (store v) = false →
     get_session (training_session_id (now_in v)) (store v) = None →
     (start_training v).1 = Raise (SystemExit 0) ∧
     closed (store (start_training v).2) = true ∧
     session_status <$>
       get_session (training_session_id (now_in v)) (store (start_training v).2)
       = Some stopped).
Proof.
  intros Hdb Hsid Hne.
  assert (Hid : truthy (current_session_id w) = Some id)
    by (rewrite Hsid; by apply truthy_nonempty).
  rewrite (signal_handler_run id) by done. cbn [fst snd].
  split; [reflexivity|]. split.
  { unfold new_calls. cbn. by rewrite drop_app_length. }
  split; [reflexivity|]. split.
  { intros s Hc Hs Hrun. cbn. unfold get_session.
    rewrite sessions_close_store. by apply end_session_running. }
  clear dependent w. clear id Hne.
  intros v Ht Hd Hc Hcls Hst Hrun Hopen Hfresh.
  rewrite start_training_registers by done.
  set (id := training_session_id (now_in v)) in *.
  set (v0 := registered v).
  assert (Hid : truthy (current_session_id v0) = Some id) by reflexivity.
  assert (Hdb0 : database v0 = true).
  { cbn. destruct Hc as (_ & -> & _). exact Hd. }
  destruct (launch_interrupted id v0) as (v1 & Hl & Hs1); try done.
  assert (Htry : training_try v0 = (Raise (SystemExit 0), v1)).
  { unfold training_try, try_except. rewrite Hl. reflexivity. }
  pose proof (training_try_same v0) as (He & _ & Hdb1 & _ & Hsid1).
  rewrite Htry in He, Hdb1, Hsid1. cbn [snd] in *.
  assert (Hfin : end_session_record v1 =
                 end_training_session id completed_result v1).
  { apply end_session_record_run; [rewrite He; exact Hd | by rewrite Hsid1]. }
  unfold training_run, try_finally. rewrite Htry, Hfin.
  rewrite end_training_session_run by congruence.
  cbn [fst snd store with_store].
  rewrite Hs1. rewrite end_session_closed by reflexivity.
  split; [reflexivity|]. split; [reflexivity|].
  unfold get_session. rewrite sessions_close_store.
  destruct (start_session_fresh (clock (env v) (S (ticks v))) id
              (snapshot_of v) (store v) Hopen Hfresh) as [Hc1 Hg1].
  fold (get_session id (end_session (now_in v0) id stopped_result (store v0)).2).
  match type of Hg1 with _ = Some ?s0 =>
    rewrite (end_session_running (now_in v0) id stopped_result (store v0)
               s0 stopped)
  end; [reflexivity | | | reflexivity | reflexivity].
  - cbn. by rewrite (proj2 (log_sessions _ _ _ _ _ _)).
  - cbn. unfold get_session. rewrite (proj1 (log_sessions _ _ _ _ _ _)).
    exact Hg1.
Qed.


(** ** The calls of a training run *)

Arguments run : simpl never.

Ltac any_tac :=
  repeat respects_step (extends_by_refl (λ _, True))
    (extends_by_trans (λ _, True)) extends_leaf.

Lemma signal_handler_extends (A : Type) :
  respects (extends_by (λ _, True)) (@_signal_handler A).
Proof. any_tac. Qed.

Lemma training_failed_extends (e : exn) :
  respects (extends_by (λ _, True)) (training_failed e).
Proof. any_tac. Qed.

(** The run entry point is called before anything it does. *)
Lemma run_calls (c : engine_call) (system : nat) (w : World) :
  ∃ t, trace (run c system w).2 = trace w ++ Engine c :: t.
Proof.
  unfold run.
  assert (H : ∀ w0,
    ∃ t, trace (bind (ask (λ e, engine e system))
                  (λ b, external (on_run b)) w0).2 = trace w0 ++ t).
  { intros w0.
    assert (Hr : respects (extends_by (λ _, True))
                   (bind (ask (λ e, engine e system))
                      (λ b, external (on_run b)))).
    { pose proof signal_handler_extends. any_tac. }
    destruct (Hr w0) as (t & Ht & _). eauto. }
  unfold bind at 1. cbn [emit modify].
  match goal with |- context [bind ?m ?k ?w0] => destruct (H w0) as [t Ht] end.
  exists t. rewrite Ht. cbn. by rewrite <- app_assoc.
Qed.

(** When the traffic system comes up, its run entry point is called. *)
Lemma launch_enters (w : World) :
  has_system_class (env w) → engine_starts (next_system w) →
  ∃ t, trace (launch_traffic_system w).2 = trace w ++ t ∧
       Engine (training_entry (env w)) ∈ t.
Proof.
  intros Hcls [Hcon Hini].
  destruct w as [en cm db an sid cfg st fs inp tk sys tr].
  unfold next_system, training_entry in *. cbn in *.
  unfold launch_traffic_system.
  destruct (has_IntegratedTrafficSystem en) eqn:Hi;
    [|destruct Hcls as [Hcls|Hcls]; [congruence|]].
  all: repeat (cbv beta iota delta
                 [bind ret raise ask get modify emit py_print new_system
                  initialize external with_trace with_systems];
               cbn;
               try match goal with
                   | H : ?x = _ |- context [?x] => rewrite H
                   end).
  all: match goal with
       | |- context [run ?c ?s ?w0] =>
           destruct (run_calls c s w0) as [t Ht]; rewrite Ht
       end.
  all: cbn; rewrite <- !app_assoc; eexists; split; [reflexivity|].
  all: cbn; rewrite !elem_of_cons; auto.
Qed.

Lemma try_except_extends {A} (body : M A) (handler : exn → option (M A))
    (w : World) :
  (∀ e h, handler e = Some h → respects (extends_by (λ _, True)) h) →
  ∃ t, trace (try_except body handler w).2 = trace (body w).2 ++ t.
Proof.
  intros Hh. unfold try_except.
  destruct (body w) as [[a|e|] w1]; cbn;
    [exists []; by rewrite app_nil_r | | exists []; by rewrite app_nil_r].
  destruct (handler e) as [h|] eqn:E; [|exists []; by rewrite app_nil_r].
  destruct (Hh e h E w1) as (t & Ht & _). eauto.
Qed.

Lemma no_session_start_refl (w : World) : extends_by no_session_start w w.
Proof. apply extends_by_refl. Qed.

Ltac no_start_tac :=
  repeat respects_step (extends_by_refl no_session_start)
    (extends_by_trans no_session_start) extends_leaf.

Lemma signal_handler_no_start (A : Type) :
  respects (extends_by no_session_start) (@_signal_handler A).
Proof. no_start_tac. Qed.

Lemma training_run_no_start :
  respects (extends_by no_session_start) training_run.
Proof.
  pose proof signal_handler_no_start.
  unfold training_run, training_try. no_start_tac.
Qed.

(** The calls of [start_training], database in place: the registration,
    then the rest, which registers nothing more and holds the call of the
    run entry point when the traffic system comes up. *)
Lemma start_training_calls (w : World) :
  TRAFFIC_SYSTEM_AVAILABLE (env w) = true →
  DATABASE_AVAILABLE (env w) = true →
  constructed w →
  ∃ rest,
    new_calls w (start_training w).2 = registration_calls w ++ rest ∧
    Forall no_session_start rest ∧
    (has_system_class (env w) → engine_starts (next_system w) →
     Engine (training_entry (env w)) ∈ rest).
Proof.
  intros Ht Hd Hc. rewrite start_training_registers by done.
  destruct (training_run_no_start (registered w)) as (rest & Hrest & Hall).
  exists rest. split; [|split; [exact Hall|]].
  - unfold new_calls. rewrite Hrest. cbn [registered trace].
    rewrite <- app_assoc. by rewrite drop_app_length.
  - intros Hcls Hst.
    set (id := training_session_id (now_in w)).
    assert (Hid : truthy (current_session_id (registered w)) = Some id)
      by reflexivity.
    rewrite (training_run_world id) in Hrest by done.
    destruct (launch_enters (registered w) Hcls Hst) as (tl & Htl & Hin).
    destruct (try_except_extends launch_traffic_system
                (except_Exception training_failed) (registered w))
      as (th & Hth).
    { intros e h H. from_handler H. apply training_failed_extends. }
    fold training_try in Hth.
    destruct (training_try_same (registered w)) as (_ & _ & Hdb & _ & _).
    rewrite end_training_session_run in Hrest.
    2:{ rewrite Hdb. cbn. destruct Hc as (_ & -> & _). exact Hd. }
    cbn [snd trace with_store with_ticks with_trace] in Hrest.
    rewrite Hth, Htl, <- !app_assoc in Hrest.
    apply app_inv_head in Hrest. rewrite <- Hrest.
    rewrite elem_of_app. by left.
Qed.


Lemma sublist_Forall {A} (P : A → Prop) (l1 l2 : list A) :
  l1 `sublist_of` l2 → Forall P l2 → Forall P l1.
Proof.
  induction 1 as [|x l1 l2 _ IH|x l1 l2 _ IH]; intros H.
  - constructor.
  - inversion H; subst. constructor; auto.
  - inversion H; subst. auto.
Qed.

(** C3, as stated, fails where [database.py] could not be imported: the
    traffic system is available and the training run is entered, but no
    session is registered and no event written. *)
Lemma training_steps_need_database :
  TRAFFIC_SYSTEM_AVAILABLE
    (env (demo_world (no_database_env engine_ok) [])) = true ∧
  Engine RunTraining ∈
    new_calls (demo_world (no_database_env engine_ok) [])
      (start_training (demo_world (no_database_env engine_ok) [])).2 ∧
  ¬ performs_training_steps (demo_world (no_database_env engine_ok) []).
Proof.
  split; [reflexivity|]. split.
  { apply list_elem_of_In. vm_compute.
    repeat (first [left; reflexivity | right]). }
  intros (id & snapshot & message & entry & _ & Hsub).
  assert (Hall : Forall no_session_start
            (new_calls (demo_world (no_database_env engine_ok) [])
               (start_training (demo_world (no_database_env engine_ok) [])).2)).
  { vm_compute. repeat constructor. }
  pose proof (sublist_Forall _ _ _ Hsub Hall) as H.
  inversion H as [|? ? _ H']; subst. inversion H' as [|? ? Hbad _]; subst.
  exact Hbad.
Qed.

(** C3, amended. With the traffic system and the database available, and a
    traffic system that is constructed and initialises, [start_training]
    reads the clock for the session id, reads the configuration, registers
    the session, writes the INFO event, and after these calls the run entry
    point. *)
Theorem training_steps_in_order (w : World) :
  TRAFFIC_SYSTEM_AVAILABLE (env w) = true →
  DATABASE_AVAILABLE (env w) = true →
  constructed w →
  has_system_class (env w) → engine_starts (next_system w) →
  performs_training_steps w ∧
  ∃ rest,
    new_calls w (start_training w).2 = registration_calls w ++ rest ∧
    Engine (training_entry (env w)) ∈ rest.
Proof.
  intros Ht Hd Hc Hcls Hst.
  destruct (start_training_calls w Ht Hd Hc) as (rest & Hnew & _ & Hin).
  specialize (Hin Hcls Hst).
  split; [|eauto].
  exists (training_session_id (now_in w)), (snapshot_of w),
    ("开始训练会话: " +:+ training_session_id (now_in w)),
    (training_entry (env w)).
  split.
  { unfold training_entry. destruct (has_IntegratedTrafficSystem (env w)); auto. }
  rewrite Hnew. unfold registration_calls.
  apply list_elem_of_split in Hin as (r1 & r2 & ->).
  change [Now; ?a; ?b; ?c] with ([Now] ++ [a; b] ++ [c]).
  rewrite <- !app_assoc.
  apply sublist_app; [apply sublist_cons; reflexivity|].
  apply sublist_inserts_l.
  apply sublist_app; [reflexivity|].
  apply sublist_inserts_l, sublist_skip, sublist_nil_l.
Qed.


(** ** The configuration snapshot *)

Lemma config_dict_of_dom (c : Config) :
  dom (config_dict_of c) =
    ({[ "target_efficiency"; "target_mobility"; "max_episodes";
        "learning_rate"; "num_vehicles" ]} : gset string).
Proof.
  unfold config_dict_of.
  rewrite !dom_insert_L, dom_singleton_L. set_solver.
Qed.

(** C5. The snapshot handed to [start_training_session] is the flat mapping
    of the five hyperparameters, each copied as the configuration object
    holds it, whatever its value; it is the empty mapping when the
    configuration provider is unavailable.  It is the only registration of
    the run. *)
Theorem snapshot_is_five_hyperparameters (w : World) :
  TRAFFIC_SYSTEM_AVAILABLE (env w) = true →
  DATABASE_AVAILABLE (env w) = true →
  constructed w →
  (∀ id cfg,
     Db (StartTrainingSession id cfg) ∈ new_calls w (start_training w).2 ↔
     id = training_session_id (now_in w) ∧ cfg = snapshot_of w) ∧
  (CONFIG_AVAILABLE (env w) = false → snapshot_of w = ∅) ∧
  (CONFIG_AVAILABLE (env w) = true →
   dom (snapshot_of w) =
     ({[ "target_efficiency"; "target_mobility"; "max_episodes";
         "learning_rate"; "num_vehicles" ]} : gset string) ∧
   snapshot_of w !! "target_efficiency" =
     Some (PyFloat (target_efficiency (training (config w)))) ∧
   snapshot_of w !! "target_mobility" =
     Some (PyFloat (target_mobility (training (config w)))) ∧
   snapshot_of w !! "max_episodes" =
     Some (PyInt (max_episodes (training (config w)))) ∧
   snapshot_of w !! "learning_rate" =
     Some (PyFloat (learning_rate (agent (config w)))) ∧
   snapshot_of w !! "num_vehicles" =
     Some (PyInt (num_vehicles (environment (config w))))).
Proof.
  intros Ht Hd Hc.
  destruct (start_training_calls w Ht Hd Hc) as (rest & Hnew & Hall & _).
  split; [|split].
  - intros id cfg. rewrite Hnew, elem_of_app. split.
    + intros [Hin | Hin].
      * unfold registration_calls in Hin.
        destruct (CONFIG_AVAILABLE (env w)); cbn in Hin;
          rewrite !elem_of_cons, elem_of_nil in Hin;
          repeat (destruct Hin as [Hin|Hin]); try discriminate;
          try contradiction; by injection Hin.
      * rewrite Forall_forall in Hall. destruct (Hall _ Hin).
    + intros [-> ->]. left. unfold registration_calls.
      rewrite !elem_of_app, !elem_of_cons. auto 10.
  - unfold snapshot_of. by intros ->.
  - unfold snapshot_of. intros ->.
    split; [apply config_dict_of_dom|]. by repeat split.
Qed.

(** ** Session identifiers *)

(** C6. The id [start_training] assigns is [train_] followed by the clock
    reading as YYYYMMDD_HHMMSS, so that readings in different seconds give
    different ids. *)
Theorem session_id_second_resolution (w1 w2 : World) :
  TRAFFIC_SYSTEM_AVAILABLE (env w1) = true →
  TRAFFIC_SYSTEM_AVAILABLE (env w2) = true →
  valid_datetime (now_in w1) → valid_datetime (now_in w2) →
  current_session_id (start_training w1).2 =
    Some ("train_" +:+ pad4 (year (now_in w1)) +:+ pad2 (month (now_in w1))
          +:+ pad2 (day (now_in w1)) +:+ "_" +:+ pad2 (hour (now_in w1))
          +:+ pad2 (minute (now_in w1)) +:+ pad2 (second (now_in w1))) ∧
  (¬ same_second (now_in w1) (now_in w2) →
   current_session_id (start_training w1).2 ≠
   current_session_id (start_training w2).2).
Proof.
  intros Ht1 Ht2 Hv1 Hv2.
  rewrite !start_training_session_id by done.
  split; [by rewrite training_session_id_format|].
  intros Hne Heq. apply Hne.
  apply training_session_id_inj; [done | done | congruence].
Qed.

(** ** A failing training run *)

Lemma log_event_run (level source message : string) (w : World) :
  database w = true →
  log_event level source message w =
    (Return tt,
     with_store (log (now_in w) level source message None (store w))
       (with_ticks (S (ticks w))
          (with_trace (trace w ++ [Db (LogEvent level source message)]) w))).
Proof.
  intros Hdb. unfold log_event, database_method, bind, get.
  cbn. rewrite Hdb. reflexivity.
Qed.

(** The traffic system raises: the [try] block ends with that exception,
    having touched neither the store nor the clock. *)
Lemma launch_raises (e : exn) (w : World) :
  has_system_class (env w) → engine_raises (next_system w) e →
  ∃ w', launch_traffic_system w = (Raise e, w') ∧
        store w' = store w ∧ ticks w' = ticks w ∧
        ∃ t, trace w' = trace w ++ t.
Proof.
  intros Hcls He.
  destruct w as [en cm db an sid cfg st fs inp tk sys tr].
  unfold next_system in *. cbn in *.
  unfold launch_traffic_system.
  destruct He as [He | [[He1 He2] | (He1 & He2 & He3)]];
    (destruct (has_IntegratedTrafficSystem en) eqn:Hi;
     [|destruct Hcls as [Hcls|Hcls]; [congruence|]]);
    run; rewrite <- ?app_assoc; eexists; repeat split; eauto.
Qed.

Lemma end_session_events (t : datetime) (id : string) (r : pydict)
    (st : Store) (ev : Event) :
  ev ∈ events st → ev ∈ events (end_session t id r st).2.
Proof.
  intros Hin. unfold end_session.
  repeat case_match; cbn; rewrite ?elem_of_app; auto.
Qed.

Lemma start_session_closed (t : datetime) (id : string) (cfg : pydict)
    (st : Store) :
  closed (start_session t id cfg st).2 = closed st.
Proof. unfold start_session. by repeat case_match. Qed.

(** C8, as stated, fails for an exception that is not of class
    [Exception]: when the training run ends in a [KeyboardInterrupt], the
    handler of [start_training] does not catch it; no ERROR event is
    written, the [finally] block closes the session as completed, and the
    exception leaves [start_training]. *)
Lemma training_interrupt_is_not_logged :
  TRAFFIC_SYSTEM_AVAILABLE (demo_env engine_keyboard_interrupt) = true ∧
  DATABASE_AVAILABLE (demo_env engine_keyboard_interrupt) = true ∧
  engine_raises
    (next_system (demo_world (demo_env engine_keyboard_interrupt) []))
    KeyboardInterrupt ∧
  (start_training (demo_world (demo_env engine_keyboard_interrupt) [])).1 =
    Raise KeyboardInterrupt ∧
  new_calls (demo_world (demo_env engine_keyboard_interrupt) [])
    (start_training (demo_world (demo_env engine_keyboard_interrupt) [])).2 =
    registration_calls (demo_world (demo_env engine_keyboard_interrupt) []) ++
    [Engine NewIntegratedTrafficSystem; Engine Initialize;
     Print ("🎯 训练会话ID: " +:+ "train_20240101_000000") [];
     Engine RunTraining;
     Db (EndTrainingSession "train_20240101_000000" completed_result)] ∧
  ev_level <$>
    events (store (start_training
                     (demo_world (demo_env engine_keyboard_interrupt) [])).2) =
    ["INFO"].
Proof.
  split; [reflexivity|]. split; [reflexivity|].
  split; [right; right; repeat split|].
  split; [vm_compute; reflexivity|].
  split; vm_compute; reflexivity.
Qed.

(** C8, amended. When the traffic system raises an exception of class
    [Exception] during [start_training], the launcher prints the failure,
    writes an ERROR event with source [launcher] that carries the exception
    text, and only then closes the session; the call returns normally. *)
Theorem training_failure_is_logged (w : World) (e : exn) :
  TRAFFIC_SYSTEM_AVAILABLE (env w) = true →
  DATABASE_AVAILABLE (env w) = true →
  constructed w →
  has_system_class (env w) → engine_raises (next_system w) e →
  is_Exception e = true →
  (start_training w).1 = Return tt ∧
  (∃ before,
     new_calls w (start_training w).2 =
       before ++
       [Print ("❌ 训练启动失败: " +:+ exn_str e) [];
        Db (LogEvent "ERROR" "launcher" ("训练启动失败: " +:+ exn_str e));
        Db (EndTrainingSession (training_session_id (now_in w))
              completed_result)]) ∧
  (closed (store w) = false →
   ∃ t, {| ev_time := t; ev_level := "ERROR"; ev_source := "launcher";
           ev_message := "训练启动失败: " +:+ exn_str e;
           ev_session := None |} ∈ events (store (start_training w).2)).
Proof.
  intros Ht Hd Hc Hcls He Hex.
  rewrite start_training_registers by done.
  set (id := training_session_id (now_in w)).
  set (w0 := registered w).
  assert (Hdb : database w = true) by (destruct Hc as (_ & -> & _); exact Hd).
  destruct (launch_raises e w0 Hcls He) as (w1 & Hl & Hst & Htk & tl & Htl).
  pose proof (launch_traffic_system_same w0) as (He1 & _ & Hdb1 & _ & Hs1).
  rewrite Hl in He1, Hdb1, Hs1. cbn [snd] in He1, Hdb1, Hs1.
  change (env w1 = env w) in He1.
  change (current_session_id w1 = Some id) in Hs1.
  assert (Hdb1' : database w1 = true) by (rewrite Hdb1; exact Hdb).
  assert (Htry : training_try w0 =
    (Return tt,
     with_store (log (now_in w1) "ERROR" "launcher"
                   ("训练启动失败: " +:+ exn_str e) None (store w1))
       (with_ticks (S (ticks w1))
          (with_trace
             (trace w1 ++
              [Print ("❌ 训练启动失败: " +:+ exn_str e) [];
               Db (LogEvent "ERROR" "launcher"
                     ("训练启动失败: " +:+ exn_str e))]) w1)))).
  { unfold training_try, try_except. rewrite Hl.
    unfold except_Exception. rewrite Hex.
    unfold training_failed, bind, py_print, emit, modify, ask. cbn.
    rewrite He1, Hd.
    rewrite log_event_run by exact Hdb1'.
    cbn. unfold now_in. cbn. by rewrite <- app_assoc. }
  unfold training_run, try_finally. rewrite Htry.
  rewrite (end_session_record_run id);
    [| cbn; rewrite He1; exact Hd | cbn; rewrite Hs1; reflexivity].
  rewrite end_training_session_run by exact Hdb1'.
  cbn [fst snd]. split; [reflexivity|]. split.
  - exists (registration_calls w ++ tl).
    unfold new_calls. cbn [snd trace with_store with_ticks with_trace].
    rewrite Htl. change (trace w0) with (trace w ++ registration_calls w).
    rewrite <- !app_assoc. by rewrite drop_app_length.
  - intros Hopen. exists (now_in w1). cbn.
    apply end_session_events. unfold log at 1.
    assert (Hcl : closed (store w1) = false).
    { rewrite Hst. cbn.
      by rewrite (proj2 (log_sessions _ _ _ _ _ _)), start_session_closed. }
    rewrite Hcl. cbn. rewrite elem_of_app, elem_of_cons. right. by left.
Qed.


(** ** How the launcher closes sessions *)

Lemma init_launcher_closes (e : Env) (cfg : Config) (st : Store)
    (fs : gmap string ExportDoc) (keys : list stdin_item) :
  Forall closes_with (trace (init_launcher e cfg st fs keys)).
Proof.
  cbn. destruct (CONFIG_AVAILABLE e), (DATABASE_AVAILABLE e),
    (ANALYZER_AVAILABLE e); cbn; repeat constructor.
Qed.

(** C9. Whatever the operator types and whatever the collaborators do, every
    [end_training_session] call of the launcher carries
    [{"status": "completed"}] or [{"status": "stopped"}].  The [finally]
    block of [start_training] is the completed one: it is the last call of
    [start_training] also when the traffic system raised, even an exception
    that [except Exception] does not catch and that leaves
    [start_training]. *)
Theorem launcher_closes_completed_or_stopped
    (fuel : nat) (e : Env) (cfg : Config) (st : Store)
    (fs : gmap string ExportDoc) (keys : list stdin_item)
    (w : World) (x : exn) :
  TRAFFIC_SYSTEM_AVAILABLE (env w) = true →
  DATABASE_AVAILABLE (env w) = true →
  constructed w →
  has_system_class (env w) → engine_raises (next_system w) x →
  Forall closes_with (trace (main fuel e cfg st fs keys).2) ∧
  last (trace (start_training w).2) =
    Some (Db (EndTrainingSession (training_session_id (now_in w))
                completed_result)) ∧
  (is_Exception x = false → (start_training w).1 = Raise x).
Proof.
  intros Ht Hd Hc Hcls Hx. split; [|split].
  - unfold main.
    destruct (show_main_menu_closes fuel (init_launcher e cfg st fs keys))
      as (t & -> & Hall).
    apply Forall_app. split; [apply init_launcher_closes | exact Hall].
  - rewrite start_training_registers by done.
    set (id := training_session_id (now_in w)).
    rewrite (training_run_world id) by done.
    destruct (training_try_same (registered w)) as (_ & _ & Hdb & _ & _).
    rewrite end_training_session_run.
    + cbn. apply last_snoc.
    + rewrite Hdb. cbn. destruct Hc as (_ & -> & _). exact Hd.
  - intros Hex. rewrite start_training_registers by done.
    set (id := training_session_id (now_in w)).
    destruct (launch_raises x (registered w) Hcls Hx) as (w1 & Hl & _).
    assert (Htry : training_try (registered w) = (Raise x, w1)).
    { unfold training_try, try_except, except_Exception.
      by rewrite Hl, Hex. }
    pose proof (training_try_same (registered w)) as (He1 & _ & Hdb1 & _ & Hs1).
    rewrite Htry in He1, Hdb1, Hs1. cbn [snd] in He1, Hdb1, Hs1.
    unfold training_run, try_finally. rewrite Htry.
    rewrite (end_session_record_run id);
      [| rewrite He1; exact Hd | rewrite Hs1; reflexivity].
    rewrite end_training_session_run; [reflexivity|].
    rewrite Hdb1. cbn. destruct Hc as (_ & -> & _). exact Hd.
Qed.

(** ** Deployment *)

(** However it ends, a deployment run assigns no session id, reads no
    clock, registers no session and writes no event. *)
Lemma no_registration_refl (w : World) :
  keeps_session_id w w ∧ extends_by no_registration w w.
Proof. split; [reflexivity | apply extends_by_refl]. Qed.

Lemma no_registration_trans (a b c : World) :
  keeps_session_id a b ∧ extends_by no_registration a b →
  keeps_session_id b c ∧ extends_by no_registration b c →
  keeps_session_id a c ∧ extends_by no_registration a c.
Proof.
  intros [K1 E1] [K2 E2]. split.
  - by eapply keeps_session_id_trans.
  - by eapply extends_by_trans.
Qed.

Ltac deploy_leaf :=
  let w := fresh "w" in
  unfold respects, keeps_session_id, extends_by; intros w; cbn;
  split; [reflexivity|];
  first [ exists []; split; [by rewrite app_nil_r | constructor]
        | eexists [_]; split;
          [reflexivity | constructor; [cbn; auto | constructor]] ].

Lemma start_deployment_never_registers :
  respects (λ w w', keeps_session_id w w' ∧ extends_by no_registration w w')
    start_deployment.
Proof.
  repeat respects_step no_registration_refl no_registration_trans deploy_leaf.
Qed.

Ltac split_deploy :=
  match goal with
  | |- context [match on_construct ?b with _ => _ end] =>
      destruct (on_construct b) as [[]| |] eqn:?
  | |- context [match on_initialize ?b with _ => _ end] =>
      destruct (on_initialize b) as [[|]| |] eqn:?
  | |- context [match on_run ?b with _ => _ end] =>
      destruct (on_run b) as [[]| |] eqn:?
  | |- context [if is_Exception ?e then _ else _] =>
      destruct (is_Exception e) eqn:?
  | |- context [if has_IntegratedTrafficSystem ?e then _ else _] =>
      destruct (has_IntegratedTrafficSystem e) eqn:?
  | |- context [if TRAFFIC_SYSTEM_AVAILABLE ?e then _ else _] =>
      destruct (TRAFFIC_SYSTEM_AVAILABLE e) eqn:?
  end.

(** C10. A deployment run leaves the telemetry alone: the launcher's
    current session id, the store and the exported files are as before, and
    the launcher neither reads the clock for an id nor calls the database.
    (A SIGINT is served by the handler, which is not part of
    [start_deployment].) *)
Theorem deployment_leaves_telemetry_alone (w : World) :
  uninterrupted w →
  current_session_id (start_deployment w).2 = current_session_id w ∧
  store (start_deployment w).2 = store w ∧
  files (start_deployment w).2 = files w ∧
  Forall no_telemetry (new_calls w (start_deployment w).2).
Proof.
  intros (Hin & Hcon & Hini & Hrun).
  destruct w as [en cm db an sid cfg st fs inp tk sys tr].
  unfold next_system, new_calls in *. cbn in *.
  unfold start_deployment.
  destruct (TRAFFIC_SYSTEM_AVAILABLE en) eqn:Ht;
    (destruct inp as [|[line|] inp]; [| |done]);
    run; repeat (split_deploy; try done; run);
    rewrite <- ?app_assoc, drop_app_length;
    repeat split; repeat constructor.
Qed.


(** ** The menu loop *)

(** C4, as stated, fails for [SystemExit]: it is an exception other than a
    keyboard interrupt, and when a menu operation ends with it (here the
    training run calls [sys.exit(1)]) neither handler of the loop matches:
    no diagnostic is printed and the menu loop is left with that exception,
    the operator's next line unread. *)
Lemma menu_left_by_system_exit :
  engine_raises
    (next_system
       (demo_world (demo_env engine_system_exit) [Line "1"; Line "0"]))
    (SystemExit 1) ∧
  SystemExit 1 ≠ KeyboardInterrupt ∧
  (menu_try 2
     (menu_banner
        (demo_world (demo_env engine_system_exit)
           [Line "1"; Line "0"])).2).1 = Raise (SystemExit 1) ∧
  (show_main_menu 2
     (demo_world (demo_env engine_system_exit) [Line "1"; Line "0"])).1 =
    Raise (SystemExit 1) ∧
  stdin (show_main_menu 2
           (demo_world (demo_env engine_system_exit)
              [Line "1"; Line "0"])).2 = [Line "0"] ∧
  Forall (λ c, ∀ e, c ≠ Print ("❌ 操作错误: " +:+ exn_str e) [])
    (trace (show_main_menu 2
              (demo_world (demo_env engine_system_exit)
                 [Line "1"; Line "0"])).2).
Proof.
  split; [right; right; repeat split|].
  split; [discriminate|].
  split; [vm_compute; reflexivity|].
  split; [vm_compute; reflexivity|].
  split; [vm_compute; reflexivity|].
  vm_compute. repeat constructor; intros e H; discriminate H.
Qed.

(** C4, amended. An exception of class [Exception] raised inside the [try]
    of the menu loop (by a menu operation, or by [input()]), that is any
    exception other than [KeyboardInterrupt] and [SystemExit], ends the turn
    with the diagnostic printed; the loop goes on with its next turn. *)
Theorem menu_survives_exception (n : nat) (w w1 : World) (e : exn) :
  menu_try (S n) (menu_banner w).2 = (Raise e, w1) →
  is_Exception e = true →
  menu_iteration (S n) w =
    (Return Continue,
     with_trace (trace w1 ++ [Print ("❌ 操作错误: " +:+ exn_str e) []]) w1) ∧
  show_main_menu (S n) w =
    while_true n (menu_iteration (S n))
      (with_trace (trace w1 ++ [Print ("❌ 操作错误: " +:+ exn_str e) []]) w1).
Proof.
  intros Htry Hex.
  assert (Hit : menu_iteration (S n) w =
    (Return Continue,
     with_trace (trace w1 ++ [Print ("❌ 操作错误: " +:+ exn_str e) []]) w1)).
  { unfold menu_iteration. unfold bind at 1.
    assert (Hb : (menu_banner w).1 = Return tt) by reflexivity.
    destruct (menu_banner w) as [r wb]. cbn in Hb, Htry. subst r.
    unfold try_except. rewrite Htry.
    unfold menu_handlers, except_Exception.
    destruct e; try discriminate; rewrite ?Hex; reflexivity. }
  split; [exact Hit|].
  unfold show_main_menu. cbn [while_true]. unfold bind at 1.
  by rewrite Hit.
Qed.

(** ** Export *)

Lemma for_each_emit {A} (f : A → M unit) (c : A → Call) (l : list A)
    (w : World) :
  (∀ x, f x = emit (c x)) →
  for_each l f w = (Return tt, with_trace (trace w ++ map c l) w).
Proof.
  intros Hf. revert w. induction l as [|x l IH]; intros w; cbn.
  - rewrite app_nil_r. by destruct w.
  - unfold bind. rewrite Hf. cbn. rewrite IH. cbn.
    by rewrite <- app_assoc.
Qed.

(** Running one primitive in front of a continuation. *)
Lemma bind_emit {B} (c : Call) (k : unit → M B) (w : World) :
  bind (emit c) k w = k tt (with_trace (trace w ++ [c]) w).
Proof. reflexivity. Qed.

Lemma bind_py_input_line {B} (prompt s : string) (rest : list stdin_item)
    (k : string → M B) (w : World) :
  stdin w = Line s :: rest →
  bind (py_input prompt) k w =
    k s (with_stdin rest (with_trace (trace w ++ [Input prompt []]) w)).
Proof.
  intros H. unfold py_input, py_inputf, bind, emit, modify, get. cbn.
  by rewrite H.
Qed.

Lemma bind_strip {B} (s : string) (k : string → M B) (w : World) :
  bind (strip s) k w = k (py_strip (env w) s) w.
Proof. reflexivity. Qed.

Lemma bind_int_of {B} (s : string) (z : Z) (k : Z → M B) (w : World) :
  py_int (env w) s = Some z → bind (int_of s) k w = k z w.
Proof. intros H. unfold int_of, bind, ask. cbn. by rewrite H. Qed.

Lemma bind_get_training_sessions {B} (limit : nat)
    (k : list (string * Session) → M B) (w : World) :
  database w = true →
  bind (get_training_sessions limit) k w =
    k (get_sessions limit (store w))
      (with_trace (trace w ++ [Db (GetTrainingSessions limit)]) w).
Proof.
  intros H. unfold get_training_sessions, database_method, bind, get, emit,
    modify. cbn. by rewrite H.
Qed.

Lemma bind_index {A B} (l : list A) (idx : Z) (x : A) (k : A → M B)
    (w : World) :
  l !! Z.to_nat idx = Some x → bind (index l idx) k w = k x w.
Proof. intros H. unfold index, bind. by rewrite H. Qed.

Lemma bind_export_data {B} (id path : string) (k : bool → M B) (w : World) :
  database w = true →
  bind (export_data id path) k w =
    k (bool_decide
         ((export (writable (env w)) id path (store w) (files w)).1 = None))
      (with_files (export (writable (env w)) id path (store w) (files w)).2
         (with_trace (trace w ++ [Db (ExportData id path)]) w)).
Proof.
  intros H. unfold export_data, database_method, bind, get, emit, modify.
  cbn. by rewrite H.
Qed.

Lemma bind_for_each_emit {A B} (f : A → M unit) (c : A → Call) (l : list A)
    (k : unit → M B) (w : World) :
  (∀ x, f x = emit (c x)) →
  bind (for_each l f) k w = k tt (with_trace (trace w ++ map c l) w).
Proof. intros Hf. unfold bind. by rewrite (for_each_emit f c l w Hf). Qed.

(** Bring the world back to a record after a step. *)
Tactic Notation "flat" :=
  cbv beta iota delta
    [with_trace with_store with_ticks with_systems with_stdin with_files
     with_config with_current_session_id
     env config_manager database analyzer current_session_id config store
     files stdin ticks systems trace].
Tactic Notation "flat" "in" hyp(H) :=
  cbv beta iota delta
    [with_trace with_store with_ticks with_systems with_stdin with_files
     with_config with_current_session_id
     env config_manager database analyzer current_session_id config store
     files stdin ticks systems trace] in H.


Arguments export_menu : simpl never.
Arguments show_statistics : simpl never.
Arguments cleanup_menu : simpl never.

(** The export branch when the export fails: the turn ends normally, the
    [export_data] call is the last call, and nothing was written. *)
Lemma export_menu_failed (w : World) (answer : string)
    (rest : list stdin_item) (n : Z) (sid : string) (s : Session) :
  database w = true →
  stdin w = Line answer :: rest →
  py_int (env w) answer = Some n →
  (0 < n)%Z →
  get_sessions 10 (store w) !! Z.to_nat (n - 1) = Some (sid, s) →
  (export (writable (env w)) sid ("export_" +:+ sid +:+ ".json")
     (store w) (files w)).1 ≠ None →
  ∃ t,
    export_menu w =
      (Return tt,
       with_stdin rest
         (with_trace
            (trace w ++ t ++
             [Db (ExportData sid ("export_" +:+ sid +:+ ".json"))]) w)).
Proof.
  intros Hdb Hin Hint Hpos Hlook Hfail.
  assert (Hex : (export (writable (env w)) sid
                   ("export_" +:+ sid +:+ ".json") (store w) (files w)).2
                = files w).
  { unfold export in *. repeat case_match; cbn in *; congruence. }
  destruct w as [en cm db an cur cfg sto fls inp tk sys tr].
  cbn in Hdb, Hin, Hint, Hlook, Hfail, Hex. subst db inp.
  assert (Hlen : (0 ≤ n - 1 < Z.of_nat (length (get_sessions 10 sto)))%Z).
  { apply lookup_lt_Some in Hlook. lia. }
  exists ([Db (GetTrainingSessions 10); Print (nl +:+ "可导出的会话:") []] ++
          map (λ '(i, (id0, _)),
                 Print "{i+1}. {session['session_id']}"
                   [PyInt (Z.of_nat i + 1); PyStr id0])
            (imap (λ i s0, (i, s0)) (get_sessions 10 sto)) ++
          [Input "选择会话编号: " []]).
  unfold export_menu, py_print, py_printf.
  rewrite bind_get_training_sessions by reflexivity. flat.
  destruct (get_sessions 10 sto) as [|row rows] eqn:Hsess;
    [cbn in Hlen; lia|].
  rewrite bind_emit. flat.
  rewrite (bind_for_each_emit _
    (λ '(i, (id0, _)),
       Print "{i+1}. {session['session_id']}"
         [PyInt (Z.of_nat i + 1); PyStr id0])).
  2:{ by intros [i [id0 s0]]. }
  flat. unfold try_except.
  rewrite (bind_py_input_line _ answer rest) by reflexivity. flat.
  rewrite (bind_int_of _ n) by exact Hint.
  rewrite bool_decide_true by exact Hlen.
  rewrite (bind_index _ _ (sid, s)) by exact Hlook.
  rewrite bind_export_data by reflexivity. flat.
  rewrite bool_decide_false by exact Hfail.
  rewrite Hex. unfold ret. rewrite <- !app_assoc. reflexivity.
Qed.

Lemma bind_py_print {B} (s : string) (k : unit → M B) (w : World) :
  bind (py_print s) k w = k tt (with_trace (trace w ++ [Print s []]) w).
Proof. reflexivity. Qed.

(** The turn, spelled out (the kernel is not to find this by evaluation). *)
Lemma database_menu_iteration_eq :
  database_menu_iteration =
  ltac:(let t := eval unfold database_menu_iteration in database_menu_iteration
        in exact t).
Proof. reflexivity. Qed.

(** C7. An export of an unknown session, or to a destination that cannot be
    written, fails without raising and writes nothing: the outcome is a
    failure value ([NotFoundError] for an unknown id in an open store), and
    the files are as before.  In the launcher's export menu such a failure
    ends the turn normally, and the [export_data] call is its last call: no
    confirmation is printed. *)
Theorem failed_export_is_reported
    (wr : string → bool) (id dest : string) (st : Store)
    (fs : gmap string ExportDoc)
    (w : World) (line answer : string) (rest : list stdin_item)
    (n : Z) (sid : string) (s : Session) :
  get_session id st = None ∨ wr dest = false →
  database w = true →
  stdin w = Line line :: Line answer :: rest →
  py_strip (env w) line = "3" →
  py_int (env w) answer = Some n →
  (0 < n)%Z →
  get_sessions 10 (store w) !! Z.to_nat (n - 1) = Some (sid, s) →
  (export (writable (env w)) sid ("export_" +:+ sid +:+ ".json")
     (store w) (files w)).1 ≠ None →
  (export wr id dest st fs).1 ≠ None ∧
  (export wr id dest st fs).2 = fs ∧
  (get_session id st = None → closed st = false →
   export wr id dest st fs = (Some NotFoundError, fs)) ∧
  (database_menu_iteration w).1 = Return Continue ∧
  files (database_menu_iteration w).2 = files w ∧
  store (database_menu_iteration w).2 = store w ∧
  last (new_calls w (database_menu_iteration w).2) =
    Some (Db (ExportData sid ("export_" +:+ sid +:+ ".json"))).
Proof.
  intros Hbad Hdb Hin Hstrip Hint Hpos Hlook Hfail.
  split; [|split; [|split]].
  - unfold export. destruct (closed st); [done|].
    destruct Hbad as [-> | Hw]; [done|].
    destruct (get_session id st); [by rewrite Hw | done].
  - unfold export. destruct (closed st); [done|].
    destruct Hbad as [-> | Hw]; [done|].
    destruct (get_session id st); [by rewrite Hw | done].
  - intros Hs Hc. unfold export. by rewrite Hc, Hs.
  - destruct w as [en cm db an cur cfg sto fls inp tk sys tr].
    cbn in Hdb, Hin, Hstrip, Hint, Hlook, Hfail. subst db inp.
    destruct (database_menu_iteration _) as [o w'] eqn:E.
    rewrite database_menu_iteration_eq in E.
    do 6 (rewrite bind_py_print in E; flat in E).
    rewrite (bind_py_input_line _ line (Line answer :: rest)) in E
      by reflexivity.
    flat in E. rewrite bind_strip in E. flat in E. rewrite Hstrip in E.
    rewrite (decide_False (P := "3" = "1")) in E by discriminate.
    rewrite (decide_False (P := "3" = "2")) in E by discriminate.
    rewrite (decide_True (P := "3" = "3")) in E by reflexivity.
    unfold bind in E.
    match type of E with
    | context [export_menu ?w0] =>
        destruct (export_menu_failed w0 answer rest n sid s)
          as [t Ht]; try done
    end.
    rewrite Ht in E. flat in E. unfold ret in E.
    injection E as <- <-.
    unfold new_calls. cbv beta iota delta [fst snd files store trace].
    repeat split.
    rewrite <- !app_assoc, drop_app_length, !app_assoc.
    apply last_snoc.
Qed.

(** ** The theorems at work on the concrete installation *)

Example training_session_id_example :
  training_session_id (Datetime 2024 1 1 0 0 7 123456) =
    "train_20240101_000007".
Proof. reflexivity. Qed.

Lemma end_session_twice_keeps_first_close_witness :
  (status_of_result completed_result ≠ None ∧
   constructed (demo_world (demo_env engine_ok) [])) ∧
  sessions (store (shutdown
              (start_training (demo_world (demo_env engine_ok) [])).2).2) =
  sessions (store (start_training (demo_world (demo_env engine_ok) [])).2).
Proof.
  assert (H1 : status_of_result completed_result ≠ None) by discriminate.
  assert (H2 : constructed (demo_world (demo_env engine_ok) []))
    by (repeat split).
  split; [split; [exact H1 | exact H2]|].
  exact (proj2 (proj2 (proj2 (proj2
    (end_session_twice_keeps_first_close empty_store "train_20240101_000000"
       completed_result stopped_result (Datetime 2024 1 1 0 0 3 0)
       (Datetime 2024 1 1 0 0 4 0) (demo_world (demo_env engine_ok) [])
       H1 eq_refl eq_refl H2))))).
Defined.

Lemma sigint_stops_current_session_witness :
  current_session_id (registered (demo_world (demo_env engine_ok) [])) =
    Some "train_20240101_000000" ∧
  closed (store (@_signal_handler unit
            (registered (demo_world (demo_env engine_ok) []))).2) = true.
Proof.
  split; [reflexivity|].
  refine (proj1 (proj2 (proj2
    (sigint_stops_current_session
       (registered (demo_world (demo_env engine_ok) []))
       "train_20240101_000000" eq_refl eq_refl _)))).
  discriminate.
Defined.

Lemma training_steps_in_order_witness :
  (constructed (demo_world (demo_env engine_ok) []) ∧
   has_system_class (demo_env engine_ok) ∧
   engine_starts (next_system (demo_world (demo_env engine_ok) []))) ∧
  performs_training_steps (demo_world (demo_env engine_ok) []).
Proof.
  assert (H1 : constructed (demo_world (demo_env engine_ok) []))
    by (repeat split).
  assert (H2 : has_system_class (demo_env engine_ok)) by (left; reflexivity).
  assert (H3 : engine_starts (next_system (demo_world (demo_env engine_ok) [])))
    by (split; reflexivity).
  split; [auto|].
  exact (proj1 (training_steps_in_order (demo_world (demo_env engine_ok) [])
                  eq_refl eq_refl H1 H2 H3)).
Defined.

Lemma menu_survives_exception_witness :
  menu_try 4
    (menu_banner
       (demo_world (no_database_env engine_ok) [Line "3"; Line "1"])).2 =
    (Raise (attribute_of_None "get_training_sessions"),
     (menu_try 4
        (menu_banner
           (demo_world (no_database_env engine_ok) [Line "3"; Line "1"])).2).2) ∧
  (menu_iteration 4
     (demo_world (no_database_env engine_ok) [Line "3"; Line "1"])).1 =
    Return Continue.
Proof.
  assert (H : menu_try 4
    (menu_banner
       (demo_world (no_database_env engine_ok) [Line "3"; Line "1"])).2 =
    (Raise (attribute_of_None "get_training_sessions"),
     (menu_try 4
        (menu_banner
           (demo_world (no_database_env engine_ok) [Line "3"; Line "1"])).2).2))
    by (vm_compute; reflexivity).
  split; [exact H|].
  rewrite (proj1 (menu_survives_exception 3 _ _ _ H eq_refl)).
  reflexivity.
Defined.

Lemma snapshot_is_five_hyperparameters_witness :
  constructed (demo_world (demo_env engine_ok) []) ∧
  snapshot_of (demo_world (demo_env engine_ok) []) !! "max_episodes" =
    Some (PyInt 100).
Proof.
  assert (H1 : constructed (demo_world (demo_env engine_ok) []))
    by (repeat split).
  split; [exact H1|].
  destruct (snapshot_is_five_hyperparameters
              (demo_world (demo_env engine_ok) []) eq_refl eq_refl H1)
    as (_ & _ & H).
  destruct (H eq_refl) as (_ & _ & _ & Hmax & _). exact Hmax.
Defined.

Lemma session_id_second_resolution_witness :
  (valid_datetime (now_in (demo_world (demo_env engine_ok) [])) ∧
   valid_datetime
     (now_in (start_training (demo_world (demo_env engine_ok) [])).2)) ∧
  current_session_id
    (start_training (demo_world (demo_env engine_ok) [])).2 ≠
  current_session_id
    (start_training
       (start_training (demo_world (demo_env engine_ok) [])).2).2.
Proof.
  assert (H1 : valid_datetime (now_in (demo_world (demo_env engine_ok) [])))
    by (vm_compute; repeat split; discriminate).
  assert (H2 : valid_datetime
            (now_in (start_training (demo_world (demo_env engine_ok) [])).2))
    by (vm_compute; repeat split; discriminate).
  split; [split; [exact H1 | exact H2]|].
  refine (proj2 (session_id_second_resolution
                   (demo_world (demo_env engine_ok) [])
                   (start_training (demo_world (demo_env engine_ok) [])).2
                   eq_refl eq_refl H1 H2) _).
  intros (_ & _ & _ & _ & _ & Hs). vm_compute in Hs. discriminate.
Defined.

Lemma failed_export_is_reported_witness :
  get_sessions 10
    (store (start_training
              (demo_world (read_only_env engine_ok)
                 [Line "3"; Line "1"])).2) !! Z.to_nat (1 - 1) =
    Some ("train_20240101_000000",
          {| start_time := Datetime 2024 1 1 0 0 1 0;
             end_time := Some (Datetime 2024 1 1 0 0 3 0);
             session_status := completed;
             config_snapshot := config_dict_of demo_config;
             total_episodes := 0; best_score := 0%float;
             result_payload := Some completed_result |}) ∧
  export (λ _, true) "unknown_id" "/tmp/out.json" empty_store ∅ =
    (Some NotFoundError, ∅) ∧
  (database_menu_iteration
     (start_training
        (demo_world (read_only_env engine_ok) [Line "3"; Line "1"])).2).1 =
    Return Continue.
Proof.
  assert (H : get_sessions 10
    (store (start_training
              (demo_world (read_only_env engine_ok)
                 [Line "3"; Line "1"])).2) !! Z.to_nat (1 - 1) =
    Some ("train_20240101_000000",
          {| start_time := Datetime 2024 1 1 0 0 1 0;
             end_time := Some (Datetime 2024 1 1 0 0 3 0);
             session_status := completed;
             config_snapshot := config_dict_of demo_config;
             total_episodes := 0; best_score := 0%float;
             result_payload := Some completed_result |}))
    by (vm_compute; reflexivity).
  assert (Hfail : (export (writable (read_only_env engine_ok))
                     "train_20240101_000000"
                     ("export_" +:+ "train_20240101_000000" +:+ ".json")
                     (store (start_training
                        (demo_world (read_only_env engine_ok)
                           [Line "3"; Line "1"])).2)
                     (files (start_training
                        (demo_world (read_only_env engine_ok)
                           [Line "3"; Line "1"])).2)).1 ≠ None)
    by (vm_compute; discriminate).
  pose proof (failed_export_is_reported (λ _, true) "unknown_id"
                "/tmp/out.json" empty_store ∅
                (start_training
                   (demo_world (read_only_env engine_ok)
                      [Line "3"; Line "1"])).2
                "3" "1" [] 1 "train_20240101_000000" _
                (or_introl eq_refl) eq_refl eq_refl eq_refl eq_refl eq_refl
                H Hfail) as (_ & _ & Hnf & Hret & _).
  split; [exact H|]. split; [exact (Hnf eq_refl eq_refl) | exact Hret].
Defined.

Lemma training_failure_is_logged_witness :
  engine_raises
    (next_system (demo_world (demo_env engine_failing) []))
    (OtherException "CARLA connection lost") ∧
  (start_training (demo_world (demo_env engine_failing) [])).1 = Return tt.
Proof.
  assert (H1 : constructed (demo_world (demo_env engine_failing) []))
    by (repeat split).
  assert (H2 : has_system_class (demo_env engine_failing))
    by (left; reflexivity).
  assert (H3 : engine_raises
                 (next_system (demo_world (demo_env engine_failing) []))
                 (OtherException "CARLA connection lost"))
    by (right; right; repeat split; reflexivity).
  split; [exact H3|].
  exact (proj1 (training_failure_is_logged
                  (demo_world (demo_env engine_failing) [])
                  (OtherException "CARLA connection lost")
                  eq_refl eq_refl H1 H2 H3 eq_refl)).
Defined.

Lemma launcher_closes_completed_or_stopped_witness :
  engine_raises
    (next_system (demo_world (demo_env engine_failing) []))
    (OtherException "CARLA connection lost") ∧
  Forall closes_with
    (trace (main 5 (demo_env engine_failing) demo_config empty_store ∅
              [Line "1"; Line "0"]).2).
Proof.
  assert (H1 : constructed (demo_world (demo_env engine_failing) []))
    by (repeat split).
  assert (H2 : has_system_class (demo_env engine_failing))
    by (left; reflexivity).
  assert (H3 : engine_raises
                 (next_system (demo_world (demo_env engine_failing) []))
                 (OtherException "CARLA connection lost"))
    by (right; right; repeat split; reflexivity).
  split; [exact H3|].
  exact (proj1 (launcher_closes_completed_or_stopped 5
                  (demo_env engine_failing) demo_config empty_store ∅
                  [Line "1"; Line "0"]
                  (demo_world (demo_env engine_failing) [])
                  (OtherException "CARLA connection lost")
                  eq_refl eq_refl H1 H2 H3)).
Defined.

Lemma deployment_leaves_telemetry_alone_witness :
  uninterrupted (demo_world (demo_env engine_ok) [Line ""]) ∧
  store (start_deployment (demo_world (demo_env engine_ok) [Line ""])).2 =
    empty_store.
Proof.
  assert (H : uninterrupted (demo_world (demo_env engine_ok) [Line ""]))
    by (repeat split; discriminate).
  split; [exact H|].
  exact (proj1 (proj2 (deployment_leaves_telemetry_alone
                         (demo_world (demo_env engine_ok) [Line ""]) H))).
Defined.

(** * Further properties of the launcher *)

(** ** What the menus leave alone *)

Lemma new_calls_extends (P : Call → Prop) (w w' : World) :
  extends_by P w w' → Forall P (new_calls w w').
Proof.
  intros (t & E & F). unfold new_calls. by rewrite E, drop_app_length.
Qed.

(** One step of a proof of [respects R m] that opens one definition at a
    time, so that a lemma about a method applies where the method is
    called. *)
Ltac head_of t :=
  lazymatch t with
  | ?f _ => head_of f
  | _ => t
  end.

Ltac is_structural m :=
  lazymatch m with
  | bind _ _ => idtac
  | ret _ => idtac
  | raise _ => idtac
  | ask _ => idtac
  | get _ => idtac
  | try_except _ _ => idtac
  | try_finally _ _ => idtac
  | while_true _ _ => idtac
  | for_each _ _ => idtac
  | emit _ => idtac
  | modify _ => idtac
  | tick => idtac
  | (if _ then _ else _) => idtac
  | (match _ with _ => _ end) => idtac
  | (fun _ => _) => idtac
  end.

Ltac careful_step R_refl R_trans leaf :=
  lazymatch goal with
  | |- respects _ ?m =>
      first [ is_structural m; respects_step R_refl R_trans leaf
            | solve [auto]
            | let h := head_of m in unfold h ]
  end.

(** *** The handles *)

Lemma same_handles_refl (w : World) : same_handles w w.
Proof. by repeat split. Qed.

Lemma same_handles_trans (a b c : World) :
  same_handles a b → same_handles b c → same_handles a c.
Proof. intros (?&?&?&?) (?&?&?&?). repeat split; congruence. Qed.

Ltac handles_leaf :=
  let w := fresh "w" in
  unfold respects, same_handles; intros w; cbn; by repeat split.

Ltac handles_tac :=
  repeat careful_step same_handles_refl same_handles_trans handles_leaf.

Lemma signal_handler_handles (A : Type) :
  respects same_handles (@_signal_handler A).
Proof. handles_tac. Qed.

Lemma start_training_handles : respects same_handles start_training.
Proof. pose proof signal_handler_handles. handles_tac. Qed.

Lemma show_main_menu_handles (fuel : nat) :
  respects same_handles (show_main_menu fuel).
Proof.
  pose proof signal_handler_handles. pose proof start_training_handles.
  handles_tac.
Qed.

(** X1. The handles [__init__] creates are never assigned again: whatever
    the operator types and however the menu ends, the launcher that [main()]
    ran is still as constructed, in the same environment. *)
Theorem handles_never_change
    (fuel : nat) (e : Env) (cfg : Config) (st : Store)
    (fs : gmap string ExportDoc) (keys : list stdin_item) :
  constructed (main fuel e cfg st fs keys).2 ∧
  env (main fuel e cfg st fs keys).2 = e.
Proof.
  unfold main.
  destruct (show_main_menu_handles fuel (init_launcher e cfg st fs keys))
    as (He & Hc & Hd & Ha).
  unfold constructed. rewrite He, Hc, Hd, Ha. by repeat split.
Qed.

(** *** The session id *)

Lemma dispatch_keeps_session_id (fuel : nat) (choice : string) :
  choice ≠ "1" → respects keeps_session_id (dispatch fuel choice).
Proof.
  intros Hne. pose proof signal_handler_keeps. unfold dispatch.
  destruct (decide (choice = "1")); [done|]. keeps_tac.
Qed.

(** X2. Only [start_training] assigns [current_session_id]: every other
    choice of the main menu leaves the attribute as it was.  In particular
    neither the [finally] block that closed a session nor [shutdown] clears
    it. *)
Theorem only_start_training_assigns_session_id
    (fuel : nat) (choice : string) (w : World) :
  choice ≠ "1" →
  current_session_id (dispatch fuel choice w).2 = current_session_id w.
Proof. intros Hne. exact (dispatch_keeps_session_id fuel choice Hne w). Qed.

(** *** The configuration *)

Lemma keeps_config_refl (w : World) : keeps_config w w.
Proof. reflexivity. Qed.

Lemma keeps_config_trans (a b c : World) :
  keeps_config a b → keeps_config b c → keeps_config a c.
Proof. unfold keeps_config. congruence. Qed.

Ltac config_leaf :=
  let w := fresh "w" in
  unfold respects, keeps_config; intros w; reflexivity.

Ltac config_tac :=
  repeat careful_step keeps_config_refl keeps_config_trans config_leaf.

Lemma signal_handler_keeps_config (A : Type) :
  respects keeps_config (@_signal_handler A).
Proof. config_tac. Qed.

Lemma start_training_keeps_config : respects keeps_config start_training.
Proof. pose proof signal_handler_keeps_config. config_tac. Qed.

(** X3. The configuration values change nowhere but in the configuration
    menu: training, deployment, analysis, the database menu, project setup
    and shutdown read them at most. *)
Theorem only_config_management_changes_config
    (fuel : nat) (choice : string) (w : World) :
  choice ≠ "4" →
  config (dispatch fuel choice w).2 = config w.
Proof.
  intros Hne. revert w. change (respects keeps_config (dispatch fuel choice)).
  pose proof signal_handler_keeps_config.
  pose proof start_training_keeps_config.
  unfold dispatch.
  destruct (decide (choice = "1")); [config_tac|].
  destruct (decide (choice = "2")); [config_tac|].
  destruct (decide (choice = "3")); [config_tac|].
  destruct (decide (choice = "4")); [done|].
  config_tac.
Qed.

(** *** A launcher without database *)

Lemma without_database_refl (w : World) : without_database w w.
Proof. split; [done|]. intros _. repeat split. apply extends_by_refl. Qed.

Lemma without_database_trans (a b c : World) :
  without_database a b → without_database b c → without_database a c.
Proof.
  intros [D1 H1] [D2 H2]. split; [congruence|]. intros Ha.
  destruct (H1 Ha) as (S1 & F1 & E1).
  destruct H2 as (S2 & F2 & E2); [congruence|].
  repeat split; [congruence | congruence | by eapply extends_by_trans].
Qed.

Ltac without_leaf :=
  let w := fresh "w" in
  unfold respects, without_database, extends_by; intros w; cbn;
  split; [reflexivity|]; intros _;
  split; [reflexivity|]; split; [reflexivity|];
  first [ exists []; split; [by rewrite app_nil_r | constructor]
        | eexists [_]; split;
          [reflexivity | constructor; [exact I | constructor]] ].

Ltac without_tac :=
  repeat careful_step without_database_refl without_database_trans
    without_leaf.

(** A method of the missing handle raises before anything is called. *)
Lemma database_method_without {A} (name : string) (c : db_call) (m : M A) :
  (∀ w, database (m w).2 = database w) →
  respects without_database (database_method name c m).
Proof.
  intros Hm w. unfold database_method, bind, get, emit, modify, raise. cbn.
  destruct (database w) eqn:Hd.
  - split; [by rewrite Hm | congruence].
  - apply without_database_refl.
Qed.

Lemma db_methods_without :
  (∀ id cfg, respects without_database (start_training_session id cfg)) ∧
  (∀ l s m, respects without_database (log_event l s m)) ∧
  (∀ id r, respects without_database (end_training_session id r)) ∧
  (∀ n, respects without_database (get_training_sessions n)) ∧
  respects without_database get_statistics ∧
  (∀ d, respects without_database (cleanup_old_data d)) ∧
  (∀ id p, respects without_database (export_data id p)) ∧
  respects without_database close.
Proof.
  repeat apply conj; intros; apply database_method_without; by intros ?.
Qed.

Lemma show_main_menu_without_database (fuel : nat) :
  respects without_database (show_main_menu fuel).
Proof.
  destruct db_methods_without as (?&?&?&?&?&?&?&?).
  without_tac.
Qed.

(** X4. When [database.py] cannot be imported the launcher has no database
    handle, and a whole run of [main()] calls no database method: the store
    and the exported files are as they were found. *)
Theorem no_database_no_database_call
    (fuel : nat) (e : Env) (cfg : Config) (st : Store)
    (fs : gmap string ExportDoc) (keys : list stdin_item) :
  DATABASE_AVAILABLE e = false →
  store (main fuel e cfg st fs keys).2 = st ∧
  files (main fuel e cfg st fs keys).2 = fs ∧
  Forall not_db (trace (main fuel e cfg st fs keys).2).
Proof.
  intros Hd. unfold main.
  destruct (show_main_menu_without_database fuel
              (init_launcher e cfg st fs keys)) as [_ H].
  destruct H as (Hs & Hf & t & Ht & HP); [exact Hd|].
  repeat split; [exact Hs | exact Hf |].
  rewrite Ht. apply Forall_app. split; [|exact HP].
  cbn. rewrite Hd, andb_false_r.
  destruct (CONFIG_AVAILABLE e); repeat constructor.
Qed.

(** *** The menus that leave the telemetry alone *)

Lemma leaves_telemetry_refl (w : World) : leaves_telemetry w w.
Proof. intros H. repeat split; [exact H | apply extends_by_refl]. Qed.

Lemma leaves_telemetry_trans (a b c : World) :
  leaves_telemetry a b → leaves_telemetry b c → leaves_telemetry a c.
Proof.
  intros H1 H2 Ha. destruct (H1 Ha) as (Hb & ? & ? & ? & ? & E1).
  destruct (H2 Hb) as (Hc & ? & ? & ? & ? & E2).
  repeat split; [exact Hc | congruence.. | by eapply extends_by_trans].
Qed.

Ltac telemetry_leaf :=
  let w := fresh "w" in
  let H := fresh "H" in
  unfold respects, leaves_telemetry, extends_by; intros w H; cbn;
  split; [exact H|]; do 4 (split; [reflexivity|]);
  first [ exists []; split; [by rewrite app_nil_r | constructor]
        | eexists [_]; split;
          [reflexivity | constructor; [exact I | constructor]] ].

Ltac telemetry_tac :=
  repeat careful_step leaves_telemetry_refl leaves_telemetry_trans
    telemetry_leaf.

Lemma extends_by_one (P : Call → Prop) (c : Call) (w w' : World) :
  trace w' = trace w ++ [c] → P c → extends_by P w w'.
Proof. intros E H. exists [c]. split; [exact E | by constructor]. Qed.

(** [input()] takes the next line; the handler runs on a SIGINT only. *)
Lemma py_inputf_leaves_telemetry (prompt : string) (args : list pyval) :
  respects leaves_telemetry (py_inputf prompt args).
Proof.
  intros w H. destruct w as [en cm db an sid cfg st fs inp tk sys tr].
  cbn in H. unfold py_inputf, bind, emit, modify, get, raise, ret. cbn.
  destruct inp as [|[s|] rest]; cbn.
  - repeat split; [exact H|]. by eapply extends_by_one.
  - repeat split; [|by eapply extends_by_one].
    intros Hin. apply H. apply elem_of_cons. by right.
  - exfalso. apply H. apply elem_of_cons. by left.
Qed.

Lemma query_methods_leave_telemetry :
  (∀ n, respects leaves_telemetry (get_training_sessions n)) ∧
  respects leaves_telemetry get_statistics.
Proof.
  split; [intros n|]; intros w H;
    unfold get_training_sessions, get_statistics, database_method, bind, get,
      emit, modify, raise; cbn;
    (destruct (database w); cbn;
     [repeat split; [exact H | by eapply extends_by_one]
     |by apply leaves_telemetry_refl]).
Qed.

(** X5. Performance analysis, web monitoring, the system information page,
    project setup and a mistyped choice leave the telemetry alone: as long
    as no SIGINT arrives at a prompt, the session id, the configuration, the
    store and the exported files are as before, no clock is read, no engine
    is started and the database is asked nothing but queries. *)
Theorem browsing_menus_leave_telemetry
    (fuel : nat) (choice : string) (w : World) :
  choice ∉ ["0"; "1"; "2"; "4"; "5"] →
  Sigint ∉ stdin w →
  current_session_id (dispatch fuel choice w).2 = current_session_id w ∧
  config (dispatch fuel choice w).2 = config w ∧
  store (dispatch fuel choice w).2 = store w ∧
  files (dispatch fuel choice w).2 = files w ∧
  Forall query_only (new_calls w (dispatch fuel choice w).2).
Proof.
  intros Hc Hs.
  assert (H : respects leaves_telemetry (dispatch fuel choice)).
  { pose proof py_inputf_leaves_telemetry.
    destruct query_methods_leave_telemetry.
    rewrite !not_elem_of_cons in Hc. destruct Hc as (?&?&?&?&?&_).
    unfold dispatch.
    repeat (match goal with
            | |- respects _ (if decide (choice = ?s) then _ else _) =>
                destruct (decide (choice = s))
            end;
            [first [ congruence | telemetry_tac ]|]).
    telemetry_tac. }
  destruct (H w Hs) as (_ & ? & ? & ? & ? & E).
  repeat split; try done. by apply new_calls_extends.
Qed.

(** ** The main menu loop *)

Arguments shutdown : simpl never.
Arguments dispatch : simpl never.

Lemma menu_banner_run (w : World) :
  ∃ t, menu_banner w = (Return tt, with_trace (trace w ++ t) w).
Proof.
  destruct w as [en cm db an sid cfg st fs inp tk sys tr].
  eexists. unfold menu_banner.
  do 12 (rewrite bind_py_print; flat).
  unfold py_print, emit, modify. flat.
  rewrite <- !app_assoc. reflexivity.
Qed.

(** A turn that gets a line hands the stripped line to [dispatch]. *)
Lemma menu_iteration_line (fuel : nat) (w : World) (line : string)
    (rest : list stdin_item) :
  stdin w = Line line :: rest →
  ∃ t, menu_iteration fuel w =
         try_except (dispatch fuel (py_strip (env w) line)) menu_handlers
           (with_stdin rest (with_trace (trace w ++ t) w)).
Proof.
  intros Hin. destruct (menu_banner_run w) as [t Ht].
  exists (t ++ [Input "请选择操作 (0-8): " []]).
  unfold menu_iteration, bind at 1. rewrite Ht.
  unfold try_except, menu_try.
  rewrite (bind_py_input_line _ line rest) by exact Hin.
  rewrite bind_strip.
  destruct w as [en cm db an sid cfg st fs inp tk sys tr].
  flat. by rewrite <- app_assoc.
Qed.

(** At end of input a turn reports the [EOFError] and asks for another. *)
Lemma menu_iteration_eof (fuel : nat) (w : World) :
  stdin w = [] →
  ∃ t, menu_iteration fuel w =
         (Return Continue, with_trace (trace w ++ t) w).
Proof.
  intros Hin. destruct (menu_banner_run w) as [t Ht].
  exists (t ++ [Input "请选择操作 (0-8): " [];
                Print ("❌ 操作错误: " +:+ "EOF when reading a line") []]).
  unfold menu_iteration, bind at 1. rewrite Ht.
  destruct w as [en cm db an sid cfg st fs inp tk sys tr].
  cbn in Hin. subst inp.
  unfold try_except, menu_try, py_input, py_inputf, bind, emit, modify, get,
    raise, menu_handlers, except_Exception, py_print, ret.
  flat. cbv [is_Exception exn_str]. rewrite bind_emit. flat.
  by rewrite <- !app_assoc.
Qed.

Lemma while_menu_eof (fuel n : nat) (w : World) :
  stdin w = [] → (while_true n (menu_iteration fuel) w).1 = OutOfFuel.
Proof.
  revert w. induction n as [|n IH]; intros w Hin; [reflexivity|].
  cbn [while_true]. unfold bind.
  destruct (menu_iteration_eof fuel w Hin) as [t ->].
  apply IH. exact Hin.
Qed.

(** X6. At end of input the main menu never returns: every turn [input()]
    raises [EOFError], the handler for [Exception] reports it, and the loop
    prompts again. *)
Theorem main_menu_spins_at_end_of_input (fuel : nat) (w : World) :
  stdin w = [] → (show_main_menu fuel w).1 = OutOfFuel.
Proof. apply while_menu_eof. Qed.

(** [shutdown] itself never fails: it asks the handle before it calls. *)
Lemma shutdown_returns (w : World) : (shutdown w).1 = Return tt.
Proof.
  destruct w as [en cm db an sid cfg st fs inp tk sys tr].
  unfold shutdown. unfold_m. flat.
  destruct db; [destruct (truthy sid)|]; reflexivity.
Qed.

Lemma shutdown_effect (w : World) :
  stdin (shutdown w).2 = stdin w ∧
  (database w = true → closed (store (shutdown w).2) = true) ∧
  last (trace (shutdown w).2) = Some (Print "✅ 系统已安全关闭" []).
Proof.
  destruct w as [en cm db an sid cfg st fs inp tk sys tr].
  unfold shutdown. unfold_m. flat.
  destruct db; [destruct (truthy sid)|]; flat;
    (split; [reflexivity|]; split; [try done|apply last_snoc]).
Qed.

Lemma dispatch_0 (fuel : nat) :
  dispatch fuel "0" = bind shutdown (λ _, ret Break).
Proof. reflexivity. Qed.

(** X7. Choosing [0] ends the menu: [shutdown] runs, the loop is left and
    [show_main_menu] returns, with the rest of the input unread; a launcher
    with a database has closed it, and the farewell is the last thing
    printed. *)
Theorem menu_exit_shuts_down
    (n : nat) (w : World) (line : string) (rest : list stdin_item) :
  stdin w = Line line :: rest →
  py_strip (env w) line = "0" →
  (show_main_menu (S n) w).1 = Return tt ∧
  stdin (show_main_menu (S n) w).2 = rest ∧
  (database w = true → closed (store (show_main_menu (S n) w).2) = true) ∧
  last (trace (show_main_menu (S n) w).2) =
    Some (Print "✅ 系统已安全关闭" []).
Proof.
  intros Hin Hstrip.
  destruct (menu_iteration_line (S n) w line rest Hin) as [t Ht].
  assert (E : show_main_menu (S n) w =
                (Return tt,
                 (shutdown (with_stdin rest
                              (with_trace (trace w ++ t) w))).2)).
  { unfold show_main_menu. cbn [while_true]. unfold bind at 1.
    rewrite Ht, Hstrip, dispatch_0. unfold try_except, bind at 1.
    pose proof (shutdown_returns
                  (with_stdin rest (with_trace (trace w ++ t) w))) as Hr.
    destruct (shutdown _) as [o w1]. cbn [fst] in Hr. by subst o. }
  rewrite E. cbn [fst snd].
  destruct (shutdown_effect (with_stdin rest (with_trace (trace w ++ t) w)))
    as (Hs & Hc & Hl).
  split; [reflexivity|]. split; [exact Hs|]. split; [|exact Hl].
  intros Hdb. apply Hc. exact Hdb.
Qed.

(** X8. [SystemExit] passes through the menu loop: neither handler of the
    loop matches it, so [show_main_menu] ends with it, in the world the
    operation left. *)
Theorem system_exit_leaves_menu
    (n : nat) (w w1 : World) (code : Z) :
  menu_try (S n) (menu_banner w).2 = (Raise (SystemExit code), w1) →
  show_main_menu (S n) w = (Raise (SystemExit code), w1).
Proof.
  intros Htry. destruct (menu_banner_run w) as [t Ht].
  unfold show_main_menu. cbn [while_true]. unfold bind at 1.
  unfold menu_iteration, bind at 1. rewrite Ht in *. cbn [snd] in Htry.
  unfold try_except. rewrite Htry. reflexivity.
Qed.

(** X9. A [KeyboardInterrupt] that reaches the menu loop ends it in an
    orderly way: a blank line is printed, [shutdown] runs in the world the
    operation left, and [show_main_menu] returns normally. *)
Theorem keyboard_interrupt_shuts_down (n : nat) (w w1 : World) :
  menu_try (S n) (menu_banner w).2 = (Raise KeyboardInterrupt, w1) →
  show_main_menu (S n) w =
    (Return tt,
     (shutdown (with_trace (trace w1 ++ [Print nl []]) w1)).2).
Proof.
  intros Htry. destruct (menu_banner_run w) as [t Ht].
  unfold show_main_menu. cbn [while_true]. unfold bind at 1.
  unfold menu_iteration, bind at 1. rewrite Ht in *. cbn [snd] in Htry.
  unfold try_except. rewrite Htry.
  cbv beta iota delta [menu_handlers].
  rewrite bind_py_print. unfold bind at 1.
  match goal with
  | |- context [shutdown ?w0] =>
      pose proof (shutdown_returns w0) as Hr;
      destruct (shutdown w0) as [o w2]
  end.
  cbn in Hr. subst o. reflexivity.
Qed.

(** A SIGINT at a prompt: the handler runs in place and ends in
    [sys.exit(0)]. *)
Lemma py_input_sigint (prompt : string) (rest : list stdin_item) (w : World) :
  stdin w = Sigint :: rest →
  py_input prompt w =
    (Raise (SystemExit 0),
     (shutdown
        (with_trace
           (trace w ++
            [Input prompt [];
             Print (nl +:+ "🛑 接收到中断信号，正在安全关闭...") []])
           (with_stdin rest w))).2).
Proof.
  intros Hin. destruct w as [en cm db an sid cfg st fs inp tk sys tr].
  cbn in Hin. subst inp.
  unfold py_input, py_inputf, _signal_handler, sys_exit, py_print, bind, emit,
    modify, get, raise.
  flat. rewrite <- !app_assoc. cbn [app].
  match goal with
  | |- context [shutdown ?w0] =>
      pose proof (shutdown_returns w0) as Hr;
      destruct (shutdown w0) as [o w1]
  end.
  cbn [fst] in Hr. by subst o.
Qed.

(** X10. A SIGINT while the main menu waits for a choice ends the program
    with exit status 0: the handler prints its notice, [shutdown] runs (a
    launcher with a database has closed it), and the [SystemExit] it raises
    leaves [show_main_menu]. *)
Theorem sigint_at_menu_exits
    (n : nat) (w : World) (rest : list stdin_item) :
  stdin w = Sigint :: rest →
  (show_main_menu (S n) w).1 = Raise (SystemExit 0) ∧
  (database w = true → closed (store (show_main_menu (S n) w).2) = true) ∧
  last (trace (show_main_menu (S n) w).2) =
    Some (Print "✅ 系统已安全关闭" []).
Proof.
  intros Hin. destruct (menu_banner_run w) as [t Ht].
  assert (E : show_main_menu (S n) w =
                (Raise (SystemExit 0),
                 (shutdown
                    (with_trace
                       (trace w ++ t ++
                        [Input "请选择操作 (0-8): " [];
                         Print (nl +:+ "🛑 接收到中断信号，正在安全关闭...") []])
                       (with_stdin rest w))).2)).
  { unfold show_main_menu. cbn [while_true]. unfold bind at 1.
    unfold menu_iteration, bind at 1. rewrite Ht.
    unfold try_except, menu_try. unfold bind at 1.
    rewrite (py_input_sigint _ rest) by exact Hin.
    destruct w as [en cm db an sid cfg st fs inp tk sys tr].
    flat. by rewrite <- !app_assoc. }
  rewrite E. cbn [fst snd].
  match goal with
  | |- context [shutdown ?w0] =>
      destruct (shutdown_effect w0) as (Hs & Hc & Hl)
  end.
  split; [reflexivity|]. split; [exact Hc | exact Hl].
Qed.

(** ** Training runs that do not run *)

Lemma launch_never_starts (w : World) :
  never_starts w →
  ∃ w' t, launch_traffic_system w = (Return tt, w') ∧
          env w' = env w ∧ database w' = database w ∧
          current_session_id w' = current_session_id w ∧
          store w' = store w ∧
          trace w' = trace w ++ t ∧ Forall not_run t.
Proof.
  intros Hn. destruct w as [en cm db an sid cfg st fs inp tk sys tr].
  unfold never_starts, has_system_class, next_system in Hn. cbn in Hn.
  unfold launch_traffic_system.
  destruct Hn as [[Hi Ha] | (Hcls & Hcon & Hini)].
  - run. do 2 eexists. repeat split. repeat constructor.
  - destruct (has_IntegratedTrafficSystem en) eqn:Hi;
      [|destruct Hcls as [Hcls|Hcls]; [congruence|]];
      run; do 2 eexists;
      (repeat split; [by rewrite <- !app_assoc | repeat constructor]).
Qed.

(** X11. A training run whose traffic system never starts (no class in the
    module, or [initialize()] answering [False]) is still registered, and the
    [finally] block closes it as completed: [start_training] returns
    normally, no run entry point is called, and the session that was
    registered ends in state completed. *)
Theorem unstarted_run_is_recorded_completed (w : World) :
  TRAFFIC_SYSTEM_AVAILABLE (env w) = true →
  DATABASE_AVAILABLE (env w) = true →
  constructed w →
  never_starts w →
  (start_training w).1 = Return tt ∧
  (∃ skipped,
     new_calls w (start_training w).2 =
       registration_calls w ++ skipped ++
       [Db (EndTrainingSession (training_session_id (now_in w))
              completed_result)] ∧
     Forall not_run skipped) ∧
  (closed (store w) = false →
   get_session (training_session_id (now_in w)) (store w) = None →
   session_status <$>
     get_session (training_session_id (now_in w)) (store (start_training w).2)
     = Some completed).
Proof.
  intros Ht Hd Hc Hn.
  rewrite start_training_registers by done.
  set (id := training_session_id (now_in w)) in *.
  set (v0 := registered w).
  assert (Hid : truthy (current_session_id v0) = Some id) by reflexivity.
  assert (Hdb0 : database v0 = true).
  { cbn. destruct Hc as (_ & -> & _). exact Hd. }
  destruct (launch_never_starts v0) as (v1 & t & Hl & He & Hdb1 & Hsid1 & Hs1 & Ht1 & Hall).
  { exact Hn. }
  assert (Htry : training_try v0 = (Return tt, v1)).
  { unfold training_try, try_except. by rewrite Hl. }
  assert (Hfin : end_session_record v1 =
                 end_training_session id completed_result v1).
  { apply end_session_record_run; [rewrite He; exact Hd | by rewrite Hsid1]. }
  unfold training_run, try_finally. rewrite Htry, Hfin.
  rewrite end_training_session_run by congruence.
  unfold with_store, with_ticks, with_trace. cbn [fst snd store trace].
  split; [reflexivity|]. split.
  { exists t. split; [|exact Hall].
    unfold new_calls. rewrite Ht1. unfold v0. cbn [registered trace].
    rewrite <- !app_assoc. by rewrite drop_app_length. }
  intros Hopen Hfresh. rewrite Hs1.
  destruct (start_session_fresh (clock (env w) (S (ticks w))) id
              (snapshot_of w) (store w) Hopen Hfresh) as [Hc1 Hg1].
  match type of Hg1 with _ = Some ?s0 =>
    rewrite (end_session_running (now_in v1) id completed_result (store v0)
               s0 completed)
  end; [reflexivity | | | reflexivity | reflexivity].
  - cbn. by rewrite (proj2 (log_sessions _ _ _ _ _ _)).
  - cbn. unfold get_session. rewrite (proj1 (log_sessions _ _ _ _ _ _)).
    exact Hg1.
Qed.

(** X12. Without the traffic-system module both modes refuse at once:
    [start_training] and [start_deployment] print their notice and return,
    having read no clock and no input, assigned no session id and called
    neither the database nor an engine. *)
Theorem no_traffic_system_no_run (w : World) :
  TRAFFIC_SYSTEM_AVAILABLE (env w) = false →
  start_training w =
    (Return tt,
     with_trace (trace w ++ [Print (nl +:+ "🎓 启动训练模式") [];
                             Print "❌ 交通系统不可用，请检查模块安装" []]) w) ∧
  start_deployment w =
    (Return tt,
     with_trace (trace w ++ [Print (nl +:+ "🚀 启动部署模式") [];
                             Print "❌ 交通系统不可用" []]) w).
Proof.
  intros Ht. destruct w as [en cm db an sid cfg st fs inp tk sys tr].
  cbn in Ht. unfold start_training, start_deployment.
  rewrite !bind_py_print. flat.
  unfold bind at 1, ask at 1. flat. rewrite Ht. cbn [negb].
  unfold bind at 1, ask at 1. flat. rewrite Ht. cbn [negb].
  unfold py_print, emit, modify. flat.
  by rewrite <- !app_assoc.
Qed.

(** ** Stepping through a menu *)

Lemma bind_bind {A B C} (m : M A) (f : A → M B) (g : B → M C) (w : World) :
  bind (bind m f) g w = bind m (λ a, bind (f a) g) w.
Proof. unfold bind. by destruct (m w) as [[a|e|] w1]. Qed.

Lemma bind_ret {A B} (a : A) (k : A → M B) (w : World) :
  bind (ret a) k w = k a w.
Proof. reflexivity. Qed.

Lemma bind_raise {A B} (e : exn) (k : A → M B) (w : World) :
  bind (raise e) k w = (Raise e, w).
Proof. reflexivity. Qed.

Lemma bind_ask {A B} (f : Env → A) (k : A → M B) (w : World) :
  bind (ask f) k w = k (f (env w)) w.
Proof. reflexivity. Qed.

Lemma bind_get {A B} (f : World → A) (k : A → M B) (w : World) :
  bind (get f) k w = k (f w) w.
Proof. reflexivity. Qed.

Lemma bind_modify {B} (f : World → World) (k : unit → M B) (w : World) :
  bind (modify f) k w = k tt (f w).
Proof. reflexivity. Qed.

Lemma bind_py_inputf_line {B} (prompt s : string) (args : list pyval)
    (rest : list stdin_item) (k : string → M B) (w : World) :
  stdin w = Line s :: rest →
  bind (py_inputf prompt args) k w =
    k s (with_stdin rest (with_trace (trace w ++ [Input prompt args]) w)).
Proof.
  intros H. unfold py_inputf, bind, emit, modify, get. cbn. by rewrite H.
Qed.

Lemma bind_py_input_eof {B} (prompt : string) (k : string → M B) (w : World) :
  stdin w = [] →
  bind (py_input prompt) k w =
    (Raise (EOFError "EOF when reading a line"),
     with_trace (trace w ++ [Input prompt []]) w).
Proof.
  intros H. unfold py_input, py_inputf, bind, emit, modify, get. cbn.
  by rewrite H.
Qed.

Lemma bind_lower {B} (s : string) (k : string → M B) (w : World) :
  bind (lower s) k w = k (py_lower (env w) s) w.
Proof. reflexivity. Qed.

Lemma bind_isdigit {B} (s : string) (k : bool → M B) (w : World) :
  bind (isdigit s) k w = k (py_isdigit (env w) s) w.
Proof. reflexivity. Qed.

Lemma bind_int_of_bad {B} (s : string) (k : Z → M B) (w : World) :
  py_int (env w) s = None →
  bind (int_of s) k w = (Raise (ValueError (py_int_error (env w) s)), w).
Proof. intros H. unfold int_of, bind, ask. cbn. by rewrite H. Qed.

Lemma bind_database_missing {A B} (name : string) (c : db_call) (m : M A)
    (k : A → M B) (w : World) :
  database w = false →
  bind (database_method name c m) k w = (Raise (attribute_of_None name), w).
Proof.
  intros H. unfold database_method, bind, get, raise. cbn. by rewrite H.
Qed.

Lemma bind_analyzer_missing {A B} (name : string) (c : analyzer_call)
    (m : M A) (k : A → M B) (w : World) :
  analyzer w = false →
  bind (analyzer_method name c m) k w = (Raise (attribute_of_None name), w).
Proof.
  intros H. unfold analyzer_method, bind, get, raise. cbn. by rewrite H.
Qed.

Lemma while_true_S (n : nat) (body : M ctl) :
  while_true (S n) body =
    bind body (λ c, match c with
                    | Break => ret tt
                    | Continue => while_true n body
                    end).
Proof. reflexivity. Qed.

(** ** Performance analysis *)

Lemma performance_analysis_eq (fuel : nat) :
  performance_analysis fuel =
  ltac:(let t := eval unfold performance_analysis in (performance_analysis fuel)
        in exact t).
Proof. reflexivity. Qed.

Lemma config_management_eq (fuel : nat) :
  config_management fuel =
  ltac:(let t := eval unfold config_management in (config_management fuel)
        in exact t).
Proof. reflexivity. Qed.

Lemma project_setup_eq (fuel : nat) :
  project_setup fuel =
  ltac:(let t := eval unfold project_setup in (project_setup fuel)
        in exact t).
Proof. reflexivity. Qed.

Lemma database_management_eq (fuel : nat) :
  database_management fuel =
  ltac:(let t := eval unfold database_management in (database_management fuel)
        in exact t).
Proof. reflexivity. Qed.

(** One statement of a menu: bring it to the front and run it. *)
Ltac print_step := rewrite ?bind_bind; rewrite bind_py_print; flat.
Ltac ask_step := rewrite ?bind_bind; rewrite bind_ask; flat.
Ltac loop_step :=
  rewrite while_true_S;
  match goal with
  | |- context [bind ?b ?k ?w] =>
      lazymatch type of k with
      | ctl → M unit => let K := fresh "K" in set (K := k)
      end
  end;
  rewrite ?bind_bind.
(** The end of a turn: back to the loop. *)
Ltac next_turn :=
  match goal with
  | K := _ : ctl → M unit |- _ => subst K
  end; flat.
Ltac input_step line rest :=
  rewrite ?bind_bind;
  first [ rewrite (bind_py_input_line _ line rest) by reflexivity
        | rewrite (bind_py_inputf_line _ line _ rest) by reflexivity ];
  flat.
Ltac strip_step := rewrite ?bind_bind; rewrite bind_strip; flat.

(** X13. With [analyzer.py] importable but no database, the analysis menu is
    entered (it looks at the module flag, not at the handle) and its first
    three choices fail with an [AttributeError] on the missing handle:
    listing or analysing sessions on the database, the summary report on the
    analyzer. *)
Theorem analysis_without_database_fails
    (n : nat) (w : World) (line : string) (rest : list stdin_item) :
  ANALYZER_AVAILABLE (env w) = true →
  DATABASE_AVAILABLE (env w) = false →
  constructed w →
  stdin w = Line line :: rest →
  (py_strip (env w) line = "1" ∨ py_strip (env w) line = "2" →
   (performance_analysis (S n) w).1 =
     Raise (attribute_of_None "get_training_sessions")) ∧
  (py_strip (env w) line = "3" →
   (performance_analysis (S n) w).1 =
     Raise (attribute_of_None "generate_summary_report")).
Proof.
  intros Ha Hd (_ & Hdb & Han) Hin.
  destruct w as [en cm db an sid cfg st fs inp tk sys tr].
  cbn in Ha, Hd, Hdb, Han, Hin. rewrite Hd in Hdb. rewrite Ha, Hd in Han.
  cbn in Han. subst db an inp. cbn [env].
  split; intros Hs.
  all: rewrite performance_analysis_eq; print_step; ask_step;
    rewrite Ha; cbn [negb]; loop_step; do 6 print_step;
    input_step line rest; strip_step.
  - destruct Hs as [-> | ->].
    + rewrite (decide_True (P := "1" = "1")) by reflexivity.
      rewrite ?bind_bind. unfold get_training_sessions.
      by rewrite bind_database_missing.
    + rewrite (decide_False (P := "2" = "1")) by discriminate.
      rewrite (decide_True (P := "2" = "2")) by reflexivity.
      rewrite ?bind_bind. unfold get_training_sessions.
      by rewrite bind_database_missing.
  - rewrite Hs.
    rewrite (decide_False (P := "3" = "1")) by discriminate.
    rewrite (decide_False (P := "3" = "2")) by discriminate.
    rewrite (decide_True (P := "3" = "3")) by reflexivity.
    print_step. rewrite ?bind_bind. unfold generate_summary_report.
    by rewrite bind_analyzer_missing.
Qed.

(** ** The database menu *)

Lemma bind_cleanup_old_data {B} (days : Z) (k : bool → M B) (w : World) :
  database w = true →
  bind (cleanup_old_data days) k w =
    k (purge (env w) days (store w)).1
      (with_store (purge (env w) days (store w)).2
         (with_trace (trace w ++ [Db (CleanupOldData days)]) w)).
Proof.
  intros H. unfold cleanup_old_data, database_method, bind, get, emit, modify.
  cbn. by rewrite H.
Qed.

(** The clean-up dialogue up to the confirmation. *)
Lemma cleanup_menu_asks (w : World) (a b : string) (rest : list stdin_item)
    (d : Z) :
  stdin w = Line a :: Line b :: rest →
  retention_days (env w) a = Some d →
  cleanup_menu w =
    (if decide (py_lower (env w) (py_strip (env w) b) = "y") then
       bind (cleanup_old_data d)
         (λ ok : bool, if ok then py_print "✅ 数据清理完成"
                       else py_print "❌ 数据清理失败")
     else ret tt)
      (with_stdin rest
         (with_trace
            (trace w ++
             [Input "保留多少天的数据 (默认30天): " [];
              Input "确认删除 {days} 天前的数据? (y/N): " [PyInt d]]) w)).
Proof.
  intros Hin Hd. destruct w as [en cm db an sid cfg st fs inp tk sys tr].
  unfold retention_days in Hd. cbn in Hin, Hd. subst inp.
  unfold cleanup_menu.
  input_step a (Line b :: rest). strip_step.
  rewrite ?bind_bind. rewrite bind_isdigit. flat.
  destruct (py_isdigit en (py_strip en a)).
  - rewrite ?bind_bind. rewrite (bind_int_of _ d) by exact Hd. flat.
    input_step b rest. strip_step. rewrite ?bind_bind, bind_lower. flat.
    by rewrite <- !app_assoc.
  - injection Hd as <-. rewrite ?bind_bind, bind_ret. flat.
    input_step b rest. strip_step. rewrite ?bind_bind, bind_lower. flat.
    by rewrite <- !app_assoc.
Qed.

(** X14. The clean-up dialogue deletes only on an explicit [y]: with any
    other answer to the confirmation no database method is called and the
    store is as before; with [y], [cleanup_old_data] is called once, with the
    number of days typed, or with 30 when the answer was not a number. *)
Theorem cleanup_only_on_confirmation
    (w : World) (a b : string) (rest : list stdin_item) (d : Z) :
  database w = true →
  stdin w = Line a :: Line b :: rest →
  retention_days (env w) a = Some d →
  (cleanup_menu w).1 = Return tt ∧
  (py_lower (env w) (py_strip (env w) b) ≠ "y" →
   store (cleanup_menu w).2 = store w ∧
   new_calls w (cleanup_menu w).2 =
     [Input "保留多少天的数据 (默认30天): " [];
      Input "确认删除 {days} 天前的数据? (y/N): " [PyInt d]]) ∧
  (py_lower (env w) (py_strip (env w) b) = "y" →
   store (cleanup_menu w).2 = (purge (env w) d (store w)).2 ∧
   new_calls w (cleanup_menu w).2 =
     [Input "保留多少天的数据 (默认30天): " [];
      Input "确认删除 {days} 天前的数据? (y/N): " [PyInt d];
      Db (CleanupOldData d);
      Print (if (purge (env w) d (store w)).1 then "✅ 数据清理完成"
             else "❌ 数据清理失败") []]).
Proof.
  intros Hdb Hin Hd. rewrite (cleanup_menu_asks w a b rest d Hin Hd).
  destruct w as [en cm db an sid cfg st fs inp tk sys tr].
  cbn in Hdb. subst db. unfold new_calls. flat.
  destruct (decide (py_lower en (py_strip en b) = "y")) as [Hy|Hy].
  - rewrite bind_cleanup_old_data by reflexivity. flat.
    destruct (purge en d st) as [[|] st'] eqn:Hp; cbn [fst snd];
      unfold py_print, emit, modify; flat; cbn [fst snd]; flat;
      (split; [reflexivity|]; split; [done|]; intros _;
       split; [reflexivity|]);
      by rewrite <- !app_assoc, drop_app_length.
  - unfold ret. flat. cbn [fst snd]. flat.
    split; [reflexivity|]. split; [|done]. intros _.
    split; [reflexivity|]. by rewrite drop_app_length.
Qed.

(** The export dialogue up to the number. *)
Lemma export_menu_asks (w : World) (answer : string)
    (rest : list stdin_item) :
  database w = true →
  stdin w = Line answer :: rest →
  get_sessions 10 (store w) ≠ [] →
  ∃ t, Forall not_export t ∧
    export_menu w =
      try_except
        (n ← int_of answer;
         let idx := (n - 1)%Z in
         if bool_decide (0 ≤ idx < Z.of_nat (length (get_sessions 10 (store w))))%Z
         then
           '(session_id, _) ← index (get_sessions 10 (store w)) idx;
           let export_path := "export_" +:+ session_id +:+ ".json" in
           ok ← export_data session_id export_path;
           if ok : bool then py_print ("✅ 数据已导出到: " +:+ export_path)
           else ret tt
         else py_print "❌ 无效的会话编号")
        (except_ValueError_IndexError (py_print "❌ 输入无效"))
        (with_stdin rest (with_trace (trace w ++ t) w)).
Proof.
  intros Hdb Hin Hne.
  destruct w as [en cm db an cur cfg sto fls inp tk sys tr].
  cbn in Hdb, Hin, Hne. subst db inp.
  exists ([Db (GetTrainingSessions 10); Print (nl +:+ "可导出的会话:") []] ++
          map (λ '(i, (id0, _)),
                 Print "{i+1}. {session['session_id']}"
                   [PyInt (Z.of_nat i + 1); PyStr id0])
            (imap (λ i s0, (i, s0)) (get_sessions 10 sto)) ++
          [Input "选择会话编号: " []]).
  split.
  { repeat first [apply Forall_app; split | apply Forall_cons; split
                 | apply Forall_nil]; try exact I.
    apply List.Forall_map, Forall_forall. by intros [i [id0 s0]] _. }
  unfold export_menu, py_print, py_printf.
  rewrite bind_get_training_sessions by reflexivity. flat.
  destruct (get_sessions 10 sto) as [|row rows] eqn:Hsess; [done|].
  rewrite bind_emit. flat.
  rewrite (bind_for_each_emit _
    (λ '(i, (id0, _)),
       Print "{i+1}. {session['session_id']}"
         [PyInt (Z.of_nat i + 1); PyStr id0])).
  2:{ by intros [i [id0 s0]]. }
  flat. unfold try_except.
  rewrite (bind_py_input_line _ answer rest) by reflexivity. flat.
  rewrite <- !app_assoc. reflexivity.
Qed.

(** X15. The export dialogue takes a number between 1 and the number of
    sessions listed and nothing else: on any other number it answers that
    the number is invalid, on anything [int] rejects that the input is
    invalid; in both cases the turn ends normally, [export_data] is not
    called and no file is written. *)
Theorem export_rejects_bad_number
    (w : World) (answer : string) (rest : list stdin_item) :
  database w = true →
  stdin w = Line answer :: rest →
  get_sessions 10 (store w) ≠ [] →
  match py_int (env w) answer with
  | Some n => ¬ (1 ≤ n ≤ Z.of_nat (length (get_sessions 10 (store w))))%Z
  | None => True
  end →
  (export_menu w).1 = Return tt ∧
  files (export_menu w).2 = files w ∧
  store (export_menu w).2 = store w ∧
  Forall not_export (new_calls w (export_menu w).2) ∧
  last (new_calls w (export_menu w).2) =
    Some (Print (match py_int (env w) answer with
                 | Some _ => "❌ 无效的会话编号"
                 | None => "❌ 输入无效"
                 end) []).
Proof.
  intros Hdb Hin Hne Hbad.
  destruct (export_menu_asks w answer rest Hdb Hin Hne) as (t & Hall & ->).
  destruct w as [en cm db an cur cfg sto fls inp tk sys tr].
  cbn in Hdb, Hin, Hne, Hbad. subst db inp. unfold new_calls. flat.
  unfold try_except.
  destruct (py_int en answer) as [n|] eqn:Hint.
  - rewrite (bind_int_of _ n) by exact Hint.
    rewrite bool_decide_false by lia.
    unfold py_print, emit, modify. flat. cbn [fst snd]. flat.
    rewrite <- !app_assoc, !drop_app_length.
    repeat split.
    + apply Forall_app. split; [exact Hall|]. by repeat constructor.
    + apply last_snoc.
  - rewrite bind_int_of_bad by exact Hint.
    cbv beta iota delta [except_ValueError_IndexError].
    unfold py_print, emit, modify. flat. cbn [fst snd]. flat.
    rewrite <- !app_assoc, !drop_app_length.
    repeat split.
    + apply Forall_app. split; [exact Hall|]. by repeat constructor.
    + apply last_snoc.
Qed.

(** X16. A valid number exports the session listed under it: the file is
    named [export_<session id>.json], and when [export_data] reports success
    the document is there and the path is confirmed on the console. *)
Theorem export_writes_chosen_session
    (w : World) (answer : string) (rest : list stdin_item)
    (n : Z) (sid : string) (s : Session) :
  database w = true →
  stdin w = Line answer :: rest →
  py_int (env w) answer = Some n →
  (0 < n)%Z →
  get_sessions 10 (store w) !! Z.to_nat (n - 1) = Some (sid, s) →
  (export (writable (env w)) sid ("export_" +:+ sid +:+ ".json")
     (store w) (files w)).1 = None →
  (export_menu w).1 = Return tt ∧
  is_Some (files (export_menu w).2 !! ("export_" +:+ sid +:+ ".json")) ∧
  (∀ p, p ≠ "export_" +:+ sid +:+ ".json" →
        files (export_menu w).2 !! p = files w !! p) ∧
  store (export_menu w).2 = store w ∧
  ∃ t, Forall not_export t ∧
       new_calls w (export_menu w).2 =
         t ++ [Db (ExportData sid ("export_" +:+ sid +:+ ".json"));
               Print ("✅ 数据已导出到: " +:+
                      ("export_" +:+ sid +:+ ".json")) []].
Proof.
  intros Hdb Hin Hint Hpos Hlook Hok.
  assert (Hne : get_sessions 10 (store w) ≠ []).
  { intros E. by rewrite E in Hlook. }
  destruct (export_menu_asks w answer rest Hdb Hin Hne) as (t & Hall & ->).
  assert (Hf : (export (writable (env w)) sid
                  ("export_" +:+ sid +:+ ".json") (store w) (files w)).2 =
               <[ "export_" +:+ sid +:+ ".json" :=
                    {| doc_session_id := sid;
                       doc_session :=
                         default s (get_session sid (store w));
                       doc_events := events_of sid (store w) |} ]>
                 (files w)).
  { unfold export in *. repeat case_match; cbn in *; congruence. }
  destruct w as [en cm db an cur cfg sto fls inp tk sys tr].
  cbn in Hdb, Hin, Hint, Hlook, Hok, Hf. subst db inp.
  assert (Hlen : (0 ≤ n - 1 < Z.of_nat (length (get_sessions 10 sto)))%Z).
  { apply lookup_lt_Some in Hlook. lia. }
  unfold new_calls. flat. unfold try_except.
  rewrite (bind_int_of _ n) by exact Hint.
  rewrite bool_decide_true by exact Hlen.
  rewrite (bind_index _ _ (sid, s)) by exact Hlook.
  rewrite bind_export_data by reflexivity. flat.
  rewrite bool_decide_true by exact Hok.
  rewrite Hf. unfold py_print, emit, modify. flat. cbn [fst snd]. flat.
  split; [reflexivity|]. split; [by rewrite lookup_insert_eq|].
  split; [by intros p Hp; rewrite lookup_insert_ne|].
  split; [reflexivity|].
  exists t. split; [exact Hall|].
  by rewrite <- !app_assoc, drop_app_length.
Qed.

(** ** The configuration menu *)

Lemma bind_try_except {A B} (body : M A) (handler : exn → option (M A))
    (k : A → M B) (w : World) :
  bind (try_except body handler) k w =
    match body w with
    | (Return a, w') => k a w'
    | (Raise e, w') =>
        match handler e with
        | Some h => bind h k w'
        | None => (Raise e, w')
        end
    | (OutOfFuel, w') => (OutOfFuel, w')
    end.
Proof.
  unfold bind, try_except. destruct (body w) as [[a|e|] w']; [done| |done].
  by destruct (handler e).
Qed.

Lemma bind_get_config {B} (k : Config → M B) (w : World) :
  config_manager w = true →
  bind get_config k w =
    k (config w) (with_trace (trace w ++ [ConfigManager GetConfig]) w).
Proof.
  intros H. unfold get_config, bind, get, emit, modify. cbn. by rewrite H.
Qed.

Lemma bind_float_of_bad {B} (s : string) (k : float → M B) (w : World) :
  py_float (env w) s = None →
  bind (float_of s) k w = (Raise (ValueError (py_float_error (env w) s)), w).
Proof. intros H. unfold float_of, bind, ask. cbn. by rewrite H. Qed.

(** Into the menu, and one turn up to the choice. *)
Ltac enter_config_menu Hc :=
  rewrite config_management_eq; print_step; ask_step; rewrite Hc;
  cbn [negb].
Ltac config_turn line rest :=
  loop_step; do 6 print_step; input_step line rest; strip_step.
Ltac leave_menu :=
  rewrite (decide_False (P := "0" = "1")) by discriminate;
  rewrite (decide_False (P := "0" = "2")) by discriminate;
  rewrite (decide_False (P := "0" = "3")) by discriminate;
  rewrite (decide_False (P := "0" = "4")) by discriminate;
  rewrite (decide_True (P := "0" = "0")) by reflexivity;
  rewrite bind_ret; flat.
Ltac choose_edit :=
  rewrite (decide_False (P := "2" = "1")) by discriminate;
  rewrite (decide_True (P := "2" = "2")) by reflexivity;
  do 6 print_step; rewrite ?bind_bind; rewrite bind_try_except.

(** X17. Editing the number of training episodes: the configuration menu
    takes any integer, assigns it to the live configuration object and
    confirms; nothing else of the configuration changes, the value is what
    the next training run puts into its snapshot, and [save_config] is not
    called: the edit is in memory only. *)
Theorem config_edit_sets_max_episodes
    (n : nat) (w : World) (l1 a1 a2 l2 : string) (rest : list stdin_item)
    (v : Z) :
  CONFIG_AVAILABLE (env w) = true →
  config_manager w = true →
  stdin w = Line l1 :: Line a1 :: Line a2 :: Line l2 :: rest →
  py_strip (env w) l1 = "2" →
  py_int (env w) a1 = Some 3%Z →
  py_int (env w) a2 = Some v →
  py_strip (env w) l2 = "0" →
  (config_management (S (S n)) w).1 = Return tt ∧
  config (config_management (S (S n)) w).2 = set_max_episodes v (config w) ∧
  snapshot_of (config_management (S (S n)) w).2 !! "max_episodes" =
    Some (PyInt v) ∧
  stdin (config_management (S (S n)) w).2 = rest ∧
  Print "✅ 配置已更新" [] ∈ new_calls w (config_management (S (S n)) w).2 ∧
  Forall not_save (new_calls w (config_management (S (S n)) w).2).
Proof.
  intros Hc Hcm Hin Hs1 Hi1 Hi2 Hs2.
  destruct w as [en cm db an sid cfg st fs inp tk sys tr].
  cbn in Hc, Hcm, Hin, Hs1, Hi1, Hi2, Hs2. subst cm inp.
  assert (E : ∃ t,
    config_management (S (S n))
      {| env := en; config_manager := true; database := db; analyzer := an;
         current_session_id := sid; config := cfg; store := st; files := fs;
         stdin := Line l1 :: Line a1 :: Line a2 :: Line l2 :: rest;
         ticks := tk; systems := sys; trace := tr |} =
    (Return tt,
     {| env := en; config_manager := true; database := db; analyzer := an;
        current_session_id := sid; config := set_max_episodes v cfg;
        store := st; files := fs; stdin := rest;
        ticks := tk; systems := sys; trace := tr ++ t |}) ∧
    Print "✅ 配置已更新" [] ∈ t ∧ Forall not_save t).
  { eexists. split.
    - enter_config_menu Hc.
      config_turn l1 (Line a1 :: Line a2 :: Line l2 :: rest). rewrite Hs1.
      choose_edit.
      input_step a1 (Line a2 :: Line l2 :: rest).
      rewrite ?bind_bind. rewrite (bind_int_of _ 3) by exact Hi1. flat.
      rewrite ?bind_bind. rewrite bind_get_config by reflexivity. flat.
      rewrite (decide_False (P := 3%Z = 1%Z)) by discriminate.
      rewrite (decide_False (P := 3%Z = 2%Z)) by discriminate.
      rewrite (decide_True (P := 3%Z = 3%Z)) by reflexivity.
      input_step a2 (Line l2 :: rest).
      rewrite ?bind_bind. rewrite (bind_int_of _ v) by exact Hi2. flat.
      rewrite ?bind_bind. rewrite bind_modify. flat.
      rewrite ?bind_bind. rewrite bind_ret. flat.
      unfold py_print at 1, emit, modify. flat.
      rewrite bind_ret. next_turn.
      config_turn l2 rest. rewrite Hs2. leave_menu. next_turn.
      unfold ret. rewrite <- !app_assoc. reflexivity.
    - cbn [app]. split.
      + repeat first [apply list_elem_of_here | apply list_elem_of_further].
      + repeat constructor. }
  destruct E as (t & -> & Hin & Hall).
  unfold new_calls, snapshot_of. cbn [fst snd]. flat. rewrite Hc.
  rewrite drop_app_length. by repeat split.
Qed.

Lemma Forall_not_elem_of {A} (x : A) (l : list A) :
  Forall (λ y, y ≠ x) l → x ∉ l.
Proof. rewrite Forall_forall. intros H Hin. by apply (H x). Qed.

(** The handler of the edit dialogue takes the exception and reports it. *)
Ltac edit_fails :=
  cbv beta iota delta [except_ValueError_AttributeError exn_str];
  print_step; rewrite ?bind_bind; rewrite bind_ret; flat.

(** X18. An item number the edit dialogue does not know changes nothing:
    on a number outside 1..5 the menu answers that the choice is invalid,
    on anything [int] rejects it reports the [ValueError] with the text
    Python gave it; either way no value is asked for, the configuration is
    as before, no update is confirmed and the menu goes on. *)
Theorem config_unknown_item_changes_nothing
    (n : nat) (w : World) (l1 a1 l2 : string) (rest : list stdin_item) :
  CONFIG_AVAILABLE (env w) = true →
  config_manager w = true →
  stdin w = Line l1 :: Line a1 :: Line l2 :: rest →
  py_strip (env w) l1 = "2" →
  match py_int (env w) a1 with
  | Some k => ¬ (1 ≤ k ≤ 5)%Z
  | None => True
  end →
  py_strip (env w) l2 = "0" →
  (config_management (S (S n)) w).1 = Return tt ∧
  config (config_management (S (S n)) w).2 = config w ∧
  stdin (config_management (S (S n)) w).2 = rest ∧
  Print (match py_int (env w) a1 with
         | Some _ => "❌ 无效选择"
         | None => "❌ 配置更新失败: " +:+ py_int_error (env w) a1
         end) [] ∈ new_calls w (config_management (S (S n)) w).2 ∧
  Forall not_confirmation (new_calls w (config_management (S (S n)) w).2).
Proof.
  intros Hc Hcm Hin Hs1 Hbad Hs2.
  destruct w as [en cm db an sid cfg st fs inp tk sys tr].
  cbn in Hc, Hcm, Hin, Hs1, Hbad, Hs2. subst cm inp.
  assert (E : ∃ t,
    config_management (S (S n))
      {| env := en; config_manager := true; database := db; analyzer := an;
         current_session_id := sid; config := cfg; store := st; files := fs;
         stdin := Line l1 :: Line a1 :: Line l2 :: rest;
         ticks := tk; systems := sys; trace := tr |} =
    (Return tt,
     {| env := en; config_manager := true; database := db; analyzer := an;
        current_session_id := sid; config := cfg;
        store := st; files := fs; stdin := rest;
        ticks := tk; systems := sys; trace := tr ++ t |}) ∧
    Print (match py_int en a1 with
           | Some _ => "❌ 无效选择"
           | None => "❌ 配置更新失败: " +:+ py_int_error en a1
           end) [] ∈ t ∧
    Forall not_confirmation t).
  { destruct (py_int en a1) as [k|] eqn:Hi1.
    - eexists. split.
      + enter_config_menu Hc.
        config_turn l1 (Line a1 :: Line l2 :: rest). rewrite Hs1.
        choose_edit.
        input_step a1 (Line l2 :: rest).
        rewrite ?bind_bind. rewrite (bind_int_of _ k) by exact Hi1. flat.
        rewrite ?bind_bind. rewrite bind_get_config by reflexivity. flat.
        rewrite (decide_False (P := k = 1%Z)) by lia.
        rewrite (decide_False (P := k = 2%Z)) by lia.
        rewrite (decide_False (P := k = 3%Z)) by lia.
        rewrite (decide_False (P := k = 4%Z)) by lia.
        rewrite (decide_False (P := k = 5%Z)) by lia.
        print_step. rewrite ?bind_bind. rewrite bind_ret. flat.
        unfold ret at 1. flat. rewrite bind_ret. next_turn.
        config_turn l2 rest. rewrite Hs2. leave_menu. next_turn.
        unfold ret. rewrite <- !app_assoc. reflexivity.
      + cbn [app]. split.
        * repeat first [apply list_elem_of_here | apply list_elem_of_further].
        * repeat constructor; discriminate.
    - eexists. split.
      + enter_config_menu Hc.
        config_turn l1 (Line a1 :: Line l2 :: rest). rewrite Hs1.
        choose_edit.
        input_step a1 (Line l2 :: rest).
        rewrite ?bind_bind. rewrite bind_int_of_bad by exact Hi1. flat.
        edit_fails. next_turn.
        config_turn l2 rest. rewrite Hs2. leave_menu. next_turn.
        unfold ret. rewrite <- !app_assoc. reflexivity.
      + cbn [app]. split.
        * repeat first [apply list_elem_of_here | apply list_elem_of_further].
        * repeat constructor; discriminate. }
  destruct E as (t & -> & Hin & Hall).
  unfold new_calls. cbn [fst snd]. flat.
  rewrite drop_app_length. by repeat split.
Qed.

(** X19. A value the edit dialogue cannot parse changes nothing, whichever
    of the five items it was meant for: [int] or [float] raises
    [ValueError] before the assignment, the handler reports it, the
    configuration is as before, no update is confirmed and the menu goes
    on. *)
Theorem config_unparsable_value_changes_nothing
    (n : nat) (w : World) (l1 a1 a2 l2 : string) (rest : list stdin_item)
    (k : Z) :
  CONFIG_AVAILABLE (env w) = true →
  config_manager w = true →
  stdin w = Line l1 :: Line a1 :: Line a2 :: Line l2 :: rest →
  py_strip (env w) l1 = "2" →
  py_int (env w) a1 = Some k →
  (k = 3 ∨ k = 5 → py_int (env w) a2 = None)%Z →
  (k = 1 ∨ k = 2 ∨ k = 4 → py_float (env w) a2 = None)%Z →
  (1 ≤ k ≤ 5)%Z →
  py_strip (env w) l2 = "0" →
  (config_management (S (S n)) w).1 = Return tt ∧
  config (config_management (S (S n)) w).2 = config w ∧
  stdin (config_management (S (S n)) w).2 = rest ∧
  (∃ msg, Print ("❌ 配置更新失败: " +:+ msg) [] ∈
            new_calls w (config_management (S (S n)) w).2) ∧
  Forall not_confirmation (new_calls w (config_management (S (S n)) w).2).
Proof.
  intros Hc Hcm Hin Hs1 Hi1 Hint Hfloat Hk Hs2.
  destruct w as [en cm db an sid cfg st fs inp tk sys tr].
  cbn in Hc, Hcm, Hin, Hs1, Hi1, Hint, Hfloat, Hs2. subst cm inp.
  assert (E : ∃ t,
    config_management (S (S n))
      {| env := en; config_manager := true; database := db; analyzer := an;
         current_session_id := sid; config := cfg; store := st; files := fs;
         stdin := Line l1 :: Line a1 :: Line a2 :: Line l2 :: rest;
         ticks := tk; systems := sys; trace := tr |} =
    (Return tt,
     {| env := en; config_manager := true; database := db; analyzer := an;
        current_session_id := sid; config := cfg;
        store := st; files := fs; stdin := rest;
        ticks := tk; systems := sys; trace := tr ++ t |}) ∧
    (∃ msg, Print ("❌ 配置更新失败: " +:+ msg) [] ∈ t) ∧
    Forall not_confirmation t).
  { assert (Hcase : (k = 1 ∨ k = 2 ∨ k = 3 ∨ k = 4 ∨ k = 5)%Z) by lia.
    destruct Hcase as [->|[->|[->|[->| ->]]]].
    all: eexists; split;
      [ enter_config_menu Hc;
        config_turn l1 (Line a1 :: Line a2 :: Line l2 :: rest); rewrite Hs1;
        choose_edit;
        input_step a1 (Line a2 :: Line l2 :: rest);
        rewrite ?bind_bind;
        match type of Hi1 with
        | _ = Some ?z => rewrite (bind_int_of _ z) by exact Hi1
        end; flat;
        rewrite ?bind_bind; rewrite bind_get_config by reflexivity; flat;
        repeat match goal with
               | |- context [decide (?a = ?b :> Z)] =>
                   first [ rewrite (decide_True (P := a = b)) by reflexivity
                         | rewrite (decide_False (P := a = b)) by discriminate ]
               end;
        input_step a2 (Line l2 :: rest);
        rewrite ?bind_bind;
        first [ rewrite bind_int_of_bad by (apply Hint; auto)
              | rewrite bind_float_of_bad by (apply Hfloat; auto) ];
        flat; edit_fails; next_turn;
        config_turn l2 rest; rewrite Hs2; leave_menu; next_turn;
        unfold ret; rewrite <- !app_assoc; reflexivity
      | cbn [app]; split;
        [ eexists;
          repeat first [apply list_elem_of_here | apply list_elem_of_further]
        | repeat constructor; discriminate ] ]. }
  destruct E as (t & -> & Hin & Hall).
  unfold new_calls. cbn [fst snd]. flat.
  rewrite drop_app_length. by repeat split.
Qed.

(** ** The sub-menus at end of input *)

(** X20. Unlike the main menu, the four sub-menus have no handler around
    their prompt: at end of input [input()] raises [EOFError] and the
    sub-menu ends with it (the main menu then reports it). *)
Theorem sub_menus_raise_at_end_of_input (n : nat) (w : World) :
  stdin w = [] →
  (ANALYZER_AVAILABLE (env w) = true →
   (performance_analysis (S n) w).1 = Raise (EOFError "EOF when reading a line")) ∧
  (CONFIG_AVAILABLE (env w) = true →
   (config_management (S n) w).1 = Raise (EOFError "EOF when reading a line")) ∧
  (DATABASE_AVAILABLE (env w) = true →
   (database_management (S n) w).1 = Raise (EOFError "EOF when reading a line")) ∧
  (project_setup (S n) w).1 = Raise (EOFError "EOF when reading a line").
Proof.
  intros Hin. destruct w as [en cm db an sid cfg st fs inp tk sys tr].
  cbn in Hin. subst inp. cbn [env].
  split; [|split; [|split]].
  - intros Ha. rewrite performance_analysis_eq. print_step. ask_step.
    rewrite Ha. cbn [negb]. loop_step. do 6 print_step.
    rewrite ?bind_bind. by rewrite bind_py_input_eof.
  - intros Hc. rewrite config_management_eq. print_step. ask_step.
    rewrite Hc. cbn [negb]. loop_step. do 6 print_step.
    rewrite ?bind_bind. by rewrite bind_py_input_eof.
  - intros Hd. rewrite database_management_eq. print_step. ask_step.
    rewrite Hd. cbn [negb]. loop_step. rewrite database_menu_iteration_eq.
    rewrite ?bind_bind. do 6 print_step.
    rewrite ?bind_bind. by rewrite bind_py_input_eof.
  - rewrite project_setup_eq. print_step. loop_step. do 7 print_step.
    rewrite ?bind_bind. by rewrite bind_py_input_eof.
Qed.

(** ** Project setup *)

Lemma with_trace_app (w : World) (t1 t2 : list Call) :
  with_trace (trace (with_trace (trace w ++ t1) w) ++ t2)
    (with_trace (trace w ++ t1) w) =
  with_trace (trace w ++ t1 ++ t2) w.
Proof. destruct w. unfold with_trace. cbn. by rewrite app_assoc. Qed.

Lemma with_trace_nil (w : World) : with_trace (trace w ++ []) w = w.
Proof. destruct w. unfold with_trace. cbn. by rewrite app_nil_r. Qed.

Lemma for_each_app {A} (l1 l2 : list A) (f : A → M unit) (w : World) :
  for_each (l1 ++ l2) f w = bind (for_each l1 f) (λ _, for_each l2 f) w.
Proof.
  revert w. induction l1 as [|x l1 IH]; intros w; [reflexivity|].
  cbn [app for_each]. unfold bind.
  destruct (f x w) as [[[]|e|] w1]; [|done|done].
  rewrite IH. reflexivity.
Qed.

Lemma created_in (t : list Call) (p : string) :
  existsb (λ c, match c with
                | Makedirs p0 => bool_decide (p0 = p)
                | _ => false
                end) t = true ↔ Makedirs p ∈ t.
Proof.
  rewrite existsb_exists. split.
  - intros (c & Hc & Hm). apply list_elem_of_In in Hc.
    destruct c; try discriminate. apply bool_decide_eq_true in Hm.
    by subst.
  - intros Hc. exists (Makedirs p). split; [by apply list_elem_of_In|].
    by apply bool_decide_eq_true.
Qed.

(** A path exists after some calls when it existed before, or was created
    by one of them. *)
Lemma exists_now_app (w : World) (t : list Call) (p : string) :
  exists_now (with_trace (trace w ++ t) w) p = true ↔
  exists_now w p = true ∨
  (Makedirs p ∈ t ∧ makedirs_error (env w) p = None).
Proof.
  unfold exists_now. cbn. rewrite !orb_true_iff.
  destruct (makedirs_error (env w) p) as [e|].
  - intuition discriminate.
  - rewrite existsb_app, orb_true_iff, !created_in. intuition.
Qed.

Lemma exists_now_same (w : World) (t : list Call) (p : string) :
  (∀ q, Makedirs q ∉ t) →
  exists_now (with_trace (trace w ++ t) w) p = exists_now w p.
Proof.
  intros Hn. destruct (exists_now w p) eqn:E0.
  - apply exists_now_app. by left.
  - apply not_true_is_false. intros H. apply exists_now_app in H.
    destruct H as [H|[H _]]; [congruence | by apply (Hn p)].
Qed.

(** One directory: looked for, and created when it is not there; a failure
    of [os.makedirs] is not handled. *)
Lemma check_directory_run (d : string) (w : World) :
  bind (os_path_exists d)
    (λ present : bool,
       if present then py_print ("✅ " +:+ d +:+ "/")
       else bind (py_print ("⚠️  " +:+ d +:+ "/ (将自动创建)"))
              (λ _, os_makedirs d)) w =
  (if exists_now w d then Return tt
   else match makedirs_error (env w) d with
        | Some e => Raise e
        | None => Return tt
        end,
   with_trace
     (trace w ++
      if exists_now w d
      then [PathExists d; Print ("✅ " +:+ d +:+ "/") []]
      else [PathExists d; Print ("⚠️  " +:+ d +:+ "/ (将自动创建)") [];
            Makedirs d]) w).
Proof.
  destruct w as [en cm db an sid cfg st fs inp tk sys tr].
  unfold os_path_exists, os_makedirs, py_print, exists_now.
  rewrite ?bind_bind, bind_emit. flat. rewrite bind_get. flat.
  assert (Hsame :
    match makedirs_error en d with
    | Some _ => false
    | None => existsb (λ c, match c with
                            | Makedirs p => bool_decide (p = d)
                            | _ => false
                            end) (tr ++ [PathExists d])
    end =
    match makedirs_error en d with
    | Some _ => false
    | None => existsb (λ c, match c with
                            | Makedirs p => bool_decide (p = d)
                            | _ => false
                            end) tr
    end).
  { destruct (makedirs_error en d); [done|].
    rewrite existsb_app. cbn [existsb]. by rewrite !orb_false_r. }
  rewrite Hsame.
  destruct (path_exists en d || _).
  - unfold emit, modify. flat. by rewrite <- !app_assoc.
  - rewrite bind_emit. flat. rewrite ?bind_bind, bind_emit. flat.
    rewrite bind_ask. flat.
    destruct (makedirs_error en d);
      unfold raise, ret; by rewrite <- !app_assoc.
Qed.

(** The directories, as long as every creation succeeds. *)
Lemma check_directories_run (l : list string) (w : World) :
  (∀ d, d ∈ l → exists_now w d = false → makedirs_error (env w) d = None) →
  ∃ t,
    for_each l
      (λ d, bind (os_path_exists d)
              (λ present : bool,
                 if present then py_print ("✅ " +:+ d +:+ "/")
                 else bind (py_print ("⚠️  " +:+ d +:+ "/ (将自动创建)"))
                        (λ _, os_makedirs d))) w =
      (Return tt, with_trace (trace w ++ t) w) ∧
    ∀ p, Makedirs p ∈ t ↔ p ∈ l ∧ exists_now w p = false.
Proof.
  revert w. induction l as [|d l IH]; intros w Hok.
  - exists []. cbn. unfold ret. rewrite with_trace_nil. split; [done|].
    intros p. split; [by intros H%elem_of_nil | by intros [H%elem_of_nil _]].
  - cbn [for_each]. unfold bind at 1. rewrite check_directory_run.
    set (t1 := if exists_now w d then [_; _] else _).
    assert (Hret : (if exists_now w d then Return tt
                    else match makedirs_error (env w) d with
                         | Some e => Raise e
                         | None => Return tt
                         end) = Return tt).
    { destruct (exists_now w d) eqn:Hd; [done|].
      rewrite (Hok d) by (done || by left). done. }
    rewrite Hret.
    assert (H1 : ∀ p, Makedirs p ∈ t1 ↔ p = d ∧ exists_now w p = false).
    { intros p. unfold t1. destruct (exists_now w d) eqn:Hd.
      - rewrite !elem_of_cons, elem_of_nil. split.
        + intros [H|[H|H]]; [discriminate | discriminate | done].
        + intros [-> H]. congruence.
      - rewrite !elem_of_cons, elem_of_nil. split.
        + intros [H|[H|[H|H]]]; [discriminate | discriminate | | done].
          injection H as ->. done.
        + intros [-> _]. auto. }
    destruct (IH (with_trace (trace w ++ t1) w)) as (t2 & -> & Hiff).
    { intros x Hx Hno. apply (Hok x); [by right|].
      destruct (exists_now w x) eqn:E0; [|done].
      rewrite (proj2 (exists_now_app w t1 x)) in Hno by by left. done. }
    exists (t1 ++ t2). rewrite with_trace_app. split; [done|].
    intros p. rewrite elem_of_app, Hiff, elem_of_cons, H1.
    pose proof (exists_now_app w t1 p) as Hex. rewrite H1 in Hex.
    destruct (exists_now (with_trace (trace w ++ t1) w) p) eqn:E1;
      destruct (exists_now w p) eqn:E0.
    + clear Hex. intuition congruence.
    + destruct Hex as [[?|[[Hpd _] _]] _]; [done | done |].
      clear H1. intuition congruence.
    + destruct Hex as [_ Hex]. discriminate Hex. by left.
    + clear Hex. intuition congruence.
Qed.

(** The directories, up to the first one that cannot be created. *)
Lemma check_directories_stop (l1 l2 : list string) (d : string) (e : exn)
    (w : World) :
  (∀ x, x ∈ l1 → exists_now w x = false → makedirs_error (env w) x = None) →
  exists_now w d = false →
  makedirs_error (env w) d = Some e →
  ∃ t,
    for_each (l1 ++ d :: l2)
      (λ d, bind (os_path_exists d)
              (λ present : bool,
                 if present then py_print ("✅ " +:+ d +:+ "/")
                 else bind (py_print ("⚠️  " +:+ d +:+ "/ (将自动创建)"))
                        (λ _, os_makedirs d))) w =
      (Raise e,
       with_trace
         (trace w ++ t ++
          [PathExists d; Print ("⚠️  " +:+ d +:+ "/ (将自动创建)") [];
           Makedirs d]) w) ∧
    ∀ p, Makedirs p ∈ t ↔ p ∈ l1 ∧ exists_now w p = false.
Proof.
  intros Hok Hd He.
  destruct (check_directories_run l1 w Hok) as (t & Hrun & Hiff).
  exists t. split; [|exact Hiff].
  rewrite for_each_app. unfold bind at 1. rewrite Hrun.
  cbn [for_each]. unfold bind at 1. rewrite check_directory_run.
  assert (Hd1 : exists_now (with_trace (trace w ++ t) w) d = false).
  { apply not_true_is_false. intros H. apply exists_now_app in H.
    destruct H as [H|[_ H]]; congruence. }
  rewrite Hd1.
  assert (He1 : makedirs_error (env (with_trace (trace w ++ t) w)) d = Some e)
    by exact He.
  rewrite He1. by rewrite with_trace_app.
Qed.

Lemma check_files_run (l : list string) (w : World) :
  ∃ t,
    for_each l
      (λ file, bind (os_path_exists file)
                 (λ present : bool,
                    if present then py_print ("✅ " +:+ file)
                    else py_print ("❌ " +:+ file +:+ " (缺失)"))) w =
      (Return tt, with_trace (trace w ++ t) w) ∧
    ∀ p, Makedirs p ∉ t.
Proof.
  revert w. induction l as [|f l IH]; intros w.
  - exists []. cbn. unfold ret. rewrite with_trace_nil. split; [done|].
    intros p. apply not_elem_of_nil.
  - cbn [for_each]. unfold bind at 1.
    assert (H1 : ∃ t1,
      bind (os_path_exists f)
        (λ present : bool,
           if present then py_print ("✅ " +:+ f)
           else py_print ("❌ " +:+ f +:+ " (缺失)")) w =
      (Return tt, with_trace (trace w ++ t1) w) ∧ ∀ p, Makedirs p ∉ t1).
    { destruct w as [en cm db an sid cfg st fs inp tk sys tr].
      unfold os_path_exists, py_print.
      rewrite ?bind_bind, bind_emit. flat. rewrite bind_get. flat.
      destruct (path_exists en f || _);
        unfold emit, modify; flat; rewrite <- !app_assoc;
        (eexists; split; [reflexivity|]);
        intros p; cbn [app]; rewrite !elem_of_cons, elem_of_nil;
        intros [H|[H|H]]; done. }
    destruct H1 as (t1 & -> & Hn1).
    destruct (IH (with_trace (trace w ++ t1) w)) as (t2 & -> & Hn2).
    exists (t1 ++ t2). rewrite with_trace_app. split; [done|].
    intros p. rewrite elem_of_app.
    intros [H|H]; [by apply (Hn1 p) | by apply (Hn2 p)].
Qed.

(** The check up to its loop over the directories. *)
Lemma check_project_files_enter (w : World) :
  ∃ t0,
    (∀ q, Makedirs q ∉ t0) ∧
    _check_project_files w =
      for_each required_dirs
        (λ d, bind (os_path_exists d)
                (λ present : bool,
                   if present then py_print ("✅ " +:+ d +:+ "/")
                   else bind (py_print ("⚠️  " +:+ d +:+ "/ (将自动创建)"))
                          (λ _, os_makedirs d)))
        (with_trace (trace w ++ t0) w).
Proof.
  unfold _check_project_files. rewrite bind_py_print.
  set (w0 := with_trace _ w). unfold bind at 1.
  destruct (check_files_run required_files w0) as (t1 & -> & Hn1).
  exists ([Print (nl +:+ "📁 检查项目文件...") []] ++ t1).
  subst w0. rewrite with_trace_app. split; [|done].
  intros q. rewrite elem_of_app, elem_of_cons, elem_of_nil.
  intros [[H|[]]|H]; [discriminate | by apply (Hn1 q)].
Qed.

Lemma new_calls_with_trace (w : World) (t : list Call) :
  new_calls w (with_trace (trace w ++ t) w) = t.
Proof. unfold new_calls. destruct w. cbn. by rewrite drop_app_length. Qed.

Lemma check_project_files_run (w : World) :
  (∀ d, d ∈ required_dirs → exists_now w d = false →
        makedirs_error (env w) d = None) →
  ∃ t,
    _check_project_files w = (Return tt, with_trace (trace w ++ t) w) ∧
    ∀ p, Makedirs p ∈ t ↔ p ∈ required_dirs ∧ exists_now w p = false.
Proof.
  intros Hok. destruct (check_project_files_enter w) as (t0 & Hn0 & ->).
  destruct (check_directories_run required_dirs
              (with_trace (trace w ++ t0) w)) as (t2 & -> & Hiff).
  { intros d Hd. rewrite exists_now_same by exact Hn0. by apply Hok. }
  exists (t0 ++ t2). rewrite with_trace_app. split; [done|].
  intros p. rewrite elem_of_app, Hiff, exists_now_same by exact Hn0.
  split; [intros [H|H]; [by destruct (Hn0 p) | done] | auto].
Qed.

(** X21. Checking the project files creates the required directories that
    are missing, and nothing else.  As long as [os.makedirs] succeeds, it is
    called for exactly the required directories that did not exist, so that
    afterwards all four exist, and a second check creates nothing.  A
    failure of [os.makedirs] is not handled: the first directory that cannot
    be created ends the check with that exception; the failing call is its
    last call, so the directories after it are not created. *)
Theorem check_project_files_creates_missing_directories (w : World) :
  ((∀ d, d ∈ required_dirs → exists_now w d = false →
         makedirs_error (env w) d = None) →
   (_check_project_files w).1 = Return tt ∧
   (∀ p, Makedirs p ∈ new_calls w (_check_project_files w).2 ↔
         p ∈ required_dirs ∧ exists_now w p = false) ∧
   (∀ d, d ∈ required_dirs →
         exists_now (_check_project_files w).2 d = true) ∧
   (∀ p, Makedirs p ∉
         new_calls (_check_project_files w).2
           (_check_project_files (_check_project_files w).2).2)) ∧
  (∀ l1 d l2 e,
     required_dirs = l1 ++ d :: l2 →
     (∀ x, x ∈ l1 → exists_now w x = false →
           makedirs_error (env w) x = None) →
     exists_now w d = false →
     makedirs_error (env w) d = Some e →
     (_check_project_files w).1 = Raise e ∧
     last (new_calls w (_check_project_files w).2) = Some (Makedirs d) ∧
     (∀ p, Makedirs p ∈ new_calls w (_check_project_files w).2 →
           p ∈ l1 ∨ p = d)).
Proof.
  split.
  - intros Hok.
    destruct (check_project_files_run w Hok) as (t & E & Hiff).
    assert (Hafter : ∀ d, d ∈ required_dirs →
              exists_now (_check_project_files w).2 d = true).
    { intros d Hd. rewrite E. cbn [snd]. apply exists_now_app.
      destruct (exists_now w d) eqn:E0; [by left | right].
      split; [by apply Hiff | by apply Hok]. }
    split; [by rewrite E|]. split; [|split; [exact Hafter|]].
    + intros p. rewrite E. cbn [snd]. by rewrite new_calls_with_trace.
    + intros p.
      destruct (check_project_files_run (_check_project_files w).2)
        as (t' & E' & Hiff').
      { intros d Hd Hno. rewrite (Hafter d Hd) in Hno. done. }
      rewrite E'. cbn [snd]. rewrite new_calls_with_trace, Hiff'.
      intros [Hin Hno]. rewrite (Hafter p Hin) in Hno. done.
  - intros l1 d l2 e Hl Hok Hd He.
    destruct (check_project_files_enter w) as (t0 & Hn0 & ->).
    rewrite Hl.
    destruct (check_directories_stop l1 l2 d e
                (with_trace (trace w ++ t0) w)) as (t & -> & Hiff).
    { intros x Hx. rewrite exists_now_same by exact Hn0. by apply Hok. }
    { by rewrite exists_now_same. }
    { exact He. }
    rewrite with_trace_app. cbn [fst snd]. rewrite new_calls_with_trace.
    split; [done|]. split.
    + by rewrite !last_app.
    + intros p. rewrite !elem_of_app, Hiff, !elem_of_cons, elem_of_nil.
      intros [H|[[H _]|[H|[H|[H|[]]]]]];
        [by destruct (Hn0 p) | by left | discriminate | discriminate |].
      injection H as ->. by right.
Qed.

(** One dependency: the import is tried, and an [ImportError] reported. *)
Lemma check_dependency_run (module description : string) (w : World) :
  import_caught (env w) module →
  try_except
    (bind (import_module module)
       (λ _, py_print ("✅ " +:+ module +:+ " - " +:+ description)))
    (λ e, match e with
          | ImportError _ =>
              Some (py_print ("❌ " +:+ module +:+ " - " +:+ description
                              +:+ " (未安装)"))
          | _ => None
          end) w =
  (Return tt,
   with_trace
     (trace w ++ dependency_report (env w) (module, description)) w).
Proof.
  intros Hc. destruct w as [en cm db an sid cfg st fs inp tk sys tr].
  unfold import_caught, dependency_report in *. cbn [env fst snd] in *.
  unfold try_except, import_module, py_print.
  rewrite ?bind_bind, bind_emit. flat. rewrite ?bind_bind, bind_ask. flat.
  destruct (importable en module).
  - rewrite bind_ret. unfold emit, modify. flat. by rewrite <- !app_assoc.
  - destruct Hc as [Hc|[msg Hc]]; [discriminate|].
    rewrite ?bind_bind, bind_ask. flat. rewrite bind_raise, Hc.
    unfold emit, modify. flat. by rewrite <- !app_assoc.
Qed.

(** Any other exception of the import is not handled. *)
Lemma check_dependency_stop (module description : string) (w : World) :
  importable (env w) module = false →
  (∀ msg, import_error (env w) module ≠ ImportError msg) →
  try_except
    (bind (import_module module)
       (λ _, py_print ("✅ " +:+ module +:+ " - " +:+ description)))
    (λ e, match e with
          | ImportError _ =>
              Some (py_print ("❌ " +:+ module +:+ " - " +:+ description
                              +:+ " (未安装)"))
          | _ => None
          end) w =
  (Raise (import_error (env w) module),
   with_trace (trace w ++ [ImportModule module]) w).
Proof.
  intros Hi Hn. destruct w as [en cm db an sid cfg st fs inp tk sys tr].
  cbn [env] in *.
  unfold try_except, import_module, py_print.
  rewrite ?bind_bind, bind_emit. flat. rewrite ?bind_bind, bind_ask. flat.
  rewrite Hi. rewrite ?bind_bind, bind_ask. flat. rewrite bind_raise.
  destruct (import_error en module) as [| | | |msg| | | |] eqn:E;
    try reflexivity.
  by destruct (Hn msg).
Qed.

Lemma check_dependencies_run (l : list (string * string)) (w : World) :
  (∀ m d, (m, d) ∈ l → import_caught (env w) m) →
  for_each l
    (λ '(module, description),
       try_except
         (bind (import_module module)
            (λ _, py_print ("✅ " +:+ module +:+ " - " +:+ description)))
         (λ e, match e with
               | ImportError _ =>
                   Some (py_print ("❌ " +:+ module +:+ " - " +:+ description
                                   +:+ " (未安装)"))
               | _ => None
               end)) w =
  (Return tt,
   with_trace (trace w ++ flat_map (dependency_report (env w)) l) w).
Proof.
  revert w. induction l as [|[m d] l IH]; intros w Hc.
  - cbn. unfold ret. by rewrite with_trace_nil.
  - cbn [for_each flat_map]. unfold bind at 1.
    rewrite check_dependency_run by (apply (Hc m d); by left).
    rewrite IH by (intros m' d' H; apply (Hc m' d'); by right).
    by rewrite with_trace_app.
Qed.

(** X22. The dependency check handles [ImportError] and nothing else.  As
    long as every module imports or raises [ImportError], the check returns
    normally, having imported each of the eight modules once, in the order
    of the list, and reported each as present or as not installed.  The
    first module whose import raises anything else ends the check with that
    exception right after the import: the modules after it are not
    tried. *)
Theorem check_dependencies_tries_every_module (w : World) :
  ((∀ m d, (m, d) ∈ dependencies → import_caught (env w) m) →
   (_check_dependencies w).1 = Return tt ∧
   new_calls w (_check_dependencies w).2 =
     Print (nl +:+ "📦 检查Python依赖...") [] ::
     flat_map (dependency_report (env w)) dependencies) ∧
  (∀ l1 m d l2,
     dependencies = l1 ++ (m, d) :: l2 →
     (∀ m' d', (m', d') ∈ l1 → import_caught (env w) m') →
     importable (env w) m = false →
     (∀ msg, import_error (env w) m ≠ ImportError msg) →
     (_check_dependencies w).1 = Raise (import_error (env w) m) ∧
     new_calls w (_check_dependencies w).2 =
       Print (nl +:+ "📦 检查Python依赖...") [] ::
       flat_map (dependency_report (env w)) l1 ++ [ImportModule m]).
Proof.
  split.
  - intros Hc. unfold _check_dependencies. rewrite bind_py_print.
    rewrite check_dependencies_run by exact Hc.
    rewrite with_trace_app. cbn [fst snd]. by rewrite new_calls_with_trace.
  - intros l1 m d l2 Hl Hc Hi Hn.
    assert (E : _check_dependencies w =
      (Raise (import_error (env w) m),
       with_trace
         (trace w ++
          [Print (nl +:+ "📦 检查Python依赖...") []] ++
          flat_map (dependency_report (env w)) l1 ++ [ImportModule m]) w)).
    { unfold _check_dependencies. rewrite bind_py_print, Hl.
      rewrite for_each_app. unfold bind at 1.
      rewrite check_dependencies_run by exact Hc.
      cbn [for_each]. unfold bind at 1.
      rewrite check_dependency_stop by done.
      by rewrite !with_trace_app. }
    rewrite E. cbn [fst snd]. by rewrite new_calls_with_trace.
Qed.

(** X23. Initialising the configuration from the project-setup menu reports
    success whatever [create_sample_config] answers: its result is dropped,
    so a sample file that could not be written is announced as
    initialised. *)
Theorem init_config_ignores_failure (w : World) :
  CONFIG_AVAILABLE (env w) = true →
  config_manager w = true →
  create_sample_config_ok (env w) = false →
  (_init_config w).1 = Return tt ∧
  new_calls w (_init_config w).2 =
    [ConfigManager (CreateSampleConfig (Some "config.yaml"));
     Print "✅ 配置文件已初始化" []].
Proof.
  intros Hc Hcm _. destruct w as [en cm db an sid cfg st fs inp tk sys tr].
  cbn in Hc, Hcm. subst cm.
  unfold _init_config, create_sample_config, config_manager_method, new_calls.
  rewrite bind_ask. flat. rewrite Hc.
  rewrite ?bind_bind, bind_get. flat.
  rewrite ?bind_bind, bind_emit. flat.
  rewrite ?bind_bind, bind_ask. flat.
  unfold py_print, emit, modify. flat. cbn [fst snd]. flat.
  split; [reflexivity|]. by rewrite <- app_assoc, drop_app_length.
Qed.

(** ** The further properties at work on the concrete installation *)

Lemma only_start_training_assigns_session_id_witness :
  "0" ≠ "1" ∧
  current_session_id
    (dispatch 1 "0"
       (start_training (demo_world (demo_env engine_ok) [])).2).2 =
    Some "train_20240101_000000".
Proof.
  split; [discriminate|].
  rewrite (only_start_training_assigns_session_id 1 "0") by discriminate.
  reflexivity.
Defined.

Lemma only_config_management_changes_config_witness :
  "1" ≠ "4" ∧
  config (dispatch 1 "1" (demo_world (demo_env engine_ok) [])).2 =
    demo_config.
Proof.
  split; [discriminate|].
  rewrite (only_config_management_changes_config 1 "1") by discriminate.
  reflexivity.
Defined.

Lemma no_database_no_database_call_witness :
  DATABASE_AVAILABLE (no_database_env engine_ok) = false ∧
  store (main 3 (no_database_env engine_ok) demo_config empty_store ∅
           [Line "1"; Line "0"]).2 = empty_store.
Proof.
  split; [reflexivity|].
  exact (proj1 (no_database_no_database_call 3 (no_database_env engine_ok)
                  demo_config empty_store ∅ [Line "1"; Line "0"] eq_refl)).
Defined.

Lemma browsing_menus_leave_telemetry_witness :
  (("7" ∉ ["0"; "1"; "2"; "4"; "5"]) ∧
   (Sigint ∉ stdin (demo_world (demo_env engine_ok) [Line ""]))) ∧
  store (dispatch 1 "7" (demo_world (demo_env engine_ok) [Line ""])).2 =
    empty_store.
Proof.
  assert (H1 : "7" ∉ ["0"; "1"; "2"; "4"; "5"]).
  { rewrite !not_elem_of_cons. repeat split; try discriminate.
    apply not_elem_of_nil. }
  assert (H2 : Sigint ∉ stdin (demo_world (demo_env engine_ok) [Line ""])).
  { intros H. apply elem_of_cons in H as [H|H]; [discriminate|].
    by apply elem_of_nil in H. }
  split; [by split|].
  destruct (browsing_menus_leave_telemetry 1 "7"
              (demo_world (demo_env engine_ok) [Line ""]) H1 H2)
    as (_ & _ & Hs & _).
  exact Hs.
Defined.

Lemma main_menu_spins_at_end_of_input_witness :
  stdin (demo_world (demo_env engine_ok) []) = [] ∧
  (show_main_menu 3 (demo_world (demo_env engine_ok) [])).1 = OutOfFuel.
Proof.
  split; [reflexivity|].
  exact (main_menu_spins_at_end_of_input 3
           (demo_world (demo_env engine_ok) []) eq_refl).
Defined.

Lemma menu_exit_shuts_down_witness :
  (stdin (demo_world (demo_env engine_ok) [Line "0"; Line "1"]) =
     [Line "0"; Line "1"] ∧
   py_strip (demo_env engine_ok) "0" = "0") ∧
  (show_main_menu 1
     (demo_world (demo_env engine_ok) [Line "0"; Line "1"])).1 = Return tt ∧
  stdin (show_main_menu 1
           (demo_world (demo_env engine_ok) [Line "0"; Line "1"])).2 =
    [Line "1"].
Proof.
  split; [by split|].
  destruct (menu_exit_shuts_down 0
              (demo_world (demo_env engine_ok) [Line "0"; Line "1"])
              "0" [Line "1"] eq_refl eq_refl) as (H1 & H2 & _).
  by split.
Defined.

Lemma system_exit_leaves_menu_witness :
  menu_try 1 (menu_banner (demo_world (demo_env engine_ok) [Sigint])).2 =
    (Raise (SystemExit 0),
     (menu_try 1
        (menu_banner (demo_world (demo_env engine_ok) [Sigint])).2).2) ∧
  (show_main_menu 1 (demo_world (demo_env engine_ok) [Sigint])).1 =
    Raise (SystemExit 0).
Proof.
  assert (H : menu_try 1
                (menu_banner (demo_world (demo_env engine_ok) [Sigint])).2 =
    (Raise (SystemExit 0),
     (menu_try 1
        (menu_banner (demo_world (demo_env engine_ok) [Sigint])).2).2))
    by (vm_compute; reflexivity).
  split; [exact H|].
  rewrite (system_exit_leaves_menu 0 _ _ _ H). reflexivity.
Defined.

Lemma keyboard_interrupt_shuts_down_witness :
  menu_try 1
    (menu_banner
       (demo_world (demo_env engine_keyboard_interrupt) [Line "1"])).2 =
    (Raise KeyboardInterrupt,
     (menu_try 1
        (menu_banner
           (demo_world (demo_env engine_keyboard_interrupt) [Line "1"])).2).2) ∧
  (show_main_menu 1
     (demo_world (demo_env engine_keyboard_interrupt) [Line "1"])).1 =
    Return tt.
Proof.
  assert (H : menu_try 1
    (menu_banner
       (demo_world (demo_env engine_keyboard_interrupt) [Line "1"])).2 =
    (Raise KeyboardInterrupt,
     (menu_try 1
        (menu_banner
           (demo_world (demo_env engine_keyboard_interrupt) [Line "1"])).2).2))
    by (vm_compute; reflexivity).
  split; [exact H|].
  rewrite (keyboard_interrupt_shuts_down 0 _ _ H). reflexivity.
Defined.

Lemma sigint_at_menu_exits_witness :
  stdin (demo_world (demo_env engine_ok) [Sigint; Line "1"]) =
    [Sigint; Line "1"] ∧
  (show_main_menu 1
     (demo_world (demo_env engine_ok) [Sigint; Line "1"])).1 =
    Raise (SystemExit 0).
Proof.
  split; [reflexivity|].
  exact (proj1 (sigint_at_menu_exits 0
                  (demo_world (demo_env engine_ok) [Sigint; Line "1"])
                  [Line "1"] eq_refl)).
Defined.

Lemma unstarted_run_is_recorded_completed_witness :
  (constructed (demo_world (demo_env engine_not_initialising) []) ∧
   never_starts (demo_world (demo_env engine_not_initialising) [])) ∧
  session_status <$>
    get_session "train_20240101_000000"
      (store (start_training
                (demo_world (demo_env engine_not_initialising) [])).2) =
    Some completed.
Proof.
  assert (H1 : constructed (demo_world (demo_env engine_not_initialising) []))
    by (repeat split).
  assert (H2 : never_starts (demo_world (demo_env engine_not_initialising) [])).
  { right. split; [left; reflexivity | split; reflexivity]. }
  split; [by split|].
  destruct (unstarted_run_is_recorded_completed
              (demo_world (demo_env engine_not_initialising) [])
              eq_refl eq_refl H1 H2) as (_ & _ & H).
  exact (H eq_refl eq_refl).
Defined.

Lemma no_traffic_system_no_run_witness :
  TRAFFIC_SYSTEM_AVAILABLE (no_traffic_env engine_ok) = false ∧
  (start_training (demo_world (no_traffic_env engine_ok) [])).1 = Return tt ∧
  current_session_id
    (start_training (demo_world (no_traffic_env engine_ok) [])).2 = None.
Proof.
  split; [reflexivity|].
  rewrite (proj1 (no_traffic_system_no_run
                    (demo_world (no_traffic_env engine_ok) []) eq_refl)).
  by split.
Defined.

Lemma analysis_without_database_fails_witness :
  (ANALYZER_AVAILABLE (no_database_env engine_ok) = true ∧
   DATABASE_AVAILABLE (no_database_env engine_ok) = false ∧
   constructed (demo_world (no_database_env engine_ok) [Line "1"])) ∧
  (performance_analysis 1
     (demo_world (no_database_env engine_ok) [Line "1"])).1 =
    Raise (attribute_of_None "get_training_sessions").
Proof.
  assert (H : constructed (demo_world (no_database_env engine_ok) [Line "1"]))
    by (repeat split).
  split; [by repeat split|].
  exact (proj1 (analysis_without_database_fails 0
                  (demo_world (no_database_env engine_ok) [Line "1"])
                  "1" [] eq_refl eq_refl H eq_refl) (or_introl eq_refl)).
Defined.

Lemma cleanup_only_on_confirmation_witness :
  (database (demo_world (demo_env engine_ok) [Line "7"; Line "n"]) = true ∧
   retention_days (demo_env engine_ok) "7" = Some 7%Z) ∧
  new_calls (demo_world (demo_env engine_ok) [Line "7"; Line "n"])
    (cleanup_menu
       (demo_world (demo_env engine_ok) [Line "7"; Line "n"])).2 =
    [Input "保留多少天的数据 (默认30天): " [];
     Input "确认删除 {days} 天前的数据? (y/N): " [PyInt 7]].
Proof.
  assert (H : retention_days (demo_env engine_ok) "7" = Some 7%Z)
    by (vm_compute; reflexivity).
  split; [by split|].
  destruct (cleanup_only_on_confirmation
              (demo_world (demo_env engine_ok) [Line "7"; Line "n"])
              "7" "n" [] 7 eq_refl eq_refl H) as (_ & Hno & _).
  apply Hno. discriminate.
Defined.

Lemma export_rejects_bad_number_witness :
  get_sessions 10
    (store (start_training
              (demo_world (demo_env engine_ok) [Line "9"])).2) ≠ [] ∧
  (export_menu
     (start_training (demo_world (demo_env engine_ok) [Line "9"])).2).1 =
    Return tt ∧
  files (export_menu
           (start_training
              (demo_world (demo_env engine_ok) [Line "9"])).2).2 = ∅.
Proof.
  assert (H1 : get_sessions 10
    (store (start_training
              (demo_world (demo_env engine_ok) [Line "9"])).2) ≠ [])
    by (vm_compute; discriminate).
  assert (H2 :
    match py_int
            (env (start_training
                    (demo_world (demo_env engine_ok) [Line "9"])).2) "9"
    with
    | Some n =>
        ¬ (1 ≤ n ≤ Z.of_nat
             (length
                (get_sessions 10
                   (store (start_training
                             (demo_world (demo_env engine_ok)
                                [Line "9"])).2))))%Z
    | None => True
    end).
  { vm_compute. intros [_ H]. by apply H. }
  split; [exact H1|].
  destruct (export_rejects_bad_number
              (start_training (demo_world (demo_env engine_ok) [Line "9"])).2
              "9" [] eq_refl eq_refl H1 H2) as (Hr & Hf & _).
  split; [exact Hr|]. rewrite Hf. reflexivity.
Defined.

Lemma export_writes_chosen_session_witness :
  get_sessions 10
    (store (start_training
              (demo_world (demo_env engine_ok) [Line "1"])).2)
    !! Z.to_nat (1 - 1) =
    Some ("train_20240101_000000",
          {| start_time := Datetime 2024 1 1 0 0 1 0;
             end_time := Some (Datetime 2024 1 1 0 0 3 0);
             session_status := completed;
             config_snapshot := config_dict_of demo_config;
             total_episodes := 0; best_score := 0%float;
             result_payload := Some completed_result |}) ∧
  is_Some
    (files (export_menu
              (start_training
                 (demo_world (demo_env engine_ok) [Line "1"])).2).2
       !! "export_train_20240101_000000.json").
Proof.
  assert (H : get_sessions 10
    (store (start_training
              (demo_world (demo_env engine_ok) [Line "1"])).2)
    !! Z.to_nat (1 - 1) =
    Some ("train_20240101_000000",
          {| start_time := Datetime 2024 1 1 0 0 1 0;
             end_time := Some (Datetime 2024 1 1 0 0 3 0);
             session_status := completed;
             config_snapshot := config_dict_of demo_config;
             total_episodes := 0; best_score := 0%float;
             result_payload := Some completed_result |}))
    by (vm_compute; reflexivity).
  assert (Hok : (export (writable (demo_env engine_ok))
                   "train_20240101_000000"
                   ("export_" +:+ "train_20240101_000000" +:+ ".json")
                   (store (start_training
                      (demo_world (demo_env engine_ok) [Line "1"])).2)
                   (files (start_training
                      (demo_world (demo_env engine_ok) [Line "1"])).2)).1
                = None)
    by (vm_compute; reflexivity).
  split; [exact H|].
  exact (proj1 (proj2 (export_writes_chosen_session
           (start_training (demo_world (demo_env engine_ok) [Line "1"])).2
           "1" [] 1 "train_20240101_000000" _
           eq_refl eq_refl eq_refl eq_refl H Hok))).
Defined.

Lemma config_edit_sets_max_episodes_witness :
  (py_int (demo_env engine_ok) "3" = Some 3%Z ∧
   py_int (demo_env engine_ok) "250" = Some 250%Z) ∧
  config (config_management 2
            (demo_world (demo_env engine_ok)
               [Line "2"; Line "3"; Line "250"; Line "0"])).2 =
    set_max_episodes 250 demo_config.
Proof.
  split; [by split|].
  exact (proj1 (proj2 (config_edit_sets_max_episodes 0
           (demo_world (demo_env engine_ok)
              [Line "2"; Line "3"; Line "250"; Line "0"])
           "2" "3" "250" "0" [] 250
           eq_refl eq_refl eq_refl eq_refl eq_refl eq_refl eq_refl))).
Defined.

Lemma config_unknown_item_changes_nothing_witness :
  py_int (demo_env engine_ok) "x" = None ∧
  config (config_management 2
            (demo_world (demo_env engine_ok)
               [Line "2"; Line "x"; Line "0"])).2 = demo_config ∧
  Print ("❌ 配置更新失败: " +:+
         "invalid literal for int() with base 10: 'x'") [] ∈
    new_calls (demo_world (demo_env engine_ok) [Line "2"; Line "x"; Line "0"])
      (config_management 2
         (demo_world (demo_env engine_ok)
            [Line "2"; Line "x"; Line "0"])).2.
Proof.
  split; [reflexivity|].
  destruct (config_unknown_item_changes_nothing 0
              (demo_world (demo_env engine_ok) [Line "2"; Line "x"; Line "0"])
              "2" "x" "0" [] eq_refl eq_refl eq_refl eq_refl I eq_refl)
    as (_ & Hc & _ & Hp & _).
  split; [exact Hc | exact Hp].
Defined.

Lemma config_unparsable_value_changes_nothing_witness :
  (py_int (demo_env engine_ok) "3" = Some 3%Z ∧
   py_int (demo_env engine_ok) "many" = None) ∧
  config (config_management 2
            (demo_world (demo_env engine_ok)
               [Line "2"; Line "3"; Line "many"; Line "0"])).2 =
    demo_config.
Proof.
  split; [by split|].
  assert (Hk : (1 ≤ 3 ≤ 5)%Z) by lia.
  exact (proj1 (proj2 (config_unparsable_value_changes_nothing 0
           (demo_world (demo_env engine_ok)
              [Line "2"; Line "3"; Line "many"; Line "0"])
           "2" "3" "many" "0" [] 3
           eq_refl eq_refl eq_refl eq_refl eq_refl
           (λ _, eq_refl) (λ _, eq_refl) Hk eq_refl))).
Defined.

Lemma sub_menus_raise_at_end_of_input_witness :
  stdin (demo_world (demo_env engine_ok) []) = [] ∧
  (project_setup 1 (demo_world (demo_env engine_ok) [])).1 =
    Raise (EOFError "EOF when reading a line").
Proof.
  split; [reflexivity|].
  exact (proj2 (proj2 (proj2
           (sub_menus_raise_at_end_of_input 0
              (demo_world (demo_env engine_ok) []) eq_refl)))).
Defined.

Lemma init_config_ignores_failure_witness :
  create_sample_config_ok (failing_sample_env engine_ok) = false ∧
  new_calls (demo_world (failing_sample_env engine_ok) [])
    (_init_config (demo_world (failing_sample_env engine_ok) [])).2 =
    [ConfigManager (CreateSampleConfig (Some "config.yaml"));
     Print "✅ 配置文件已初始化" []].
Proof.
  split; [reflexivity|].
  exact (proj2 (init_config_ignores_failure
                  (demo_world (failing_sample_env engine_ok) [])
                  eq_refl eq_refl eq_refl)).
Defined.

Lemma check_project_files_creates_missing_directories_witness :
  ((∀ d, d ∈ required_dirs →
         exists_now (demo_world (fresh_checkout_env engine_ok) []) d = false →
         makedirs_error (fresh_checkout_env engine_ok) d = None) ∧
   exists_now (demo_world (broken_checkout_env engine_ok) []) "logs" = false ∧
   makedirs_error (broken_checkout_env engine_ok) "logs" =
     Some (OtherException "[Errno 13] Permission denied: 'logs'")) ∧
  (∀ d, d ∈ required_dirs →
        exists_now
          (_check_project_files
             (demo_world (fresh_checkout_env engine_ok) [])).2 d = true) ∧
  (_check_project_files (demo_world (broken_checkout_env engine_ok) [])).1 =
    Raise (OtherException "[Errno 13] Permission denied: 'logs'").
Proof.
  assert (H1 : ∀ d, d ∈ required_dirs →
            exists_now (demo_world (fresh_checkout_env engine_ok) []) d = false →
            makedirs_error (fresh_checkout_env engine_ok) d = None)
    by (intros d _ _; reflexivity).
  split; [by repeat split|].
  destruct (check_project_files_creates_missing_directories
              (demo_world (fresh_checkout_env engine_ok) [])) as [HA _].
  destruct (check_project_files_creates_missing_directories
              (demo_world (broken_checkout_env engine_ok) [])) as [_ HB].
  split; [exact (proj1 (proj2 (proj2 (HA H1))))|].
  refine (proj1 (HB ["models"] "logs" ["data"; "analysis_output"]
                   (OtherException "[Errno 13] Permission denied: 'logs'")
                   eq_refl _ eq_refl eq_refl)).
  intros x Hx _. apply elem_of_cons in Hx as [->|Hx]; [reflexivity|].
  by apply elem_of_nil in Hx.
Defined.

Lemma check_dependencies_tries_every_module_witness :
  ((∀ m d, (m, d) ∈ dependencies →
           import_caught (fresh_checkout_env engine_ok) m) ∧
   importable (broken_checkout_env engine_ok) "torch" = false ∧
   (∀ msg, import_error (broken_checkout_env engine_ok) "torch" ≠
           ImportError msg)) ∧
  (_check_dependencies (demo_world (fresh_checkout_env engine_ok) [])).1 =
    Return tt ∧
  (_check_dependencies (demo_world (broken_checkout_env engine_ok) [])).1 =
    Raise (OtherException "libcudart.so: cannot open shared object file").
Proof.
  assert (H1 : ∀ m d, (m, d) ∈ dependencies →
                 import_caught (fresh_checkout_env engine_ok) m).
  { intros m d _. right. eexists. reflexivity. }
  assert (H2 : ∀ msg, import_error (broken_checkout_env engine_ok) "torch" ≠
                      ImportError msg)
    by (intros msg; discriminate).
  split; [by repeat split|].
  destruct (check_dependencies_tries_every_module
              (demo_world (fresh_checkout_env engine_ok) [])) as [HA _].
  destruct (check_dependencies_tries_every_module
              (demo_world (broken_checkout_env engine_ok) [])) as [_ HB].
  split; [exact (proj1 (HA H1))|].
  refine (proj1 (HB [("carla", "CARLA客户端")] "torch" "PyTorch深度学习" _
                   eq_refl _ eq_refl H2)).
  intros m' d' Hx. apply elem_of_cons in Hx as [Hx|Hx].
  - injection Hx as -> ->. right. eexists. reflexivity.
  - by apply elem_of_nil in Hx.
Defined.
